(** * Lithops standalone control plane: master controller and handler

  A shallow embedding of [lithops/standalone/master_controller.py] and
  [lithops/standalone/standalone.py], and the properties of the chunk
  partition, the job dispatch, the dismantle of the fleet, the readiness
  waits and the budget keeper, then of the routes of the controller, the
  runtime metadata and the log monitor.

  Conventions of the embedding:
  - Python integers are [Z]; [time.time()] readings and the timeouts are
    exact rationals [Q] (floats without rounding); [int(x)] on such a
    number truncates toward zero. The numbers are finite and within
    [Py.float_max]: infinities, NaN and the [OverflowError] of larger
    numbers are outside the embedding;
  - strings are ASCII; [int(s)] accepts the blanks, the sign and the
    underscores that Python accepts in ASCII;
  - the clock moves by the sleeps only: the time that a call on a
    collaborator takes is not counted, so that the statements on the time
    of an event are statements on the sleeps before it;
  - a Python exception is a value of an error type; a function that may
    raise returns a sum;
  - calls on the collaborators that live outside the two files (the VM
    backends, the ssh client, the HTTP requests) are answered by an
    environment record, and what the code asks of them is recorded in a
    trace of events. *)

From Stdlib Require Import ZArith List String Ascii QArith Qround Lia Lqa.
From Stdlib Require Import DecimalString DecimalPos DecimalN.
From stdpp Require Import base option list strings gmap fin_maps.

Set Warnings "-register-all".
Close Scope Q_scope.
Open Scope Z_scope.

(** ** Python primitives used by the two files *)

Module Py.

(** Exceptions the modelled code can raise. *)
Inductive exn : Type :=
| ValueError (msg : string)
| IndexError (msg : string)
| KeyError (key : string)
| TypeError (msg : string)
| AttributeError (msg : string)
| NameError (msg : string)
| Exception (msg : string).

(** Result of a call that may raise. *)
Definition res (A : Type) : Type := exn + A.

(** Number of elements of [range(start, stop, step)], for [step <> 0]. *)
Definition range_len (start stop step : Z) : Z :=
  if 0 <? step
  then (if start <? stop then (stop - start - 1) / step + 1 else 0)
  else (if stop <? start then (start - stop - 1) / (- step) + 1 else 0).

(** [range(start, stop, step)]: a zero step raises [ValueError]. *)
Definition range (start stop step : Z) : res (list Z) :=
  if step =? 0 then inl (ValueError "range() arg 3 must not be zero")
  else inr (map (fun k : nat => start + Z.of_nat k * step)
                (seq 0 (Z.to_nat (range_len start stop step)))).

(** Bound of a slice: a negative bound counts from the end, and every
    bound is clipped to the list. *)
Definition clamp_index (len i : Z) : Z :=
  if i <? 0 then Z.max 0 (i + len) else Z.min i len.

(** [l[i:j]]. *)
Definition slice {A : Type} (l : list A) (i j : Z) : list A :=
  let len := Z.of_nat (length l) in
  let lo := clamp_index len i in
  let hi := clamp_index len j in
  take (Z.to_nat (hi - lo)) (drop (Z.to_nat lo) l).

(** [l[i]]: a negative index counts from the end; out of range raises. *)
Definition index {A : Type} (l : list A) (i : Z) : res A :=
  let len := Z.of_nat (length l) in
  let i' := if i <? 0 then i + len else i in
  if i' <? 0 then inl (IndexError "list index out of range")
  else match l !! Z.to_nat i' with
       | Some x => inr x
       | None => inl (IndexError "list index out of range")
       end.

(** [l.pop(0)]: the first element and the rest; empty raises. *)
Definition pop0 {A : Type} (l : list A) : res (A * list A) :=
  match l with
  | [] => inl (IndexError "pop from empty list")
  | x :: l' => inr (x, l')
  end.

(** [int(x)] on a number: truncation toward zero. *)
Definition int_of_Q (x : Q) : Z := Z.quot (Qnum x) (Z.pos (Qden x)).

(** [a < b] on numbers. *)
Definition Qltb (a b : Q) : bool := negb (Qle_bool b a).

(** The largest finite float, and a length in seconds that [time.sleep]
    accepts: it raises [OverflowError] from 2^63 nanoseconds on, a little
    more than 9223372036 seconds. Numbers beyond [float_max] are outside
    the arithmetic modelled here. *)
Definition float_max : Q := inject_Z ((2 ^ 53 - 1) * 2 ^ 971).
Definition sleep_max : Q := 9223372036.

(** [c in chars]. *)
Fixpoint char_in (c : ascii) (chars : string) : bool :=
  match chars with
  | EmptyString => false
  | String c' chars' => Ascii.eqb c c' || char_in c chars'
  end.

(** [s.lstrip(chars)], [s.rstrip(chars)] and [s.strip(chars)]: the
    characters of [chars] are removed from the ends of [s]. *)
Fixpoint lstrip (chars s : string) : string :=
  match s with
  | EmptyString => EmptyString
  | String c s' => if char_in c chars then lstrip chars s' else s
  end.

Fixpoint rstrip (chars s : string) : string :=
  match s with
  | EmptyString => EmptyString
  | String c s' =>
      match rstrip chars s' with
      | EmptyString => if char_in c chars then EmptyString
                       else String c EmptyString
      | r => String c r
      end
  end.

Definition strip (chars s : string) : string := rstrip chars (lstrip chars s).

(** The ASCII characters that are blanks for [int]: tab, line feed,
    vertical tab, form feed, carriage return, the four separators 28 to 31
    and the space. *)
Definition whitespace : string :=
  string_of_list_ascii
    (map ascii_of_nat [9; 10; 11; 12; 13; 28; 29; 30; 31; 32]%nat).

(** The digits of a literal without its underscores: an underscore
    stands between two other characters only, and not next to another
    underscore. *)
Fixpoint drop_underscores (after_digit : bool) (s : string) : option string :=
  match s with
  | EmptyString => if after_digit then Some EmptyString else None
  | String "_" s' => if after_digit then drop_underscores false s' else None
  | String c s' => String c <$> drop_underscores true s'
  end.

(** [int(s)] on a string of ASCII characters: blanks around the number,
    an optional sign, and decimal digits with single underscores between
    them. (Python also reads the decimal digits and the blanks of other
    scripts; the strings here hold none.) *)
Definition int_of_str (s : string) : res Z :=
  let bad := inl (ValueError "invalid literal for int() with base 10") in
  let digits (d : string) : option Z :=
    match drop_underscores false d with
    | Some d' => Z.of_uint <$> NilEmpty.uint_of_string d'
    | None => None
    end in
  match strip whitespace s with
  | String "-" d => match digits d with Some z => inr (- z) | None => bad end
  | String "+" d => match digits d with Some z => inr z | None => bad end
  | t => match digits t with Some z => inr z | None => bad end
  end.

(** [c * n] for a one-character string [c]. *)
Fixpoint repeat_char (c : ascii) (n : nat) : string :=
  match n with
  | O => EmptyString
  | S n' => String c (repeat_char c n')
  end.

(** ["{:05d}".format(i)]: decimal, zero-padded to five characters, the
    sign first. *)
Definition format_05d (i : Z) : string :=
  let digits := NilZero.string_of_uint (N.to_uint (Z.abs_N i)) in
  if i <? 0
  then String "-" (repeat_char "0" (4 - String.length digits) ++ digits)
  else repeat_char "0" (5 - String.length digits) ++ digits.

(** [sub in s] on strings. *)
Fixpoint str_contains (sub s : string) : bool :=
  if String.prefix sub s then true
  else match s with
       | EmptyString => false
       | String _ s' => str_contains sub s'
       end.

End Py.

(** ** master_controller.py: the chunk partition *)

Module Chunks.

(** [iterchunks(lst, n)]: the chunks the generator yields, in order.
<<
    for i in range(0, len(lst), n):
        yield lst[i:i + n]
>> *)
Definition iterchunks {A : Type} (lst : list A) (n : Z) : Py.res (list (list A)) :=
  match Py.range 0 (Z.of_nat (length lst)) n with
  | inl e => inl e
  | inr idx => inr (map (fun i => Py.slice lst i (i + n)) idx)
  end.

(** ceil(L / C) for a positive C. *)
Definition ceil_div (L C : Z) : Z := (L + C - 1) / C.

(** The chunks written with natural numbers: chunk [k] is the [c]
    elements from position [k * c]. *)
Definition chunk_at {A : Type} (lst : list A) (c k : nat) : list A :=
  take c (drop (k * c) lst).

End Chunks.

(** ** JSON values: configurations, job payloads, messages *)

Inductive json : Type :=
| JNull
| JBool (b : bool)
| JInt (z : Z)
| JFloat (q : Q)
| JStr (s : string)
| JList (l : list json)
| JObj (m : gmap string json).

Module Json.

(** Truth value of a Python object. *)
Definition truthy (j : json) : bool :=
  match j with
  | JNull => false
  | JBool b => b
  | JInt z => negb (z =? 0)
  | JFloat q => negb (Qeq_bool q 0)
  | JStr s => negb (String.eqb s "")
  | JList l => match l with [] => false | _ => true end
  | JObj m => negb (bool_decide (m = ∅))
  end.

(** [j == s] for a string literal [s]: only a string equals a string. *)
Definition eq_str (j : json) (s : string) : bool :=
  match j with
  | JStr s' => String.eqb s' s
  | _ => false
  end.

(** [d[k]] for a string key. *)
Definition getitem (d : json) (k : string) : Py.res json :=
  match d with
  | JObj m => match m !! k with
              | Some v => inr v
              | None => inl (Py.KeyError k)
              end
  | _ => inl (Py.TypeError "indices must be integers or the object is not subscriptable")
  end.

(** [d.get(k, default)]. *)
Definition get (d : json) (k : string) (default : json) : Py.res json :=
  match d with
  | JObj m => inr (match m !! k with Some v => v | None => default end)
  | _ => inl (Py.AttributeError "object has no attribute 'get'")
  end.

(** [d[k] = v]. *)
Definition setitem (d : json) (k : string) (v : json) : Py.res json :=
  match d with
  | JObj m => inr (JObj (<[k := v]> m))
  | JList _ => inl (Py.TypeError "list indices must be integers or slices, not str")
  | _ => inl (Py.TypeError "object does not support item assignment")
  end.

(** A number in arithmetic ([bool] is a subclass of [int]). *)
Definition num (j : json) : Py.res Q :=
  match j with
  | JInt z => inr (inject_Z z)
  | JFloat q => inr q
  | JBool b => inr (if b then 1%Q else 0%Q)
  | _ => inl (Py.TypeError "unsupported operand type(s)")
  end.

(** [int(j)]. *)
Definition to_int (j : json) : Py.res Z :=
  match j with
  | JInt z => inr z
  | JFloat q => inr (Py.int_of_Q q)
  | JBool b => inr (if b then 1 else 0)
  | JStr s => Py.int_of_str s
  | _ => inl (Py.TypeError "int() argument must be a string or a number")
  end.

(** An argument of [range]: an integer. *)
Definition as_index (j : json) : Py.res Z :=
  match j with
  | JInt z => inr z
  | JBool b => inr (if b then 1 else 0)
  | _ => inl (Py.TypeError "object cannot be interpreted as an integer")
  end.

(** The elements of a list, for [len], slices and [pop]. (A string or a
    dict is a sequence for Python too; payloads carry lists here, and any
    other value raises.) *)
Definition as_list (j : json) : Py.res (list json) :=
  match j with
  | JList l => inr l
  | _ => inl (Py.TypeError "object is not a list")
  end.

End Json.

(** ** The fleet, the handler object and the world *)

(** A backend object (a VM instance): what [get_instance_id()] and
    [get_ip_address()] return, and the [delete_on_dismantle] attribute
    that [init_keeper] writes. *)
Record backend : Type := Backend {
  instance_name : string;
  instance_id : option string;
  ip_address : option string;
  delete_on_dismantle : bool }.

#[global] Instance backend_eq_dec : EqDecision backend.
Proof. solve_decision. Defined.

(** The attributes of a [StandaloneHandler]. *)
Record handler : Type := Handler {
  config : json;
  backend_name : json;
  runtime : json;
  is_lithops_worker : bool;
  start_timeout : json;
  auto_dismantle : json;
  disable_log_monitoring : json;
  hard_dismantle_timeout : json;
  soft_dismantle_timeout : json;
  use_http : json;
  encryption_key : json;
  exec_mode : json;
  backends : list backend;
  provided_backed : bool }.

(** State of a job in the registry of the controller: the strings
    ['running'] and ['done']. *)
Inductive job_state : Type := Running | Done.

#[global] Instance job_state_eq_dec : EqDecision job_state.
Proof. solve_decision. Defined.

(** What the code does to its collaborators. *)
Inductive event : Type :=
| EvDismantle                                   (* dismantle() entered *)
| EvStop (b : backend)                          (* backend.stop() *)
| EvStart (b : backend)                         (* backend.start() *)
| EvCreate (name_prefix name_suffix : string)   (* backend.create(prefix, suffix) *)
| EvSetupProxy (b : backend)                    (* _setup_proxy(backend) *)
| EvLogMonitor (job_key : string) (b : backend) (* the log monitor thread starts *)
| EvInvoke (b : backend) (payload : json)       (* _single_invoke posts to /run *)
| EvSetupWorker (worker_info : json)            (* master: the set up of a worker begins *)
| EvPost (host : json) (payload : json)         (* master: requests.post to /run *)
| EvLocalRun (message : json)                   (* LocalhostHandler.run_job *)
| EvThreadInvoke (job_key call_id : string) (payload : json)
                                                (* executor.submit(self._thread_invoke, ...) *)
| EvSubmit (worker_info : json) (call_ids_range : list json) (payload : json)
                                                (* executor.submit(run_job_on_worker, ...) *)
| EvLog (msg : string).                         (* an error that is only logged *)

(** The state the two files share: the clock, the trace of events, the
    handler object ([self] in standalone.py, the global
    [standalone_handler] of the controller) and the globals
    [last_usage_time] and [jobs] of the controller. *)
Record world : Type := World {
  now : Q;
  trace : list (Q * event);
  self : handler;
  last_usage_time : Q;
  jobs : gmap string job_state }.

Definition set_now (t : Q) (w : world) : world :=
  World t (trace w) (self w) (last_usage_time w) (jobs w).
Definition add_event (e : event) (w : world) : world :=
  World (now w) (trace w ++ [(now w, e)]) (self w) (last_usage_time w) (jobs w).
Definition set_self (h : handler) (w : world) : world :=
  World (now w) (trace w) h (last_usage_time w) (jobs w).
Definition set_last_usage_time (t : Q) (w : world) : world :=
  World (now w) (trace w) (self w) t (jobs w).
Definition set_jobs (js : gmap string job_state) (w : world) : world :=
  World (now w) (trace w) (self w) (last_usage_time w) js.

Definition set_backends (bs : list backend) (h : handler) : handler :=
  Handler (config h) (backend_name h) (runtime h) (is_lithops_worker h)
          (start_timeout h) (auto_dismantle h) (disable_log_monitoring h)
          (hard_dismantle_timeout h) (soft_dismantle_timeout h) (use_http h)
          (encryption_key h) (exec_mode h) bs (provided_backed h).
Definition set_auto_dismantle (v : json) (h : handler) : handler :=
  Handler (config h) (backend_name h) (runtime h) (is_lithops_worker h)
          (start_timeout h) v (disable_log_monitoring h)
          (hard_dismantle_timeout h) (soft_dismantle_timeout h) (use_http h)
          (encryption_key h) (exec_mode h) (backends h) (provided_backed h).
Definition set_soft_dismantle_timeout (v : json) (h : handler) : handler :=
  Handler (config h) (backend_name h) (runtime h) (is_lithops_worker h)
          (start_timeout h) (auto_dismantle h) (disable_log_monitoring h)
          (hard_dismantle_timeout h) v (use_http h)
          (encryption_key h) (exec_mode h) (backends h) (provided_backed h).
Definition set_hard_dismantle_timeout (v : json) (h : handler) : handler :=
  Handler (config h) (backend_name h) (runtime h) (is_lithops_worker h)
          (start_timeout h) (auto_dismantle h) (disable_log_monitoring h)
          v (soft_dismantle_timeout h) (use_http h)
          (encryption_key h) (exec_mode h) (backends h) (provided_backed h).

(** Several events at the current time. *)
Definition add_events (es : list event) (w : world) : world :=
  World (now w) (trace w ++ map (pair (now w)) es) (self w)
        (last_usage_time w) (jobs w).

(** The events of a trace, without their times. *)
Definition events (w : world) : list event := map snd (trace w).

(** The backends a trace stops, in order. *)
Definition stopped (te : Q * event) : option backend :=
  match snd te with EvStop b => Some b | _ => None end.
Definition stops (tr : list (Q * event)) : list backend := omap stopped tr.

(** The requests a trace posts to the workers: host and payload. *)
Definition posted (te : Q * event) : option (json * json) :=
  match snd te with EvPost host payload => Some (host, payload) | _ => None end.
Definition posts (tr : list (Q * event)) : list (json * json) := omap posted tr.

(** The times at which a trace enters [dismantle]. *)
Definition dismantled (te : Q * event) : option Q :=
  match snd te with EvDismantle => Some (fst te) | _ => None end.
Definition dismantle_times (tr : list (Q * event)) : list Q := omap dismantled tr.

(** The events of the fleet: starts, stops and entries in [dismantle]. *)
Definition is_fleet_event (e : event) : bool :=
  match e with
  | EvDismantle | EvStop _ | EvStart _ => true
  | _ => false
  end.

(** Any event. *)
Definition any_event (e : event) : bool := true.

(** The log monitors a trace starts. *)
Definition is_log_monitor (e : event) : bool :=
  match e with
  | EvLogMonitor _ _ => true
  | _ => false
  end.

(** [w'] comes after [w]: the handler object is the same and the trace
    has grown by events of the kind [P] only. *)
Definition evolves (P : event -> bool) (w w' : world) : Prop :=
  self w' = self w
  /\ exists tes, trace w' = trace w ++ tes
                 /\ Forall (fun te => P (snd te) = true) tes.

(** [w'] is [w] at another time. *)
Definition clock_only (w w' : world) : Prop := exists t, w' = set_now t w.

(** ** The collaborators

    Everything the two files call and do not define: the answers depend
    on the time of the call. *)
Record env : Type := Env {
  (* lithops.utils, lithops.storage.utils, uuid *)
  env_is_lithops_worker : bool;
  create_job_key : json -> json -> Py.res string;
  verify_runtime_name : json -> Py.res unit;
  new_activation_id : Q -> string;
  (* the backend module: StandaloneBackend and its methods *)
  new_backend : json -> Py.res backend;
  backend_create : backend -> string -> string -> Py.res backend;
  backend_start : backend -> Q -> Py.res unit;
  backend_stop : backend -> Q -> Py.res unit;
  backend_is_ready : backend -> Q -> Py.res bool;
  (* ssh and http towards a backend of the handler *)
  ssh_run_id : backend -> Q -> Py.res unit;
  ssh_curl_ping : backend -> Q -> Py.res json;
  http_get_ping : option string -> Q -> Py.res Z;
  install_proxy : backend -> Q -> Py.res unit;
  http_post_run : option string -> json -> Q -> Py.res json;
  ssh_curl_run : backend -> json -> Q -> Py.res json;
  (* the controller: files, ssh and http towards a worker, local runs *)
  done_file_exists : string -> Q -> bool;
  worker_ssh_id : json -> Q -> Py.res unit;
  worker_upload : json -> Q -> Py.res unit;
  worker_install : json -> Q -> Py.res unit;
  worker_get_ping : json -> Q -> Py.res Z;
  worker_post_run : json -> json -> Q -> Py.res json;
  localhost_run_job : json -> Q -> Py.res unit }.

(** ** Computations: state, exceptions, and loops that may go on *)

Inductive outcome (A : Type) : Type :=
| Ret (a : A)
| Raise (e : Py.exn)
| OutOfFuel.
Arguments Ret {A} a.
Arguments Raise {A} e.
Arguments OutOfFuel {A}.

Definition M (A : Type) : Type := world -> outcome A * world.

Definition ret {A : Type} (a : A) : M A := fun w => (Ret a, w).
Definition raise {A : Type} (e : Py.exn) : M A := fun w => (Raise e, w).
Definition bind {A B : Type} (c : M A) (k : A -> M B) : M B :=
  fun w => match c w with
           | (Ret a, w') => k a w'
           | (Raise e, w') => (Raise e, w')
           | (OutOfFuel, w') => (OutOfFuel, w')
           end.

Notation "x <- c1 ;; c2" := (bind c1 (fun x => c2))
  (at level 100, c1 at next level, right associativity).
Notation "c1 ;; c2" := (bind c1 (fun _ => c2))
  (at level 100, right associativity).

(** The result of a call that may raise. *)
Definition lift {A : Type} (r : Py.res A) : M A :=
  match r with
  | inl e => raise e
  | inr a => ret a
  end.

(** [try: c except Exception: handler]. *)
Definition try_except {A : Type} (c : M A) (h : Py.exn -> M A) : M A :=
  fun w => match c w with
           | (Raise e, w') => h e w'
           | r => r
           end.

Definition get_world : M world := fun w => (Ret w, w).
Definition modify (f : world -> world) : M unit := fun w => (Ret tt, f w).
Definition emit (e : event) : M unit := modify (add_event e).

(** [time.time()]. *)
Definition time_time : M Q := fun w => (Ret (now w), w).

(** [time.sleep(d)]: a negative length raises. The lengths are those that
    [time.sleep] accepts, up to [Py.sleep_max]; beyond it the call raises
    [OverflowError], which this definition does not do. *)
Definition sleep (d : Q) : M unit :=
  if Py.Qltb d 0 then raise (Py.ValueError "sleep length must be non-negative")
  else modify (fun w => set_now (now w + d)%Q w).

(** A call on a collaborator at the current time. The time that the call
    itself takes is not counted: the clock moves by the sleeps only. *)
Definition call {A : Type} (f : Q -> Py.res A) : M A :=
  fun w => lift (f (now w)) w.

(** [c] returns or raises: its loops have fuel enough. *)
Definition total {A : Type} (c : M A) : Prop :=
  forall w, fst (c w) <> OutOfFuel.

(** Every run of [c] takes a world to one that [R] relates to it. *)
Definition steps {A : Type} (R : relation world) (c : M A) : Prop :=
  forall w, R w (snd (c w)).

(** The loop of the four readiness waits:
<<
    while(time.time() - start < timeout):
        if check(): return True
        time.sleep(interval)
>>
    [true] when the check succeeded, [false] when the loop ended. *)
Fixpoint wait_loop (fuel : nat) (check : M bool) (interval timeout start : Q) : M bool :=
  match fuel with
  | O => fun w => (OutOfFuel, w)
  | S fuel' =>
      t <- time_time ;;
      if Py.Qltb (t - start) timeout then
        ready <- check ;;
        if ready then ret true
        else sleep interval ;; wait_loop fuel' check interval timeout start
      else ret false
  end.

(** Iterations that exhaust a timeout at a positive interval: one per
    poll, and the last test of the loop. *)
Definition wait_fuel (interval timeout : Q) : nat :=
  S (Z.to_nat (Qceiling (timeout / interval))).

(** ** standalone.py: [StandaloneHandler] *)

Module Standalone.
Section WithEnv.
Context (E : env).

Definition PROXY_SERVICE_PORT : Z := 8080.

(** [create_backend_handler()], without instance id and ip address. *)
Definition create_backend_handler (h : handler) : Py.res backend :=
  match backend_name h with
  | JStr name =>
      match Json.getitem (config h) name with
      | inl e => inl e
      | inr section => new_backend E section
      end
  | _ => inl (Py.TypeError "unhashable or missing backend name")
  end.

(** [StandaloneHandler.__init__(standalone_config)]. *)
Definition __init__ (standalone_config : json) : Py.res handler :=
  match Json.getitem standalone_config "backend" with inl e => inl e | inr bname =>
  match Json.getitem standalone_config "runtime" with inl e => inl e | inr rt =>
  match Json.get standalone_config "start_timeout" (JInt 300) with inl e => inl e | inr st =>
  match Json.get standalone_config "auto_dismantle" JNull with inl e => inl e | inr ad =>
  match Json.get standalone_config "disable_log_monitoring" (JBool false) with inl e => inl e | inr dlm =>
  match Json.get standalone_config "hard_dismantle_timeout" JNull with inl e => inl e | inr hard =>
  match Json.get standalone_config "soft_dismantle_timeout" JNull with inl e => inl e | inr soft =>
  match Json.get standalone_config "use_http" (JBool false) with inl e => inl e | inr http =>
  match Json.get standalone_config "encryption_key" JNull with inl e => inl e | inr key =>
  if Json.truthy http && negb (Json.truthy key)
  then inl (Py.Exception "You must provide an 'encryption_key' in the 'standalone' section of your config")
  else
  let h0 := Handler standalone_config bname rt (env_is_lithops_worker E)
                    st ad dlm hard soft http key JNull [] false in
  match create_backend_handler h0 with inl e => inl e | inr backend =>
  match Json.get standalone_config "exec_mode" (JStr "consume") with inl e => inl e | inr mode =>
  if negb (Json.eq_str mode "create")
     && bool_decide (ip_address backend <> None)
     && bool_decide (instance_id backend <> None)
  then inr (Handler standalone_config bname rt (env_is_lithops_worker E)
                    st ad dlm hard soft http key mode [backend] true)
  else inr (Handler standalone_config bname rt (env_is_lithops_worker E)
                    st ad dlm hard soft http key mode [] false)
  end end end end end end end end end end end.

(** The loop of [dismantle]: [for backend in self.backends: backend.stop()]. *)
Fixpoint stop_all (bs : list backend) : M unit :=
  match bs with
  | [] => ret tt
  | b :: bs' => emit (EvStop b) ;; call (backend_stop E b) ;; stop_all bs'
  end.

(** [dismantle()]. *)
Definition dismantle : M unit :=
  emit EvDismantle ;;
  w <- get_world ;;
  stop_all (backends (self w)).

(** [_is_backend_ready(backend)]. *)
Definition _is_backend_ready (b : backend) : M bool :=
  try_except
    (ready <- call (backend_is_ready E b) ;;
     if ready then call (ssh_run_id E b) ;; ret true
     else ret false)
    (fun _ => ret false).

(** [_wait_backend_ready(backend)]. *)
Definition _wait_backend_ready (b : backend) : M bool :=
  start <- time_time ;;
  w <- get_world ;;
  timeout <- lift (Json.num (start_timeout (self w))) ;;
  ok <- wait_loop (wait_fuel 5 timeout) (_is_backend_ready b) 5 timeout start ;;
  if ok then ret true
  else dismantle ;;
       raise (Py.Exception "VM readiness probe expired. Check your VM").

(** [_start_backend(backend)]. *)
Definition _start_backend (b : backend) : M unit :=
  emit (EvStart b) ;;
  call (backend_start E b) ;;
  _wait_backend_ready b ;;
  ret tt.

(** [_is_proxy_ready(backend)]: [None], which the last branch falls
    through to, is [false]. *)
Definition _is_proxy_ready (b : backend) : M bool :=
  w <- get_world ;;
  try_except
    (if is_lithops_worker (self w) || Json.truthy (use_http (self w)) then
       let ip_addr := if Json.truthy (use_http (self w)) then ip_address b
                      else Some "127.0.0.1"%string in
       status <- call (http_get_ping E ip_addr) ;;
       ret (status =? 200)
     else
       data <- call (ssh_curl_ping E b) ;;
       response <- lift (Json.getitem data "response") ;;
       ret (Json.eq_str response "pong"))
    (fun _ => ret false).

(** [_wait_proxy_ready(backend)]. *)
Definition _wait_proxy_ready (b : backend) : M bool :=
  start <- time_time ;;
  w <- get_world ;;
  timeout <- lift (Json.num (start_timeout (self w))) ;;
  ok <- wait_loop (wait_fuel 2 timeout) (_is_proxy_ready b) 2 timeout start ;;
  if ok then ret true
  else dismantle ;;
       raise (Py.Exception "Proxy readiness probe expired. Check your VM").

(** [_start_log_monitor(executor_id, job_id, backend)]: the thread
    that polls the remote log is started, or not. *)
Definition _start_log_monitor (executor_id job_id : json) (b : backend) : M unit :=
  job_key <- lift (create_job_key E executor_id job_id) ;;
  w <- get_world ;;
  if negb (is_lithops_worker (self w)) then emit (EvLogMonitor job_key b)
  else ret tt.

(** [_single_invoke(backend, job_payload)]: the activation id. *)
Definition _single_invoke (b : backend) (job_payload : json) : M json :=
  executor_id <- lift (Json.getitem job_payload "executor_id") ;;
  job_id <- lift (Json.getitem job_payload "job_id") ;;
  job_key <- lift (create_job_key E executor_id job_id) ;;
  ready <- _is_proxy_ready b ;;
  (if negb ready then _start_backend b ;; _wait_proxy_ready b ;; ret tt
   else ret tt) ;;
  w <- get_world ;;
  (if Json.eq_str (disable_log_monitoring (self w)) "False"
   then _start_log_monitor executor_id job_id b
   else ret tt) ;;
  emit (EvInvoke b job_payload) ;;
  response <-
    (if is_lithops_worker (self w) || Json.truthy (use_http (self w)) then
       let ip_addr := if Json.truthy (use_http (self w)) then ip_address b
                      else Some "127.0.0.1"%string in
       call (http_post_run E ip_addr job_payload)
     else call (ssh_curl_run E b job_payload)) ;;
  lift (Json.getitem response "activationId").

(** [create(lock, name_prefix, name_suffix)]. *)
Definition create (name_prefix name_suffix : string) : M backend :=
  w <- get_world ;;
  b0 <- lift (create_backend_handler (self w)) ;;
  emit (EvCreate name_prefix name_suffix) ;;
  b <- lift (backend_create E b0 name_prefix name_suffix) ;;
  modify (fun w => set_self (set_backends (backends (self w) ++ [b]) (self w)) w) ;;
  _start_backend b ;;
  emit (EvSetupProxy b) ;;
  call (install_proxy E b) ;;
  _wait_proxy_ready b ;;
  ret b.

(** [_thread_invoke(lock, job_key, call_id, job_payload)]: it has no
    [return], and gives [None]. *)
Definition _thread_invoke (job_key call_id : string) (job_payload : json) : M json :=
  b <- create job_key call_id ;;
  jd <- lift (Json.getitem job_payload "job_description") ;;
  jd' <- lift (Json.setitem jd "call_id" (JStr call_id)) ;;
  job_payload' <- lift (Json.setitem job_payload "job_description" jd') ;;
  _single_invoke b job_payload' ;;
  ret JNull.

(** The loop of [run_job] that submits one task per call. *)
Fixpoint submit_calls (job_key : string) (idx : list Z) (job_payload : json) : M unit :=
  match idx with
  | [] => ret tt
  | i :: idx' =>
      emit (EvThreadInvoke job_key (Py.format_05d i) job_payload) ;;
      submit_calls job_key idx' job_payload
  end.

(** [run_job(job_payload)]: the activation id, or [None]. *)
Definition run_job (job_payload : json) : M json :=
  w <- get_world ;;
  if provided_backed (self w) then
    b <- lift (Py.index (backends (self w)) 0) ;;
    _single_invoke b job_payload
  else
    executor_id <- lift (Json.getitem job_payload "executor_id") ;;
    job_id <- lift (Json.getitem job_payload "job_id") ;;
    job_key <- lift (create_job_key E executor_id job_id) ;;
    jd <- lift (Json.getitem job_payload "job_description") ;;
    total_calls <- lift (Json.getitem jd "total_calls") ;;
    max_workers <- lift (Json.to_int total_calls) ;;
    if max_workers <=? 0
    then raise (Py.ValueError "max_workers must be greater than 0")
    else
      n <- lift (Json.as_index total_calls) ;;
      idx <- lift (Py.range 0 n 1) ;;
      submit_calls job_key idx job_payload ;;
      ret JNull.

(** The tasks of the pool run one after the other, in the order of
    their submission (one of the schedules of the pool); what a task
    raises stays in its future. *)
Fixpoint run_pool (tasks : list (string * string * json)) : M unit :=
  match tasks with
  | [] => ret tt
  | (job_key, call_id, payload) :: tasks' =>
      try_except (_thread_invoke job_key call_id payload ;; ret tt)
                 (fun _ => ret tt) ;;
      run_pool tasks'
  end.

End WithEnv.
End Standalone.

(** ** master_controller.py *)

Module Controller.
Section WithEnv.
Context (E : env).

Definition START_TIMEOUT : Q := 300.

(** The registry after
<<
    for job_key in jobs.keys():
        if os.path.isfile(done): jobs[job_key] = 'done'
>> *)
Definition refresh_jobs (t : Q) (js : gmap string job_state) : gmap string job_state :=
  map_imap (fun job_key st => if done_file_exists E job_key t then Some Done
                              else Some st) js.

(** [all(value == 'done' for value in jobs.values())]. *)
Definition all_done (js : gmap string job_state) : bool :=
  bool_decide (map_Forall (fun _ st => st = Done) js).

(** The test of the keeper for a fully idle fleet:
    [len(jobs) > 0 and all(...) and standalone_handler.auto_dismantle]. *)
Definition fully_idle (w : world) : bool :=
  (0 <? Z.of_nat (size (jobs w))) && all_done (jobs w)
  && Json.truthy (auto_dismantle (self w)).

(** One iteration of the [while True] loop of [budget_keeper], from the
    value of the local [jobs_running] to its next value. *)
Definition budget_keeper_iter (jobs_running : bool) : M bool :=
  t1 <- time_time ;;
  w <- get_world ;;
  let time_since_last_usage := (t1 - last_usage_time w)%Q in
  soft <- lift (Json.num (soft_dismantle_timeout (self w))) ;;
  let check_interval := (soft / 10)%Q in
  modify (fun w => set_jobs (refresh_jobs (now w) (jobs w)) w) ;;
  w <- get_world ;;
  r <- (if fully_idle w then
          since <- (if jobs_running then
                      t2 <- time_time ;;
                      modify (set_last_usage_time t2) ;;
                      t3 <- time_time ;;
                      ret (t3 - t2)%Q
                    else ret time_since_last_usage) ;;
          soft <- lift (Json.num (soft_dismantle_timeout (self w))) ;;
          ret (Py.int_of_Q (soft - since), false)
        else
          hard <- lift (Json.num (hard_dismantle_timeout (self w))) ;;
          ret (Py.int_of_Q (hard - time_since_last_usage), true)) ;;
  let time_to_dismantle := fst r in
  (if 0 <? time_to_dismantle then sleep check_interval
   else try_except (Standalone.dismantle E)
                   (fun e => emit (EvLog "Dismantle error"))) ;;
  ret (snd r).

(** The fleet cannot become fully idle: [auto_dismantle] is off, or the
    registry is empty, or a job is running whose completion marker never
    appears. *)
Definition never_idle (w : world) : Prop :=
  Json.truthy (auto_dismantle (self w)) = false
  \/ jobs w = ∅
  \/ exists job_key, jobs w !! job_key = Some Running
                     /\ forall t, done_file_exists E job_key t = false.

(** [budget_keeper()]: the loop never returns; [fuel] iterations of it
    leave the world where the loop then stands. *)
Fixpoint budget_keeper_loop (fuel : nat) (jobs_running : bool) : M unit :=
  match fuel with
  | O => fun w => (OutOfFuel, w)
  | S fuel' =>
      jobs_running' <- budget_keeper_iter jobs_running ;;
      budget_keeper_loop fuel' jobs_running'
  end.

Definition budget_keeper (fuel : nat) : M unit := budget_keeper_loop fuel false.

(** [False if 'master' in vsi_details['instance_name'] else True], the
    value that line 144 of [init_keeper] gives to [delete_on_dismantle]. *)
Definition vsi_delete_on_dismantle (instance_name : string) : bool :=
  if Py.str_contains "master" instance_name then false else true.

(** [init_keeper()] on the access data and the global [standalone_config],
    both parsed. Line 141 reads [standalone_handler.backend], an attribute
    that no line of [StandaloneHandler] sets (its [__init__] keeps the
    backend in a local variable and in [self.backends]): it raises
    [AttributeError] once the handler is built, so that lines 142 to 148
    are not reached, no worker object is added to the fleet and the thread
    of the keeper is not started. *)
Definition init_keeper (standalone_config vsi_details : json) : M unit :=
  lift (Json.getitem vsi_details "instance_name") ;;
  lift (Json.getitem vsi_details "ip_address") ;;
  lift (Json.getitem vsi_details "instance_id") ;;
  h <- lift (Standalone.__init__ E standalone_config) ;;
  modify (set_self h) ;;
  raise (Py.AttributeError "'StandaloneHandler' object has no attribute 'backend'").

(** [is_instance_ready(ssh_client)]. *)
Definition is_instance_ready (ip_address : json) : M bool :=
  try_except (call (worker_ssh_id E ip_address) ;; ret true)
             (fun _ => ret false).

(** [wait_instance_ready(ssh_client)]. *)
Definition wait_instance_ready (ip_address : json) : M bool :=
  start <- time_time ;;
  ok <- wait_loop (wait_fuel 5 START_TIMEOUT) (is_instance_ready ip_address)
                  5 START_TIMEOUT start ;;
  if ok then ret true
  else raise (Py.Exception "VM readiness probe expired. Check your master VM").

(** [is_proxy_ready(ip_addr)]. *)
Definition is_proxy_ready (ip_address : json) : M bool :=
  try_except (status <- call (worker_get_ping E ip_address) ;;
              ret (status =? 200))
             (fun _ => ret false).

(** [wait_proxy_ready(ip_addr)]. *)
Definition wait_proxy_ready (ip_address : json) : M bool :=
  start <- time_time ;;
  ok <- wait_loop (wait_fuel 2 START_TIMEOUT) (is_proxy_ready ip_address)
                  2 START_TIMEOUT start ;;
  if ok then ret true
  else raise (Py.Exception "Proxy readiness probe expired. Check your VM").

(** [instance_name, ip_address, instance_id = worker_info]. *)
Definition unpack_worker_info (worker_info : json) : Py.res (json * json * json) :=
  match worker_info with
  | JList [instance_name; ip_address; instance_id] =>
      inr (instance_name, ip_address, instance_id)
  | JList _ => inl (Py.ValueError "wrong number of values to unpack")
  | _ => inl (Py.TypeError "cannot unpack non-iterable object")
  end.

(** [[dbr[int(call_id)] for call_id in call_ids_range]]. *)
Fixpoint select_ranges (dbr : list json) (call_ids_range : list json) : Py.res (list json) :=
  match call_ids_range with
  | [] => inr []
  | call_id :: rest =>
      match Json.to_int call_id with
      | inl e => inl e
      | inr i =>
          match Py.index dbr i with
          | inl e => inl e
          | inr entry =>
              match select_ranges dbr rest with
              | inl e => inl e
              | inr entries => inr (entry :: entries)
              end
          end
      end
  end.

(** The payload of a chunk, lines 241 to 243 of [run_job_on_worker]. *)
Definition chunk_payload (call_ids_range : list json) (job_payload : json) : Py.res json :=
  match Json.getitem job_payload "data_byte_ranges" with inl e => inl e | inr dbr =>
  match Json.setitem job_payload "call_ids" (JList call_ids_range) with inl e => inl e | inr p1 =>
  match Json.as_list dbr with inl e => inl e | inr dbr_l =>
  match select_ranges dbr_l call_ids_range with inl e => inl e | inr entries =>
  Json.setitem p1 "data_byte_ranges" (JList entries)
  end end end end.

(** [', '.join(call_ids_range)] in the two log lines: strings only. *)
Definition join_call_ids (call_ids_range : list json) : Py.res unit :=
  if forallb (fun c => match c with JStr _ => true | _ => false end) call_ids_range
  then inr tt
  else inl (Py.TypeError "sequence item: expected str instance").

(** [get_host_setup_scritp(instance_name, ip_address, instance_id)], line
    234: master_controller.py neither defines nor imports this name, so
    that the call raises [NameError]. *)
Definition get_host_setup_scritp (instance_name ip_address instance_id : json)
    : M unit :=
  raise (Py.NameError "name 'get_host_setup_scritp' is not defined").

(** [run_job_on_worker(worker_info, call_ids_range, job_payload)]: the
    upload of the package (line 232), the script (line 234), its remote
    run (lines 235 and 236), and the rest. *)
Definition run_job_on_worker (worker_info : json) (call_ids_range : list json)
    (job_payload : json) : M unit :=
  info <- lift (unpack_worker_info worker_info) ;;
  let ip_address := snd (fst info) in
  wait_instance_ready ip_address ;;
  emit (EvSetupWorker worker_info) ;;
  call (worker_upload E worker_info) ;;
  get_host_setup_scritp (fst (fst info)) ip_address (snd info) ;;
  call (worker_install E worker_info) ;;
  wait_proxy_ready ip_address ;;
  payload <- lift (chunk_payload call_ids_range job_payload) ;;
  emit (EvPost ip_address payload) ;;
  response <- call (worker_post_run E ip_address payload) ;;
  match response with
  | JObj m =>
      lift (join_call_ids call_ids_range) ;;
      match m !! "activationId" with
      | Some _ => ret tt
      | None => lift (Json.getitem response "error") ;;
                emit (EvLog "Invocation failed")
      end
  | _ => raise (Py.TypeError "argument is not a dict")
  end.

(** The loop of [run_job] over the chunks:
<<
    worker_info = workers.pop(0)
    executor.submit(run_job_on_worker, worker_info, call_ids_range,
                    copy.deepcopy(job_payload))
>> *)
Fixpoint submit_chunks (chunks : list (list json)) (workers : list json)
    (job_payload : json) : M unit :=
  match chunks with
  | [] => ret tt
  | call_ids_range :: chunks' =>
      popped <- lift (Py.pop0 workers) ;;
      emit (EvSubmit (fst popped) call_ids_range job_payload) ;;
      submit_chunks chunks' (snd popped) job_payload
  end.

(** [isinstance(message, dict)]. *)
Definition is_dict (j : json) : bool :=
  match j with JObj _ => true | _ => false end.

(** [run_job()], on [sys.argv[2]] and [sys.argv[3]] once parsed. The
    update of the global [STANDALONE_CONFIG] is kept as the test that its
    argument is a dict; in the other mode the job goes to the proxy of the
    controller itself. *)
Definition run_job (job_payload workers_arg : json) : M unit :=
  cfg <- lift (Json.getitem job_payload "config") ;;
  standalone <- lift (Json.getitem cfg "standalone") ;;
  (if is_dict standalone then ret tt
   else raise (Py.TypeError "STANDALONE_CONFIG.update() needs a mapping")) ;;
  exec_mode <- lift (Json.get standalone "exec_mode" (JStr "consume")) ;;
  if Json.eq_str exec_mode "create" then
    call_ids <- lift (Json.getitem job_payload "call_ids") ;;
    chunksize <- lift (Json.getitem job_payload "chunksize") ;;
    workers <- lift (Json.as_list workers_arg) ;;
    if (length workers =? 0)%nat
    then raise (Py.ValueError "max_workers must be greater than 0")
    else
      ids <- lift (Json.as_list call_ids) ;;
      n <- lift (Json.as_index chunksize) ;;
      chunks <- lift (Chunks.iterchunks ids n) ;;
      submit_chunks chunks workers job_payload
  else
    emit (EvPost (JStr "127.0.0.1") job_payload) ;;
    call (worker_post_run E (JStr "127.0.0.1") job_payload) ;;
    ret tt.

(** [error(msg)]: the response and its status code. *)
Definition error (msg : string) : Z * json :=
  (404, JObj {[ "error"%string := JStr msg ]}).

(** [str(e)]. *)
Definition exn_str (e : Py.exn) : string :=
  match e with
  | Py.ValueError m | Py.IndexError m | Py.TypeError m
  | Py.AttributeError m | Py.NameError m | Py.Exception m => m
  | Py.KeyError k => ("'" ++ k ++ "'")%string
  end.

(** The handler of [POST /run] on the parsed body ([None] when the body
    is not JSON): the status code and the body of the response. *)
Definition run (message : json) : M (Z * json) :=
  if Json.truthy message && negb (is_dict message)
  then ret (error "The action did not receive a dictionary as an argument.")
  else
    checked <- try_except
                 (runtime <- lift (Json.getitem message "runtime_name") ;;
                  lift (verify_runtime_name E runtime) ;;
                  ret (inr runtime))
                 (fun e => ret (inl e)) ;;
    match checked with
    | inl e => ret (error (exn_str e))
    | inr runtime =>
        t <- time_time ;;
        modify (set_last_usage_time t) ;;
        cfg <- lift (Json.getitem message "config") ;;
        standalone_config <- lift (Json.getitem cfg "standalone") ;;
        auto <- lift (Json.getitem standalone_config "auto_dismantle") ;;
        modify (fun w => set_self (set_auto_dismantle auto (self w)) w) ;;
        soft <- lift (Json.getitem standalone_config "soft_dismantle_timeout") ;;
        modify (fun w => set_self (set_soft_dismantle_timeout soft (self w)) w) ;;
        hard <- lift (Json.getitem standalone_config "hard_dismantle_timeout") ;;
        modify (fun w => set_self (set_hard_dismantle_timeout hard (self w)) w) ;;
        act_id <- (t' <- time_time ;; ret (new_activation_id E t')) ;;
        executor_id <- lift (Json.getitem message "executor_id") ;;
        job_id <- lift (Json.getitem message "job_id") ;;
        job_key <- lift (create_job_key E executor_id job_id) ;;
        modify (fun w => set_jobs (<[job_key := Running]> (jobs w)) w) ;;
        pull_runtime <- lift (Json.get standalone_config "pull_runtime" (JBool false)) ;;
        emit (EvLocalRun message) ;;
        call (localhost_run_job E message) ;;
        ret (202, JObj {[ "activationId"%string := JStr act_id ]})
    end.

End WithEnv.
End Controller.

(** ** Concrete collaborators, fleets and payloads for the examples *)

Module Scenario.

(** Collaborators that answer at once and never fail. *)
Definition calm : env := {|
  env_is_lithops_worker := false;
  create_job_key := fun executor_id job_id =>
    match executor_id, job_id with
    | JStr e, JStr j => inr (e ++ "-" ++ j)%string
    | _, _ => inl (Py.TypeError "sequence item: expected str instance")
    end;
  verify_runtime_name := fun _ => inr tt;
  new_activation_id := fun _ => "0f1e2d3c4b5a"%string;
  new_backend := fun _ => inr (Backend "" None None true);
  backend_create := fun _ name_prefix name_suffix =>
    inr (Backend (name_prefix ++ "-" ++ name_suffix)%string
                 (Some ("id-" ++ name_suffix)%string)
                 (Some ("10.0.0." ++ name_suffix)%string) true);
  backend_start := fun _ _ => inr tt;
  backend_stop := fun _ _ => inr tt;
  backend_is_ready := fun _ _ => inr true;
  ssh_run_id := fun _ _ => inr tt;
  ssh_curl_ping := fun _ _ => inr (JObj {[ "response"%string := JStr "pong" ]});
  http_get_ping := fun _ _ => inr 200;
  install_proxy := fun _ _ => inr tt;
  http_post_run := fun _ _ _ => inr (JObj {[ "activationId"%string := JStr "a1" ]});
  ssh_curl_run := fun _ _ _ => inr (JObj {[ "activationId"%string := JStr "a1" ]});
  done_file_exists := fun _ _ => false;
  worker_ssh_id := fun _ _ => inr tt;
  worker_upload := fun _ _ => inr tt;
  worker_install := fun _ _ => inr tt;
  worker_get_ping := fun _ _ => inr 200;
  worker_post_run := fun _ _ _ => inr (JObj {[ "activationId"%string := JStr "a1" ]});
  localhost_run_job := fun _ _ => inr tt |}.

(** The same collaborators with another answer to [backend.stop()]. *)
Definition with_stop (f : backend -> Q -> Py.res unit) (E : env) : env :=
  Env (env_is_lithops_worker E) (create_job_key E) (verify_runtime_name E)
      (new_activation_id E) (new_backend E) (backend_create E)
      (backend_start E) f (backend_is_ready E) (ssh_run_id E)
      (ssh_curl_ping E) (http_get_ping E) (install_proxy E) (http_post_run E)
      (ssh_curl_run E) (done_file_exists E) (worker_ssh_id E)
      (worker_upload E) (worker_install E) (worker_get_ping E)
      (worker_post_run E)
      (localhost_run_job E).

(** The same collaborators with another answer to [backend.is_ready()]. *)
Definition with_is_ready (f : backend -> Q -> Py.res bool) (E : env) : env :=
  Env (env_is_lithops_worker E) (create_job_key E) (verify_runtime_name E)
      (new_activation_id E) (new_backend E) (backend_create E)
      (backend_start E) (backend_stop E) f (ssh_run_id E)
      (ssh_curl_ping E) (http_get_ping E) (install_proxy E) (http_post_run E)
      (ssh_curl_run E) (done_file_exists E) (worker_ssh_id E)
      (worker_upload E) (worker_install E) (worker_get_ping E)
      (worker_post_run E)
      (localhost_run_job E).

(** The same collaborators with another answer to the ping through ssh. *)
Definition with_curl_ping (f : backend -> Q -> Py.res json) (E : env) : env :=
  Env (env_is_lithops_worker E) (create_job_key E) (verify_runtime_name E)
      (new_activation_id E) (new_backend E) (backend_create E)
      (backend_start E) (backend_stop E) (backend_is_ready E) (ssh_run_id E)
      f (http_get_ping E) (install_proxy E) (http_post_run E)
      (ssh_curl_run E) (done_file_exists E) (worker_ssh_id E)
      (worker_upload E) (worker_install E) (worker_get_ping E)
      (worker_post_run E)
      (localhost_run_job E).

(** The same collaborators on a lithops worker or not. *)
Definition with_lithops_worker (v : bool) (E : env) : env :=
  Env v (create_job_key E) (verify_runtime_name E)
      (new_activation_id E) (new_backend E) (backend_create E)
      (backend_start E) (backend_stop E) (backend_is_ready E) (ssh_run_id E)
      (ssh_curl_ping E) (http_get_ping E) (install_proxy E) (http_post_run E)
      (ssh_curl_run E) (done_file_exists E) (worker_ssh_id E)
      (worker_upload E) (worker_install E) (worker_get_ping E)
      (worker_post_run E)
      (localhost_run_job E).

(** The VM of the controller and two workers. *)
Definition master : backend :=
  Backend "lithops-master-1" (Some "id-master"%string) (Some "10.0.0.1"%string)
          (Controller.vsi_delete_on_dismantle "lithops-master-1").
Definition worker_a : backend :=
  Backend "lithops-worker-a" (Some "id-a"%string) (Some "10.0.0.2"%string) true.
Definition worker_b : backend :=
  Backend "lithops-worker-b" (Some "id-b"%string) (Some "10.0.0.3"%string) true.

(** A handler with the given switches, timeouts and fleet. *)
Definition a_handler (auto soft hard : json) (fleet : list backend) : handler :=
  Handler (JObj ∅) (JStr "vm") (JStr "python3") false (JInt 300) auto
          (JBool false) hard soft (JBool false) JNull (JStr "consume")
          fleet false.

(** Collaborators for which [worker_b] never answers, neither to ssh nor
    to the ping. *)
Definition b_unreachable : env :=
  with_curl_ping
    (fun b _ => if decide (b = worker_b) then inl (Py.Exception "timed out")
                else inr (JObj {[ "response"%string := JStr "pong" ]}))
    (with_is_ready (fun b _ => inr (negb (bool_decide (b = worker_b)))) calm).

(** A handler on a lithops worker or not, with the given
    [disable_log_monitoring]. *)
Definition a_monitoring_handler (on_worker : bool) (dlm : json)
    (fleet : list backend) : handler :=
  Handler (JObj ∅) (JStr "vm") (JStr "python3") on_worker (JInt 300)
          (JBool true) dlm (JInt 3600) (JInt 300) (JBool false) JNull
          (JStr "consume") fleet true.

(** A job message whose [config.standalone] section carries the given
    values. *)
Definition a_message (auto soft hard : json) : json :=
  JObj (list_to_map
    [("runtime_name"%string, JStr "python3");
     ("executor_id"%string, JStr "e1");
     ("job_id"%string, JStr "00003");
     ("config"%string,
      JObj {[ "standalone"%string :=
                JObj (list_to_map
                  [("auto_dismantle"%string, auto);
                   ("soft_dismantle_timeout"%string, soft);
                   ("hard_dismantle_timeout"%string, hard)]) ]})]).

(** The same collaborators with another configured backend. *)
Definition with_new_backend (f : json -> Py.res backend) (E : env) : env :=
  Env (env_is_lithops_worker E) (create_job_key E) (verify_runtime_name E)
      (new_activation_id E) f (backend_create E)
      (backend_start E) (backend_stop E) (backend_is_ready E) (ssh_run_id E)
      (ssh_curl_ping E) (http_get_ping E) (install_proxy E) (http_post_run E)
      (ssh_curl_run E) (done_file_exists E) (worker_ssh_id E)
      (worker_upload E) (worker_install E) (worker_get_ping E)
      (worker_post_run E)
      (localhost_run_job E).

(** Collaborators whose configuration binds [worker_a]. *)
Definition bound : env := with_new_backend (fun _ => inr worker_a) calm.

(** A [standalone] section of the configuration. *)
Definition a_config (mode : string) : json :=
  JObj (list_to_map
    [("backend"%string, JStr "vm");
     ("runtime"%string, JStr "python3");
     ("exec_mode"%string, JStr mode);
     ("auto_dismantle"%string, JBool true);
     ("soft_dismantle_timeout"%string, JInt 300);
     ("hard_dismantle_timeout"%string, JInt 3600);
     ("vm"%string, JObj ∅)]).

(** The handler [__init__] builds, when it builds one. *)
Definition booted (E : env) (standalone_config : json) : handler :=
  match Standalone.__init__ E standalone_config with
  | inr h => h
  | inl _ => a_handler JNull JNull JNull []
  end.

(** A job of [total_calls] calls with the given call ids, chunk size and
    data ranges. *)
Definition a_job (total_calls : Z) (call_ids : list string) (chunksize : Z)
    (ranges : list json) : json :=
  JObj (list_to_map
    [("runtime_name"%string, JStr "python3");
     ("executor_id"%string, JStr "e1");
     ("job_id"%string, JStr "00003");
     ("job_description"%string,
      JObj {[ "total_calls"%string := JInt total_calls ]});
     ("call_ids"%string, JList (map JStr call_ids));
     ("chunksize"%string, JInt chunksize);
     ("data_byte_ranges"%string, JList ranges);
     ("config"%string,
      JObj {[ "standalone"%string :=
                JObj {[ "exec_mode"%string := JStr "create" ]} ]})]).

(** Ten call ids, their data ranges, and three workers. *)
Definition ten_ids : list string :=
  map (fun k : nat => Py.format_05d (Z.of_nat k)) (seq 0 10).
Definition ten_ranges : list json :=
  map (fun k : nat => JList [JInt (Z.of_nat k * 100); JInt (Z.of_nat k * 100 + 99)])
      (seq 0 10).
Definition three_workers : list json :=
  [JList [JStr "lithops-w0"; JStr "10.0.1.0"; JStr "i-0"];
   JList [JStr "lithops-w1"; JStr "10.0.1.1"; JStr "i-1"];
   JList [JStr "lithops-w2"; JStr "10.0.1.2"; JStr "i-2"]].
Definition ten_calls : json := a_job 10 ten_ids 4 ten_ranges.

(** The same collaborators with other completion markers. *)
Definition with_done_file (f : string -> Q -> bool) (E : env) : env :=
  Env (env_is_lithops_worker E) (create_job_key E) (verify_runtime_name E)
      (new_activation_id E) (new_backend E) (backend_create E)
      (backend_start E) (backend_stop E) (backend_is_ready E) (ssh_run_id E)
      (ssh_curl_ping E) (http_get_ping E) (install_proxy E) (http_post_run E)
      (ssh_curl_run E) f (worker_ssh_id E)
      (worker_upload E) (worker_install E) (worker_get_ping E)
      (worker_post_run E)
      (localhost_run_job E).

(** Collaborators for which every job has finished. *)
Definition finished : env := with_done_file (fun _ _ => true) calm.

(** A world at time [t] whose last usage was at [used] and whose registry
    holds one running job. *)
Definition a_busy_world (t used : Q) (h : handler) : world :=
  World t [] h used {[ "e1-00003"%string := Running ]}.

(** A world at time [t] with an empty trace and registry. *)
Definition a_world (t : Q) (h : handler) : world := World t [] h t ∅.

End Scenario.

(** ** Further definitions *)

(** The outcome of the check of the runtime name in the handler of
    [/run]: the name, or the exception that the [try] block catches. *)
Definition run_checked (E : env) (message : json) : Py.exn + json :=
  match Json.getitem message "runtime_name" with
  | inl e => inl e
  | inr runtime =>
      match verify_runtime_name E runtime with
      | inl e => inl e
      | inr _ => inr runtime
      end
  end.

(** The request of [_single_invoke] to [/run], lines 256 to 275: through
    http on a lithops worker or with [use_http], through ssh otherwise. *)
Definition invoke_request (E : env) (on_worker : bool) (http : json) (b : backend)
    (job_payload : json) : Q -> Py.res json :=
  if on_worker || Json.truthy http then
    http_post_run E (if Json.truthy http then ip_address b
                     else Some "127.0.0.1"%string) job_payload
  else ssh_curl_run E b job_payload.

(** ** standalone.py: the runtime metadata and the runtime key *)

(** The collaborators of [create_runtime], of [get_runtime_key] and of
    the route [/preinstalls]: the two ways to ask a proxy for its
    preinstalled modules, the key that a backend gives to a runtime, and
    [LocalhostHandler.create_runtime]. *)
Record runtime_env : Type := RuntimeEnv {
  http_get_preinstalls : option string -> json -> Q -> Py.res json;
  ssh_curl_preinstalls : backend -> json -> Q -> Py.res json;
  backend_get_runtime_key : backend -> string -> Py.res string;
  localhost_create_runtime : json -> Q -> Py.res json }.

Module Runtime.
Section WithEnv.
Context (E : env) (R : runtime_env).

(** The attribute [local_runtime_load], which [__init__] reads from the
    configuration: [self.config.get('local_runtime_load', False)]. *)
Definition local_runtime_load (h : handler) : json :=
  match config h with
  | JObj m => match m !! "local_runtime_load"%string with
              | Some v => v
              | None => JBool false
              end
  | _ => JBool false
  end.

(** The request for the metadata of [create_runtime], lines 296 to 308:
    through http or through ssh, as in [_single_invoke]. *)
Definition preinstalls_request (h : handler) (b : backend) (runtime : string)
    : Q -> Py.res json :=
  let payload := JObj (<[ "runtime"%string := JStr runtime ]>
                         {[ "local_runtime_load"%string := local_runtime_load h ]}) in
  if is_lithops_worker h || Json.truthy (use_http h) then
    let ip_addr := if Json.truthy (use_http h) then ip_address b
                   else Some "127.0.0.1"%string in
    http_get_preinstalls R ip_addr payload
  else ssh_curl_preinstalls R b payload.

(** [create_runtime(runtime)]. *)
Definition create_runtime (runtime : string) : M json :=
  w <- get_world ;;
  b <- (if provided_backed (self w) then
          b <- lift (Py.index (backends (self w)) 0) ;;
          Standalone._start_backend E b ;;
          emit (EvSetupProxy b) ;;
          call (install_proxy E b) ;;
          Standalone._wait_proxy_ready E b ;;
          ret b
        else Standalone.create E "proxy" runtime) ;;
  w <- get_world ;;
  runtime_meta <- call (preinstalls_request (self w) b runtime) ;;
  w <- get_world ;;
  (if negb (provided_backed (self w))
   then emit (EvStop b) ;; call (backend_stop E b)
   else ret tt) ;;
  ret runtime_meta.

(** [get_runtime_key(runtime_name)]. *)
Definition get_runtime_key (runtime_name : string) : M string :=
  w <- get_world ;;
  if (0 <? Z.of_nat (length (backends (self w)))) then
    b <- lift (Py.index (backends (self w)) 0) ;;
    lift (backend_get_runtime_key R b runtime_name)
  else ret (Py.strip "/" runtime_name).

End WithEnv.
End Runtime.

(** ** master_controller.py: the routes [/ping] and [/preinstalls] *)

Module Routes.
Section WithEnv.
Context (E : env) (R : runtime_env).

(** [ping()]. *)
Definition ping : M (Z * json) :=
  ret (200, JObj {[ "response"%string := JStr "pong" ]}).

(** The handler of [GET /preinstalls] on the parsed body, with the
    global [standalone_config] that the module loads from its
    configuration file. *)
Definition preinstalls (standalone_config message : json) : M (Z * json) :=
  if Json.truthy message && negb (Controller.is_dict message)
  then ret (Controller.error "The action did not receive a dictionary as an argument.")
  else
    checked <- try_except
                 (runtime <- lift (Json.getitem message "runtime") ;;
                  lift (verify_runtime_name E runtime) ;;
                  ret (inr runtime))
                 (fun e => ret (inl e)) ;;
    match checked with
    | inl e => ret (Controller.error (Controller.exn_str e))
    | inr runtime =>
        pull_runtime <- lift (Json.get standalone_config "pull_runtime" (JBool false)) ;;
        runtime_meta <- call (localhost_create_runtime R runtime) ;;
        ret (200, runtime_meta)
    end.

End WithEnv.
End Routes.

(** ** standalone.py: the loop of the log monitor *)

Module LogMonitor.

(** What the channel, the two files and the remote shell answer in one
    turn of the loop of [log_monitor]. *)
Record turn : Type := Turn {
  channel_closed : bool;          (* channel.closed, at the test of the loop *)
  recv_ready : Py.res bool;       (* select.select(...); readq and readq[0].recv_ready() *)
  recv : Py.res string;           (* channel.recv(len(readq[0].in_buffer)) *)
  write_0 : Py.res unit;          (* fdout_0.write(data) *)
  flush_0 : Py.res unit;          (* fdout_0.flush() *)
  write_1 : Py.res unit;          (* fdout_1.write(data) *)
  flush_1 : Py.res unit;          (* fdout_1.flush() *)
  ls_done : Py.res bool }.        (* exec_command('ls ...done'); out.read().decode().strip() *)

(** The local [data], what was written to the two files, and the number
    of sleeps of half a second. *)
Record state : Type := State {
  data : option string;
  fdout_0 : list string;
  fdout_1 : list string;
  sleeps : nat }.

(** Where the loop stands: still polling, left because the channel was
    closed, or left by [break]. *)
Inductive status : Type := Polling | ChannelClosed | MarkerFound.

(** [if data:] on [None] or on bytes. *)
Definition has_data (s : state) : bool :=
  match data s with
  | Some d => negb (String.eqb d "")
  | None => false
  end.

(** The body of the loop, inside [try: ... except Exception: pass]. *)
Definition turn_body (t : turn) (s : state) : status * state :=
  match recv_ready t with
  | inl _ => (Polling, s)
  | inr true =>
      match recv t with
      | inl _ => (Polling, s)
      | inr d =>
          let s1 := State (Some d) (fdout_0 s) (fdout_1 s) (sleeps s) in
          match write_0 t with
          | inl _ => (Polling, s1)
          | inr _ =>
              let s2 := State (Some d) (fdout_0 s ++ [d]) (fdout_1 s) (sleeps s) in
              match flush_0 t with
              | inl _ => (Polling, s2)
              | inr _ =>
                  match write_1 t with
                  | inl _ => (Polling, s2)
                  | inr _ =>
                      (Polling,
                       State (Some d) (fdout_0 s ++ [d]) (fdout_1 s ++ [d]) (sleeps s))
                  end
              end
          end
      end
  | inr false =>
      if has_data s then
        match ls_done t with
        | inl _ => (Polling, s)
        | inr true => (MarkerFound, s)
        | inr false => (Polling, State (data s) (fdout_0 s) (fdout_1 s) (S (sleeps s)))
        end
      else (Polling, State (data s) (fdout_0 s) (fdout_1 s) (S (sleeps s)))
  end.

(** [while not channel.closed: ...] over the turns that are given. *)
Fixpoint monitor_loop (turns : list turn) (s : state) : status * state :=
  match turns with
  | [] => (Polling, s)
  | t :: turns' =>
      if channel_closed t then (ChannelClosed, s)
      else match turn_body t s with
           | (Polling, s') => monitor_loop turns' s'
           | r => r
           end
  end.

(** [log_monitor()] from [data = None] and two files to which it has
    not yet written. *)
Definition log_monitor (turns : list turn) : status * state :=
  monitor_loop turns (State None [] [] 0).

End LogMonitor.

(** ** More collaborators, configurations and turns for the examples *)

Module Cases.

(** The same collaborators with another answer to [backend.start()]. *)
Definition with_start (f : backend -> Q -> Py.res unit) (E : env) : env :=
  Env (env_is_lithops_worker E) (create_job_key E) (verify_runtime_name E)
      (new_activation_id E) (new_backend E) (backend_create E)
      f (backend_stop E) (backend_is_ready E) (ssh_run_id E)
      (ssh_curl_ping E) (http_get_ping E) (install_proxy E) (http_post_run E)
      (ssh_curl_run E) (done_file_exists E) (worker_ssh_id E)
      (worker_upload E) (worker_install E) (worker_get_ping E)
      (worker_post_run E)
      (localhost_run_job E).

(** The same collaborators with another answer to the ssh probe of a
    worker. *)
Definition with_worker_ssh (f : json -> Q -> Py.res unit) (E : env) : env :=
  Env (env_is_lithops_worker E) (create_job_key E) (verify_runtime_name E)
      (new_activation_id E) (new_backend E) (backend_create E)
      (backend_start E) (backend_stop E) (backend_is_ready E) (ssh_run_id E)
      (ssh_curl_ping E) (http_get_ping E) (install_proxy E) (http_post_run E)
      (ssh_curl_run E) (done_file_exists E) f
      (worker_upload E) (worker_install E) (worker_get_ping E)
      (worker_post_run E)
      (localhost_run_job E).

(** Collaborators whose workers refuse ssh connections. *)
Definition no_ssh : env :=
  with_worker_ssh (fun _ _ => inl (Py.Exception "connection refused")) Scenario.calm.

(** Collaborators whose instances are ready from the tenth second on and
    whose proxies answer the ping from the fourth second on. *)
Definition slow_boot : env :=
  Scenario.with_curl_ping
    (fun _ t => if Qle_bool 4 t
                then inr (JObj {[ "response"%string := JStr "pong" ]})
                else inl (Py.Exception "connection refused"))
    (Scenario.with_is_ready (fun _ t => inr (Qle_bool 10 t)) Scenario.calm).

(** Collaborators for which no backend can be stopped, or started. *)
Definition stuck_stop : env :=
  Scenario.with_stop (fun _ _ => inl (Py.Exception "stop failed")) Scenario.calm.
Definition stuck_start : env :=
  with_start (fun _ _ => inl (Py.Exception "quota exceeded")) Scenario.calm.

(** A configuration without the two timeouts. *)
Definition bare_config : gmap string json :=
  list_to_map
    [("backend"%string, JStr "vm");
     ("runtime"%string, JStr "python3");
     ("vm"%string, JObj ∅)].

(** A message for [/run] with the given [config] member, if any. *)
Definition a_request (cfg : option json) : json :=
  JObj (list_to_map
    (("runtime_name"%string, JStr "python3")
     :: ("executor_id"%string, JStr "e1")
     :: ("job_id"%string, JStr "00003")
     :: match cfg with
        | Some c => [("config"%string, c)]
        | None => []
        end)).

(** A world at time [t] whose last usage was at [used], with an empty
    trace and registry. *)
Definition a_used_world (t used : Q) (h : handler) : world := World t [] h used ∅.

(** The metadata of a runtime, and proxies that give or refuse them. *)
Definition some_meta : json :=
  JObj {[ "preinstalls"%string := JList [JStr "numpy"] ]}.
Definition answering : runtime_env :=
  RuntimeEnv (fun _ _ _ => inr some_meta) (fun _ _ _ => inr some_meta)
             (fun b runtime_name => inr (instance_name b ++ "/" ++ runtime_name)%string)
             (fun _ _ => inr some_meta).
Definition refusing : runtime_env :=
  RuntimeEnv (fun _ _ _ => inl (Py.Exception "timed out"))
             (fun _ _ _ => inl (Py.Exception "timed out"))
             (fun b runtime_name => inr runtime_name)
             (fun _ _ => inl (Py.Exception "no such runtime")).

(** Turns of the log monitor: an empty chunk, a chunk of log, nothing to
    read while the marker of the job exists, and a [select] that raises. *)
Definition empty_chunk : LogMonitor.turn :=
  LogMonitor.Turn false (inr true) (inr ""%string) (inr tt) (inr tt) (inr tt)
                  (inr tt) (inr true).
Definition a_chunk (d : string) (second_file : Py.res unit) : LogMonitor.turn :=
  LogMonitor.Turn false (inr true) (inr d) (inr tt) (inr tt) second_file
                  (inr tt) (inr true).
Definition nothing_to_read : LogMonitor.turn :=
  LogMonitor.Turn false (inr false) (inr ""%string) (inr tt) (inr tt) (inr tt)
                  (inr tt) (inr true).
Definition broken_select : LogMonitor.turn :=
  LogMonitor.Turn false (inl (Py.Exception "select failed")) (inr ""%string)
                  (inr tt) (inr tt) (inr tt) (inr tt) (inr true).

End Cases.

(** * Properties *)

(** ** The chunk partition *)

Section ChunkFacts.
Context {A : Type}.
Implicit Types (lst : list A) (c k m : nat).

Lemma range_len_chunks (L C : Z) :
  0 <= L -> 0 < C -> Py.range_len 0 L C = Chunks.ceil_div L C.
Proof.
  intros HL HC. unfold Py.range_len, Chunks.ceil_div.
  destruct (Z.ltb_spec 0 C) as [_|?]; [|lia].
  destruct (Z.ltb_spec 0 L) as [Hpos|Hz].
  - replace (L + C - 1) with (L - 0 - 1 + 1 * C) by lia.
    rewrite Z.div_add by lia. lia.
  - assert (L = 0) by lia. subst L.
    symmetry. apply Z.div_small. lia.
Qed.

Lemma ceil_div_bounds (L C : Z) :
  0 <= L -> 0 < C ->
  (Chunks.ceil_div L C - 1) * C < L <= Chunks.ceil_div L C * C.
Proof.
  intros HL HC. unfold Chunks.ceil_div.
  pose proof (Z.div_mod (L + C - 1) C ltac:(lia)) as Hdm.
  pose proof (Z.mod_pos_bound (L + C - 1) C HC) as Hb.
  nia.
Qed.

(** A slice that starts inside the list is a [take] of a [drop]. *)
Lemma slice_chunk_at lst c k :
  (0 < c)%nat -> (k * c <= length lst)%nat ->
  Py.slice lst (Z.of_nat k * Z.of_nat c) (Z.of_nat k * Z.of_nat c + Z.of_nat c)
  = Chunks.chunk_at lst c k.
Proof.
  intros Hc Hk. unfold Py.slice, Py.clamp_index, Chunks.chunk_at.
  set (len := Z.of_nat (length lst)).
  assert (Hlo : Z.of_nat k * Z.of_nat c = Z.of_nat (k * c)) by lia.
  rewrite Hlo.
  destruct (Z.ltb_spec (Z.of_nat (k * c)) 0) as [?|_]; [lia|].
  destruct (Z.ltb_spec (Z.of_nat (k * c) + Z.of_nat c) 0) as [?|_]; [lia|].
  rewrite (Z.min_l (Z.of_nat (k * c)) len) by (unfold len; lia).
  rewrite Nat2Z.id.
  destruct (Z.le_gt_cases (Z.of_nat (k * c) + Z.of_nat c) len) as [Hin|Hout].
  - rewrite Z.min_l by lia. f_equal. lia.
  - rewrite Z.min_r by lia.
    rewrite !take_ge; [done | | ]; rewrite length_drop; unfold len in *; lia.
Qed.

Lemma concat_chunk_at lst c m :
  concat (map (Chunks.chunk_at lst c) (seq 0 m)) = take (m * c) lst.
Proof.
  induction m as [|m IH]; [done|].
  rewrite seq_S, map_app, concat_app, IH. cbn [map concat Nat.add].
  rewrite app_nil_r. unfold Chunks.chunk_at.
  rewrite take_take_drop. f_equal. lia.
Qed.

(** With a positive chunk size, [iterchunks] is the list of the
    [ceil(L/C)] chunks [chunk_at]. *)
Lemma iterchunks_chunk_at lst (C : Z) :
  0 < C ->
  Chunks.iterchunks lst C =
  inr (map (Chunks.chunk_at lst (Z.to_nat C))
           (seq 0 (Z.to_nat (Chunks.ceil_div (Z.of_nat (length lst)) C)))).
Proof.
  intros HC. unfold Chunks.iterchunks, Py.range.
  destruct (Z.eqb_spec C 0) as [?|_]; [lia|].
  rewrite range_len_chunks by lia. f_equal.
  rewrite map_map. apply map_ext_in. intros k Hk.
  apply in_seq in Hk. cbn [Z.add].
  pose proof (ceil_div_bounds (Z.of_nat (length lst)) C ltac:(lia) HC) as [Hlt _].
  rewrite <- (Z2Nat.id C) at 1 2 3 by lia.
  apply slice_chunk_at; [lia|]. nia.
Qed.

Lemma lookup_chunks lst c m k :
  (k < m)%nat ->
  map (Chunks.chunk_at lst c) (seq 0 m) !! k = Some (Chunks.chunk_at lst c k).
Proof.
  intros Hk. change (map ?f ?l) with (f <$> l).
  rewrite list_lookup_fmap, lookup_seq_lt by done. done.
Qed.

(** The chunks of [iterchunks] for a positive chunk size: their number,
    their concatenation, their contents and their sizes. *)
Lemma iterchunks_chunks lst (C : Z) :
  0 < C ->
  exists chunks : list (list A),
    Chunks.iterchunks lst C = inr chunks
    /\ Z.of_nat (length chunks) = Chunks.ceil_div (Z.of_nat (length lst)) C
    /\ concat chunks = lst
    /\ (forall k ch, chunks !! k = Some ch ->
          ch = take (Z.to_nat C) (drop (k * Z.to_nat C) lst)
          /\ 0 < Z.of_nat (length ch) <= C)
    /\ (forall k ch, chunks !! k = Some ch -> (S k < length chunks)%nat ->
          Z.of_nat (length ch) = C)
    /\ (forall i x, lst !! i = Some x ->
          exists ch, chunks !! (i / Z.to_nat C)%nat = Some ch
                     /\ ch !! (i mod Z.to_nat C)%nat = Some x).
Proof.
  intros HC.
  set (c := Z.to_nat C). set (L := length lst).
  set (m := Z.to_nat (Chunks.ceil_div (Z.of_nat L) C)).
  pose proof (ceil_div_bounds (Z.of_nat L) C ltac:(lia) HC) as [Hlo Hhi].
  assert (Hc : (0 < c)%nat) by (unfold c; lia).
  assert (Hm : Z.of_nat m = Chunks.ceil_div (Z.of_nat L) C).
  { unfold m. apply Z2Nat.id. nia. }
  assert (HmL : (L <= m * c)%nat) by (unfold c; nia).
  assert (HmL' : forall k, (k < m)%nat -> (k * c < L)%nat) by (intros; unfold c; nia).
  exists (map (Chunks.chunk_at lst c) (seq 0 m)).
  split; [by apply iterchunks_chunk_at|].
  split; [by rewrite length_map, length_seq|].
  split; [rewrite concat_chunk_at; by apply take_ge|].
  assert (Hget : forall k ch,
             map (Chunks.chunk_at lst c) (seq 0 m) !! k = Some ch ->
             (k < m)%nat /\ ch = Chunks.chunk_at lst c k).
  { intros k ch Hk.
    assert (Hkm : (k < m)%nat).
    { apply lookup_lt_Some in Hk. by rewrite length_map, length_seq in Hk. }
    rewrite lookup_chunks in Hk by done. split; congruence. }
  split; [|split].
  - intros k ch Hk. apply Hget in Hk as [Hkm ->]. split; [done|].
    unfold Chunks.chunk_at. rewrite length_take, length_drop.
    specialize (HmL' k Hkm). fold L. unfold c in *. lia.
  - intros k ch Hk HS. apply Hget in Hk as [Hkm ->].
    rewrite length_map, length_seq in HS.
    unfold Chunks.chunk_at. rewrite length_take, length_drop.
    specialize (HmL' (S k) HS). fold L. unfold c in *. lia.
  - intros i x Hi.
    assert (HiL : (i < L)%nat) by (by apply lookup_lt_Some in Hi).
    pose proof (Nat.div_mod_eq i c) as Hdm.
    pose proof (Nat.mod_upper_bound i c ltac:(lia)) as Hmod.
    assert (Hq : (i / c < m)%nat).
    { destruct (Nat.lt_ge_cases (i / c) m) as [|Hge]; [done|]. nia. }
    exists (Chunks.chunk_at lst c (i / c)).
    split; [by apply lookup_chunks|].
    unfold Chunks.chunk_at.
    rewrite lookup_take_lt, lookup_drop by done.
    rewrite <- Hi. f_equal. lia.
Qed.


(** C1. With a positive chunk size [C], [iterchunks] yields
    [ceil(L/C)] chunks; chunk [k] is the contiguous run of at most [C]
    elements from position [k * C]; the concatenation of the chunks is the
    sequence; every chunk before the last has exactly [C] elements and no
    chunk is empty; and the element at position [i] is found in chunk
    [i / C] at offset [i mod C], so the assignment of calls to chunks is a
    function of the sequence and the chunk size alone. *)
Theorem iterchunks_partition lst (C : Z) :
  0 < C ->
  exists chunks : list (list A),
    Chunks.iterchunks lst C = inr chunks
    /\ Z.of_nat (length chunks) = Chunks.ceil_div (Z.of_nat (length lst)) C
    /\ concat chunks = lst
    /\ (forall k ch, chunks !! k = Some ch ->
          ch = take (Z.to_nat C) (drop (k * Z.to_nat C) lst)
          /\ 0 < Z.of_nat (length ch) <= C)
    /\ (forall k ch, chunks !! k = Some ch -> (S k < length chunks)%nat ->
          Z.of_nat (length ch) = C)
    /\ (forall i x, lst !! i = Some x ->
          exists ch, chunks !! (i / Z.to_nat C)%nat = Some ch
                     /\ ch !! (i mod Z.to_nat C)%nat = Some x).
Proof. apply iterchunks_chunks. Qed.

End ChunkFacts.

(** C1 at ten call ids and chunks of four. *)
Lemma iterchunks_partition_witness :
  0 < 4 /\
  exists chunks : list (list Z),
    Chunks.iterchunks [0;1;2;3;4;5;6;7;8;9] 4 = inr chunks
    /\ Z.of_nat (length chunks) = Chunks.ceil_div (Z.of_nat 10) 4
    /\ concat chunks = [0;1;2;3;4;5;6;7;8;9]
    /\ (forall k ch, chunks !! k = Some ch ->
          ch = take (Z.to_nat 4) (drop (k * Z.to_nat 4) [0;1;2;3;4;5;6;7;8;9])
          /\ 0 < Z.of_nat (length ch) <= 4)
    /\ (forall k ch, chunks !! k = Some ch -> (S k < length chunks)%nat ->
          Z.of_nat (length ch) = 4)
    /\ (forall i x, [0;1;2;3;4;5;6;7;8;9] !! i = Some x ->
          exists ch, chunks !! (i / Z.to_nat 4)%nat = Some ch
                     /\ ch !! (i mod Z.to_nat 4)%nat = Some x).
Proof.
  split; [lia|].
  apply (iterchunks_partition [0;1;2;3;4;5;6;7;8;9] 4). lia.
Defined.

Example iterchunks_10_4 :
  Chunks.iterchunks [0;1;2;3;4;5;6;7;8;9] 4 = inr [[0;1;2;3]; [4;5;6;7]; [8;9]].
Proof. reflexivity. Qed.

Example iterchunks_zero_step : exists e, Chunks.iterchunks [1;2;3] 0 = inl e.
Proof. eexists. reflexivity. Qed.

(** ** Worlds and computations *)

Lemma add_event_events e w : add_event e w = add_events [e] w.
Proof. reflexivity. Qed.

Lemma add_events_nil w : add_events [] w = w.
Proof. destruct w. unfold add_events. cbn. by rewrite app_nil_r. Qed.

Lemma add_events_app es1 es2 w :
  add_events es2 (add_events es1 w) = add_events (es1 ++ es2) w.
Proof. unfold add_events. cbn. by rewrite map_app, app_assoc. Qed.

Lemma stops_app tr1 tr2 : stops (tr1 ++ tr2) = stops tr1 ++ stops tr2.
Proof. apply omap_app. Qed.

Lemma stops_stop_events t bs : stops (map (pair t) (map EvStop bs)) = bs.
Proof. unfold stops. induction bs as [|b bs IH]; [done|]. cbn. by f_equal. Qed.

Lemma dismantle_times_app tr1 tr2 :
  dismantle_times (tr1 ++ tr2) = dismantle_times tr1 ++ dismantle_times tr2.
Proof. apply omap_app. Qed.

Lemma dismantle_times_stop_events t bs :
  dismantle_times (map (pair t) (map EvStop bs)) = [].
Proof. unfold dismantle_times. induction bs as [|b bs IH]; [done|]. by cbn. Qed.

(** ** [dismantle] *)

Section DismantleFacts.
Context (E : env).

Lemma stop_all_ok bs w :
  (forall b, In b bs -> backend_stop E b (now w) = inr tt) ->
  Standalone.stop_all E bs w = (Ret tt, add_events (map EvStop bs) w).
Proof.
  revert w. induction bs as [|b bs IH]; intros w Hok.
  - cbn. by rewrite add_events_nil.
  - cbn [Standalone.stop_all]. unfold bind, emit, modify, call.
    cbn [now add_event]. rewrite (Hok b) by (by left). cbn [lift ret].
    rewrite IH by (intros b' Hb'; apply Hok; by right).
    by rewrite add_event_events, add_events_app.
Qed.

Lemma stop_all_fail pre b post e w :
  (forall b', In b' pre -> backend_stop E b' (now w) = inr tt) ->
  backend_stop E b (now w) = inl e ->
  Standalone.stop_all E (pre ++ b :: post) w
  = (Raise e, add_events (map EvStop (pre ++ [b])) w).
Proof.
  revert w. induction pre as [|b0 pre IH]; intros w Hok Hfail.
  - cbn [app Standalone.stop_all]. unfold bind, emit, modify, call.
    cbn [now add_event]. rewrite Hfail. by cbn.
  - cbn [app Standalone.stop_all]. unfold bind, emit, modify, call.
    cbn [now add_event]. rewrite (Hok b0) by (by left). cbn [lift ret].
    rewrite IH; [|intros b' Hb'; apply Hok; by right|done].
    by rewrite add_event_events, add_events_app.
Qed.

Lemma dismantle_ok w :
  (forall b, In b (backends (self w)) -> backend_stop E b (now w) = inr tt) ->
  Standalone.dismantle E w
  = (Ret tt, add_events (EvDismantle :: map EvStop (backends (self w))) w).
Proof.
  intros Hok. unfold Standalone.dismantle, bind, emit, modify, get_world.
  cbn [add_event self]. rewrite stop_all_ok by done.
  by rewrite add_event_events, add_events_app.
Qed.

Lemma dismantle_fail w pre b post e :
  backends (self w) = pre ++ b :: post ->
  (forall b', In b' pre -> backend_stop E b' (now w) = inr tt) ->
  backend_stop E b (now w) = inl e ->
  Standalone.dismantle E w
  = (Raise e, add_events (EvDismantle :: map EvStop (pre ++ [b])) w).
Proof.
  intros Hbs Hok Hfail. unfold Standalone.dismantle, bind, emit, modify, get_world.
  cbn [add_event self]. rewrite Hbs, (stop_all_fail pre b post e) by done.
  by rewrite add_event_events, add_events_app.
Qed.

End DismantleFacts.

(** C2, as amended. [dismantle()] does not read [delete_on_dismantle]:
    when the stops succeed, it returns after a stop on every backend of
    the fleet, in the order of [self.backends] and whatever the flag of a
    backend; the fleet itself is left as it was. *)
Theorem dismantle_stops_every_backend (E : env) (w : world) :
  (forall b, In b (backends (self w)) -> backend_stop E b (now w) = inr tt) ->
  exists w',
    Standalone.dismantle E w = (Ret tt, w')
    /\ stops (trace w') = stops (trace w) ++ backends (self w)
    /\ self w' = self w.
Proof.
  intros Hok. eexists. split; [by apply dismantle_ok|].
  split; [|done]. cbn [add_events trace].
  rewrite stops_app. f_equal. cbn [map]. apply stops_stop_events.
Qed.

(** C2 as stated fails: the VM of the controller, whose
    [delete_on_dismantle] is false, is in the fleet with a worker, and
    [dismantle()] stops it. *)
Lemma dismantle_stops_unflagged_backend :
  let w := Scenario.a_world 0 (Scenario.a_handler (JBool true) (JInt 10) (JInt 30)
                                 [Scenario.master; Scenario.worker_a]) in
  delete_on_dismantle Scenario.master = false
  /\ In Scenario.master (backends (self w))
  /\ In Scenario.master (stops (trace (snd (Standalone.dismantle Scenario.calm w)))).
Proof. cbn. auto. Qed.

(** C2 (amended) on the fleet of the controller VM and a worker. *)
Lemma dismantle_stops_every_backend_witness :
  let w := Scenario.a_world 0 (Scenario.a_handler (JBool true) (JInt 10) (JInt 30)
                                 [Scenario.master; Scenario.worker_a]) in
  exists w',
    Standalone.dismantle Scenario.calm w = (Ret tt, w')
    /\ stops (trace w') = stops (trace w) ++ backends (self w)
    /\ self w' = self w.
Proof.
  intros w. apply (dismantle_stops_every_backend Scenario.calm w).
  intros b _. reflexivity.
Defined.

(** C7, as amended. The first stop that fails ends [dismantle()]: the
    exception leaves it, the backends before the failing one and the
    failing one have received a stop, and those after it none. Only the
    budget keeper catches the exception, of the whole call, and logs it. *)
Theorem dismantle_aborts_at_first_failure (E : env) (w : world)
    (pre post : list backend) (b : backend) (e : Py.exn) :
  backends (self w) = pre ++ b :: post ->
  (forall b', In b' pre -> backend_stop E b' (now w) = inr tt) ->
  backend_stop E b (now w) = inl e ->
  exists w',
    Standalone.dismantle E w = (Raise e, w')
    /\ stops (trace w') = stops (trace w) ++ pre ++ [b]
    /\ try_except (Standalone.dismantle E)
                  (fun _ => emit (EvLog "Dismantle error")) w
       = (Ret tt, add_event (EvLog "Dismantle error") w').
Proof.
  intros Hbs Hok Hfail. eexists. split; [by eapply dismantle_fail|].
  split.
  - cbn [add_events trace]. rewrite stops_app. f_equal. cbn [map].
    apply stops_stop_events.
  - unfold try_except. by erewrite dismantle_fail.
Qed.

(** C7 as stated fails: the stop of the first worker fails and the second
    worker receives no stop. *)
Lemma dismantle_leaves_later_backends :
  let E := Scenario.with_stop
             (fun b _ => if decide (b = Scenario.worker_a)
                         then inl (Py.Exception "stop failed") else inr tt)
             Scenario.calm in
  let w := Scenario.a_world 0 (Scenario.a_handler (JBool true) (JInt 10) (JInt 30)
                                 [Scenario.worker_a; Scenario.worker_b]) in
  In Scenario.worker_b (backends (self w))
  /\ stops (trace (snd (Standalone.dismantle E w))) = [Scenario.worker_a]
  /\ fst (Standalone.dismantle E w) = Raise (Py.Exception "stop failed").
Proof. cbn. auto. Qed.

(** C7 (amended) on that fleet. *)
Lemma dismantle_aborts_at_first_failure_witness :
  let E := Scenario.with_stop
             (fun b _ => if decide (b = Scenario.worker_a)
                         then inl (Py.Exception "stop failed") else inr tt)
             Scenario.calm in
  let w := Scenario.a_world 0 (Scenario.a_handler (JBool true) (JInt 10) (JInt 30)
                                 [Scenario.worker_a; Scenario.worker_b]) in
  exists w',
    Standalone.dismantle E w = (Raise (Py.Exception "stop failed"), w')
    /\ stops (trace w') = stops (trace w) ++ [] ++ [Scenario.worker_a]
    /\ try_except (Standalone.dismantle E)
                  (fun _ => emit (EvLog "Dismantle error")) w
       = (Ret tt, add_event (EvLog "Dismantle error") w').
Proof.
  intros E w.
  apply (dismantle_aborts_at_first_failure E w [] [Scenario.worker_b]
           Scenario.worker_a (Py.Exception "stop failed")).
  - reflexivity.
  - intros b' [].
  - reflexivity.
Defined.

(** ** The readiness waits *)

Lemma Qltb_lt (a b : Q) : Py.Qltb a b = true <-> (a < b)%Q.
Proof.
  unfold Py.Qltb. rewrite negb_true_iff.
  destruct (Qle_bool b a) eqn:Hle.
  - apply Qle_bool_iff in Hle. split; [done|]. intros Hlt.
    exfalso. by apply (Qlt_not_le a b).
  - split; [intros _|done]. apply Qnot_le_lt. intros Hle'.
    apply Qle_bool_iff in Hle'. congruence.
Qed.

Lemma Qltb_ge (a b : Q) : Py.Qltb a b = false <-> (b <= a)%Q.
Proof.
  unfold Py.Qltb. rewrite negb_false_iff. apply Qle_bool_iff.
Qed.

Lemma sleep_advances (d : Q) (w : world) :
  (0 <= d)%Q -> sleep d w = (Ret tt, set_now (now w + d)%Q w).
Proof.
  intros Hd. unfold sleep.
  by rewrite (proj2 (Qltb_ge d 0) Hd).
Qed.

Lemma set_now_now (w : world) : set_now (now w) w = w.
Proof. by destruct w. Qed.

(** One poll less to go after a sleep. *)
Lemma ceiling_step (r interval : Q) :
  (0 < interval)%Q -> (0 < r)%Q ->
  (Z.to_nat (Qceiling ((r - interval) / interval))
   < Z.to_nat (Qceiling (r / interval)))%nat.
Proof.
  intros Hi Hr.
  assert (Hx : (0 < r / interval)%Q).
  { apply Qlt_shift_div_l; [done|]. by rewrite Qmult_0_l. }
  assert (Heq : ((r - interval) / interval == r / interval - 1)%Q).
  { field. intros H0. rewrite H0 in Hi. by apply (Qlt_irrefl 0). }
  pose proof (Qle_ceiling (r / interval)) as Hup.
  pose proof (Qceiling_lt ((r - interval) / interval)) as Hlow.
  rewrite Heq in Hlow at 2.
  assert (Hc : (0 < Qceiling (r / interval))%Z).
  { rewrite Zlt_Qlt. eapply Qlt_le_trans; [exact Hx|exact Hup]. }
  assert (Hlt : (Qceiling ((r - interval) / interval) < Qceiling (r / interval))%Z).
  { rewrite Zlt_Qlt.
    unfold Z.sub in Hlow. rewrite inject_Z_plus in Hlow.
    change (inject_Z (Z.opp 1)) with (-1 # 1)%Q in Hlow.
    set (x := (r / interval)%Q) in *.
    set (c1 := inject_Z (Qceiling ((r - interval) / interval))) in *.
    set (c2 := inject_Z (Qceiling x)) in *.
    lra. }
  lia.
Qed.

(** A wait whose polls all fail runs to the end of its timeout, and only
    the clock has moved. *)
Lemma wait_loop_expires (check : M bool) (interval timeout start : Q)
    (w0 : world) :
  (0 < interval)%Q ->
  (forall t, (start <= t)%Q -> (t - start < timeout)%Q ->
             check (set_now t w0) = (Ret false, set_now t w0)) ->
  forall (fuel : nat) (t : Q),
    (start <= t)%Q ->
    (Z.to_nat (Qceiling ((timeout - (t - start)) / interval)) < fuel)%nat ->
    exists t' : Q,
      wait_loop fuel check interval timeout start (set_now t w0)
      = (Ret false, set_now t' w0)
      /\ (timeout <= t' - start)%Q /\ (t <= t')%Q.
Proof.
  intros Hi Hfail fuel. induction fuel as [|fuel IH]; intros t Hst Hfuel; [lia|].
  cbn [wait_loop]. unfold bind at 1, time_time. cbn [now set_now].
  destruct (Py.Qltb (t - start) timeout) eqn:Htest.
  - apply Qltb_lt in Htest.
    unfold bind at 1. rewrite (Hfail t Hst Htest).
    unfold bind at 1. rewrite sleep_advances by lra.
    cbn [now set_now].
    destruct (IH (t + interval)%Q) as (t' & Hrun & Hto & Hle); [lra| |].
    { eapply Nat.lt_le_trans; [|apply Nat.lt_succ_r, Hfuel].
      assert (Heq : (((timeout - (t + interval - start)) / interval
                     == (timeout - (t - start) - interval) / interval))%Q).
      { apply Qmult_comp; [ring|reflexivity]. }
      rewrite (Qceiling_comp _ _ Heq).
      apply ceiling_step; [done|lra]. }
    exists t'. split; [|split; [done|lra]].
    exact Hrun.
  - apply Qltb_ge in Htest. exists t.
    unfold ret. split; [done|]. split; lra.
Qed.

Section WaitFacts.
Context (E : env).

(** The two polls of the handler only read. *)
Lemma is_backend_ready_reads (b : backend) (w : world) :
  exists r, Standalone._is_backend_ready E b w = (Ret r, w).
Proof.
  unfold Standalone._is_backend_ready, try_except, bind, call, lift.
  destruct (backend_is_ready E b (now w)) as [e|[|]]; cbn; eauto.
  destruct (ssh_run_id E b (now w)); cbn; eauto.
Qed.

Lemma is_proxy_ready_reads (b : backend) (w : world) :
  exists r, Standalone._is_proxy_ready E b w = (Ret r, w).
Proof.
  unfold Standalone._is_proxy_ready, try_except, bind, call, lift, get_world.
  destruct (is_lithops_worker (self w) || Json.truthy (use_http (self w))).
  - destruct (http_get_ping E _ (now w)); cbn; eauto.
  - destruct (ssh_curl_ping E b (now w)) as [e|data]; cbn; eauto.
    destruct (Json.getitem data "response"); cbn; eauto.
Qed.

Lemma failed_poll_reads (check : M bool) (w : world) :
  (exists r, check w = (Ret r, w)) -> fst (check w) = Ret false ->
  check w = (Ret false, w).
Proof. intros [r Hr] Hf. rewrite Hr in *. cbn in Hf. congruence. Qed.

(** After the last poll: [dismantle()] on the whole fleet, then the
    exception of the wait. *)
Lemma expired_wait_dismantles (check : M bool) (interval : Q) (msg : string)
    (timeout : Q) (w : world) :
  (0 < interval)%Q ->
  (forall t, (now w <= t)%Q -> (t - now w < timeout)%Q ->
             check (set_now t w) = (Ret false, set_now t w)) ->
  (forall b' t, In b' (backends (self w)) -> backend_stop E b' t = inr tt) ->
  exists w',
    (ok <- wait_loop (wait_fuel interval timeout) check interval timeout (now w) ;;
     if ok then ret true
     else Standalone.dismantle E ;; raise (Py.Exception msg)) w
    = (Raise (Py.Exception msg), w')
    /\ stops (trace w') = stops (trace w) ++ backends (self w)
    /\ (now w + timeout <= now w')%Q
    /\ self w' = self w.
Proof.
  intros Hi Hfail Hstop.
  destruct (wait_loop_expires check interval timeout (now w) w Hi Hfail
              (wait_fuel interval timeout) (now w)) as (t & Hrun & Hto & Hle).
  { lra. }
  { unfold wait_fuel. apply Nat.lt_succ_r.
    assert (Heq : ((timeout - (now w - now w)) / interval == timeout / interval)%Q).
    { apply Qmult_comp; [ring|reflexivity]. }
    by rewrite (Qceiling_comp _ _ Heq). }
  rewrite set_now_now in Hrun.
  unfold bind at 1. rewrite Hrun. unfold bind.
  rewrite dismantle_ok by (intros b' Hb'; by apply Hstop).
  cbn [raise]. eexists. split; [reflexivity|].
  cbn [add_events set_now trace now self]. split; [|split; [lra|done]].
  rewrite stops_app. f_equal. cbn [map]. apply stops_stop_events.
Qed.

End WaitFacts.

(** C3, as amended. When no poll of the wait succeeds before
    [start_timeout] has passed, the wait calls [dismantle()], which stops
    every backend of the fleet in the order of [self.backends] (the awaited
    one with them when it is in the fleet, and the other workers too) and,
    the stops having succeeded, the wait raises its exception to the
    caller: no further poll of the instance follows. The fleet list is left
    as it was. *)
Theorem readiness_timeout_dismantles_fleet (E : env) (w : world) (b : backend)
    (timeout : Q) :
  Json.num (start_timeout (self w)) = inr timeout ->
  (forall b' t, In b' (backends (self w)) -> backend_stop E b' t = inr tt) ->
  ((forall t, (now w <= t)%Q -> (t - now w < timeout)%Q ->
              fst (Standalone._is_backend_ready E b (set_now t w)) = Ret false) ->
   exists w',
     Standalone._wait_backend_ready E b w
     = (Raise (Py.Exception "VM readiness probe expired. Check your VM"), w')
     /\ stops (trace w') = stops (trace w) ++ backends (self w)
     /\ (now w + timeout <= now w')%Q
     /\ self w' = self w)
  /\
  ((forall t, (now w <= t)%Q -> (t - now w < timeout)%Q ->
              fst (Standalone._is_proxy_ready E b (set_now t w)) = Ret false) ->
   exists w',
     Standalone._wait_proxy_ready E b w
     = (Raise (Py.Exception "Proxy readiness probe expired. Check your VM"), w')
     /\ stops (trace w') = stops (trace w) ++ backends (self w)
     /\ (now w + timeout <= now w')%Q
     /\ self w' = self w).
Proof.
  intros Hnum Hstop. split; intros Hfail.
  - unfold Standalone._wait_backend_ready.
    unfold bind at 1, time_time. unfold bind at 1, get_world.
    unfold bind at 1. rewrite Hnum. cbn [lift ret].
    apply (expired_wait_dismantles E); [reflexivity| |done].
    intros t Ht Hlt. apply failed_poll_reads; [apply is_backend_ready_reads|auto].
  - unfold Standalone._wait_proxy_ready.
    unfold bind at 1, time_time. unfold bind at 1, get_world.
    unfold bind at 1. rewrite Hnum. cbn [lift ret].
    apply (expired_wait_dismantles E); [reflexivity| |done].
    intros t Ht Hlt. apply failed_poll_reads; [apply is_proxy_ready_reads|auto].
Qed.

(** C3 as stated fails: the wait for [worker_b], which never answers,
    also stops [worker_a]. *)
Lemma readiness_timeout_stops_other_workers :
  let w := Scenario.a_world 0 (Scenario.a_handler (JBool true) (JInt 10) (JInt 30)
                                 [Scenario.worker_a; Scenario.worker_b]) in
  stops (trace (snd (Standalone._wait_backend_ready Scenario.b_unreachable
                       Scenario.worker_b w)))
  = [Scenario.worker_a; Scenario.worker_b]
  /\ stops (trace (snd (Standalone._wait_proxy_ready Scenario.b_unreachable
                          Scenario.worker_b w)))
     = [Scenario.worker_a; Scenario.worker_b]
  /\ Scenario.worker_a <> Scenario.worker_b.
Proof. split; [|split]; [by vm_compute..|discriminate]. Qed.

(** C3 (amended) on that fleet. *)
Lemma readiness_timeout_dismantles_fleet_witness :
  let E := Scenario.b_unreachable in
  let b := Scenario.worker_b in
  let w := Scenario.a_world 0 (Scenario.a_handler (JBool true) (JInt 10) (JInt 30)
                                 [Scenario.worker_a; Scenario.worker_b]) in
  (exists w',
     Standalone._wait_backend_ready E b w
     = (Raise (Py.Exception "VM readiness probe expired. Check your VM"), w')
     /\ stops (trace w') = stops (trace w) ++ backends (self w)
     /\ (now w + 300 <= now w')%Q
     /\ self w' = self w)
  /\
  (exists w',
     Standalone._wait_proxy_ready E b w
     = (Raise (Py.Exception "Proxy readiness probe expired. Check your VM"), w')
     /\ stops (trace w') = stops (trace w) ++ backends (self w)
     /\ (now w + 300 <= now w')%Q
     /\ self w' = self w).
Proof.
  intros E b w.
  destruct (readiness_timeout_dismantles_fleet E w b 300) as [Hssh Hproxy].
  - reflexivity.
  - intros b' t _. reflexivity.
  - split.
    + apply Hssh. intros t _ _. reflexivity.
    + apply Hproxy. intros t _ _. reflexivity.
Defined.

(** ** Computations that return *)

Lemma bind_ret_inv {A B : Type} (c : M A) (k : A -> M B) (w w' : world) (b : B) :
  bind c k w = (Ret b, w') ->
  exists a w1, c w = (Ret a, w1) /\ k a w1 = (Ret b, w').
Proof.
  unfold bind. destruct (c w) as [[a| |] w1]; intros H; try discriminate H.
  eauto.
Qed.

Lemma ret_inv {A : Type} (a a' : A) (w w' : world) :
  ret a w = (Ret a', w') -> a' = a /\ w' = w.
Proof. unfold ret. intros H. by injection H as <- <-. Qed.

Lemma lift_ret_inv {A : Type} (r : Py.res A) (a : A) (w w' : world) :
  lift r w = (Ret a, w') -> r = inr a /\ w' = w.
Proof.
  destruct r as [e|a0]; cbn; intros H; [discriminate H|].
  by injection H as <- <-.
Qed.

Lemma call_ret_inv {A : Type} (f : Q -> Py.res A) (a : A) (w w' : world) :
  call f w = (Ret a, w') -> f (now w) = inr a /\ w' = w.
Proof. unfold call. apply lift_ret_inv. Qed.

Lemma modify_inv (f : world -> world) (w w' : world) (u : unit) :
  modify f w = (Ret u, w') -> w' = f w.
Proof. unfold modify. intros H. by injection H as _ <-. Qed.

Lemma emit_inv (e : event) (w w' : world) (u : unit) :
  emit e w = (Ret u, w') -> w' = add_event e w.
Proof. apply modify_inv. Qed.

Lemma time_time_inv (w w' : world) (t : Q) :
  time_time w = (Ret t, w') -> t = now w /\ w' = w.
Proof. unfold time_time. intros H. by injection H as <- <-. Qed.

Lemma get_world_inv (w w' w1 : world) :
  get_world w = (Ret w1, w') -> w1 = w /\ w' = w.
Proof. unfold get_world. intros H. by injection H as <- <-. Qed.

Lemma try_except_ret_inv {A : Type} (c : M A) (h : Py.exn -> M A)
    (w w' : world) (a : A) :
  try_except c h w = (Ret a, w') ->
  c w = (Ret a, w') \/ exists e w1, c w = (Raise e, w1) /\ h e w1 = (Ret a, w').
Proof.
  unfold try_except. destruct (c w) as [[a0|e|] w1]; intros H; eauto.
Qed.

(** Inversion of a computation that returned, step by step. *)
Ltac returned :=
  repeat match goal with
    | H : bind _ _ _ = (Ret _, _) |- _ =>
        let a := fresh "a" in
        let w := fresh "w" in
        let H1 := fresh "Hstep" in
        apply bind_ret_inv in H as (a & w & H1 & H)
    | H : ret _ _ = (Ret _, _) |- _ => apply ret_inv in H as [? ?]; subst
    | H : lift _ _ = (Ret _, _) |- _ => apply lift_ret_inv in H as [H ?]; subst
    | H : call _ _ = (Ret _, _) |- _ => apply call_ret_inv in H as [H ?]; subst
    | H : emit _ _ = (Ret _, _) |- _ => apply emit_inv in H; subst
    | H : modify _ _ = (Ret _, _) |- _ => apply modify_inv in H; subst
    | H : time_time _ = (Ret _, _) |- _ => apply time_time_inv in H as [? ?]; subst
    | H : get_world _ = (Ret _, _) |- _ => apply get_world_inv in H as [? ?]; subst
    | H : raise _ _ = (Ret _, _) |- _ => discriminate H
    end.

(** ** The handler of [POST /run] *)

(** C8. An accepted [POST /run] (the one answer with status 202) has set
    [last_usage_time] to the time of the request and has replaced
    [auto_dismantle], [soft_dismantle_timeout] and [hard_dismantle_timeout]
    of the handler by the values under [config.standalone] of the message,
    whatever they were before. *)
Theorem run_overwrites_dismantle_config (E : env) (message : json) (w w' : world)
    (body : json) :
  Controller.run E message w = (Ret (202, body), w') ->
  exists cfg standalone_config auto soft hard,
    Json.getitem message "config" = inr cfg
    /\ Json.getitem cfg "standalone" = inr standalone_config
    /\ Json.getitem standalone_config "auto_dismantle" = inr auto
    /\ Json.getitem standalone_config "soft_dismantle_timeout" = inr soft
    /\ Json.getitem standalone_config "hard_dismantle_timeout" = inr hard
    /\ last_usage_time w' = now w
    /\ auto_dismantle (self w') = auto
    /\ soft_dismantle_timeout (self w') = soft
    /\ hard_dismantle_timeout (self w') = hard.
Proof.
  intros Hrun. unfold Controller.run in Hrun.
  destruct (Json.truthy message && negb (Controller.is_dict message)).
  { apply ret_inv in Hrun as [Hrun _]. discriminate Hrun. }
  apply bind_ret_inv in Hrun as (checked & w1 & Hcheck & Hrun).
  assert (Hw1 : w1 = w).
  { apply try_except_ret_inv in Hcheck as [Hc|(e & w2 & Hc & Hh)].
    - by returned.
    - returned. unfold bind in Hc.
      destruct (Json.getitem message "runtime_name") as [e0|rt]; cbn in Hc.
      + by injection Hc as _ <-.
      + destruct (verify_runtime_name E rt); cbn in Hc; [|discriminate Hc].
        by injection Hc as _ <-. }
  subst w1. destruct checked as [e|rt].
  { apply ret_inv in Hrun as [Hrun _]. discriminate Hrun. }
  returned. do 5 eexists. repeat split; try eassumption; reflexivity.
Qed.

(** C8 on a handler booted with [auto_dismantle] off and timeouts 10 and
    30, and a message that carries [true], 300 and 3600. *)
Lemma run_overwrites_dismantle_config_witness :
  let message := Scenario.a_message (JBool true) (JInt 300) (JInt 3600) in
  let w := Scenario.a_world 50 (Scenario.a_handler (JBool false) (JInt 10) (JInt 30) []) in
  let w' := snd (Controller.run Scenario.calm message w) in
  exists cfg standalone_config auto soft hard,
    Json.getitem message "config" = inr cfg
    /\ Json.getitem cfg "standalone" = inr standalone_config
    /\ Json.getitem standalone_config "auto_dismantle" = inr auto
    /\ Json.getitem standalone_config "soft_dismantle_timeout" = inr soft
    /\ Json.getitem standalone_config "hard_dismantle_timeout" = inr hard
    /\ last_usage_time w' = now w
    /\ auto_dismantle (self w') = auto
    /\ soft_dismantle_timeout (self w') = soft
    /\ hard_dismantle_timeout (self w') = hard.
Proof.
  intros message w w'.
  apply (run_overwrites_dismantle_config Scenario.calm message w w'
           (JObj {[ "activationId"%string := JStr "0f1e2d3c4b5a" ]})).
  vm_compute. reflexivity.
Defined.

Example run_accepts_and_overwrites :
  let w' := snd (Controller.run Scenario.calm
                   (Scenario.a_message (JBool true) (JInt 300) (JInt 3600))
                   (Scenario.a_world 50
                      (Scenario.a_handler (JBool false) (JInt 10) (JInt 30) []))) in
  last_usage_time w' = 50%Q
  /\ auto_dismantle (self w') = JBool true
  /\ soft_dismantle_timeout (self w') = JInt 300
  /\ hard_dismantle_timeout (self w') = JInt 3600
  /\ jobs w' !! "e1-00003"%string = Some Running.
Proof. vm_compute. auto. Qed.

(** ** What a computation may do to the world *)

#[global] Instance evolves_preorder (P : event -> bool) : PreOrder (evolves P).
Proof.
  split.
  - intros w. split; [done|]. exists []. by rewrite app_nil_r.
  - intros w1 w2 w3 [Hs1 (es1 & Ht1 & HP1)] [Hs2 (es2 & Ht2 & HP2)].
    split; [congruence|]. exists (es1 ++ es2).
    split; [by rewrite Ht2, Ht1, app_assoc|]. by apply Forall_app.
Qed.

Lemma evolves_set_now (P : event -> bool) (w : world) (t : Q) :
  evolves P w (set_now t w).
Proof. split; [done|]. exists []. cbn. by rewrite app_nil_r. Qed.

Lemma evolves_add_event (P : event -> bool) (w : world) (e : event) :
  P e = true -> evolves P w (add_event e w).
Proof. intros He. split; [done|]. exists [(now w, e)]. split; [done|]. by constructor. Qed.

Lemma evolves_weaken (P P' : event -> bool) (w w' : world) :
  (forall e, P e = true -> P' e = true) -> evolves P w w' -> evolves P' w w'.
Proof.
  intros HP [Hs (es & Ht & HF)]. split; [done|]. exists es. split; [done|].
  eapply Forall_impl; [exact HF|]. intros te. apply HP.
Qed.

Section Steps.
Context {R : relation world} `{!PreOrder R}.

Lemma steps_ret {A : Type} (a : A) : steps R (ret a).
Proof. intros w. reflexivity. Qed.

Lemma steps_raise {A : Type} (e : Py.exn) : steps R (raise (A:=A) e).
Proof. intros w. reflexivity. Qed.

Lemma steps_lift {A : Type} (r : Py.res A) : steps R (lift r).
Proof. destruct r; [apply steps_raise|apply steps_ret]. Qed.

Lemma steps_call {A : Type} (f : Q -> Py.res A) : steps R (call f).
Proof. intros w. unfold call. apply steps_lift. Qed.

Lemma steps_time_time : steps R time_time.
Proof. intros w. reflexivity. Qed.

Lemma steps_get_world : steps R get_world.
Proof. intros w. reflexivity. Qed.

Lemma steps_bind {A B : Type} (c : M A) (k : A -> M B) :
  steps R c -> (forall a, steps R (k a)) -> steps R (bind c k).
Proof.
  intros Hc Hk w. unfold bind. specialize (Hc w).
  destruct (c w) as [[a|e|] w1]; cbn in *; [|done..].
  etransitivity; [exact Hc|apply Hk].
Qed.

Lemma steps_try_except {A : Type} (c : M A) (h : Py.exn -> M A) :
  steps R c -> (forall e, steps R (h e)) -> steps R (try_except c h).
Proof.
  intros Hc Hh w. unfold try_except. specialize (Hc w).
  destruct (c w) as [[a|e|] w1]; cbn in *; [done| |done].
  etransitivity; [exact Hc|apply Hh].
Qed.

Lemma steps_if {A : Type} (b : bool) (c1 c2 : M A) :
  steps R c1 -> steps R c2 -> steps R (if b then c1 else c2).
Proof. by destruct b. Qed.

Lemma steps_modify (f : world -> world) :
  (forall w, R w (f w)) -> steps R (modify f).
Proof. intros Hf w. apply Hf. Qed.

Lemma steps_sleep (d : Q) :
  (forall w t, R w (set_now t w)) -> steps R (sleep d).
Proof.
  intros Hnow. unfold sleep. apply steps_if; [apply steps_raise|].
  apply steps_modify. intros w. apply Hnow.
Qed.

Lemma steps_wait_loop (fuel : nat) (check : M bool) (interval timeout start : Q) :
  (forall w t, R w (set_now t w)) -> steps R check ->
  steps R (wait_loop fuel check interval timeout start).
Proof.
  intros Hnow Hcheck. induction fuel as [|fuel IH]; [intros w; reflexivity|].
  cbn [wait_loop]. apply steps_bind; [apply steps_time_time|]. intros t.
  apply steps_if; [|apply steps_ret].
  apply steps_bind; [done|]. intros ready.
  apply steps_if; [apply steps_ret|].
  apply steps_bind; [by apply steps_sleep|done].
Qed.

End Steps.

(** The fleet side of the handler: starts, waits and [dismantle] leave
    the handler object as it is and add fleet events only. *)
Section FleetSteps.
Context (E : env) (P : event -> bool).
Hypothesis fleet_allowed : forall e, is_fleet_event e = true -> P e = true.

Lemma steps_emit_fleet (e : event) :
  is_fleet_event e = true -> steps (evolves P) (emit e).
Proof. intros He. apply steps_modify. intros w. apply evolves_add_event. auto. Qed.

Lemma steps_stop_all (bs : list backend) : steps (evolves P) (Standalone.stop_all E bs).
Proof.
  induction bs as [|b bs IH]; [apply steps_ret|]. cbn [Standalone.stop_all].
  apply steps_bind; [by apply steps_emit_fleet|]. intros _.
  apply steps_bind; [apply steps_call|done].
Qed.

Lemma steps_dismantle : steps (evolves P) (Standalone.dismantle E).
Proof.
  apply steps_bind; [by apply steps_emit_fleet|]. intros _.
  apply steps_bind; [apply steps_get_world|]. intros w. apply steps_stop_all.
Qed.

Lemma steps_is_backend_ready (b : backend) :
  steps (evolves P) (Standalone._is_backend_ready E b).
Proof.
  intros w. destruct (is_backend_ready_reads E b w) as [r ->]. reflexivity.
Qed.

Lemma steps_is_proxy_ready (b : backend) :
  steps (evolves P) (Standalone._is_proxy_ready E b).
Proof.
  intros w. destruct (is_proxy_ready_reads E b w) as [r ->]. reflexivity.
Qed.

Lemma steps_wait_backend_ready (b : backend) :
  steps (evolves P) (Standalone._wait_backend_ready E b).
Proof.
  apply steps_bind; [apply steps_time_time|]. intros start.
  apply steps_bind; [apply steps_get_world|]. intros w.
  apply steps_bind; [apply steps_lift|]. intros timeout.
  apply steps_bind.
  { apply steps_wait_loop; [apply evolves_set_now|apply steps_is_backend_ready]. }
  intros ok. apply steps_if; [apply steps_ret|].
  apply steps_bind; [apply steps_dismantle|]. intros _. apply steps_raise.
Qed.

Lemma steps_wait_proxy_ready (b : backend) :
  steps (evolves P) (Standalone._wait_proxy_ready E b).
Proof.
  apply steps_bind; [apply steps_time_time|]. intros start.
  apply steps_bind; [apply steps_get_world|]. intros w.
  apply steps_bind; [apply steps_lift|]. intros timeout.
  apply steps_bind.
  { apply steps_wait_loop; [apply evolves_set_now|apply steps_is_proxy_ready]. }
  intros ok. apply steps_if; [apply steps_ret|].
  apply steps_bind; [apply steps_dismantle|]. intros _. apply steps_raise.
Qed.

Lemma steps_start_backend (b : backend) :
  steps (evolves P) (Standalone._start_backend E b).
Proof.
  apply steps_bind; [by apply steps_emit_fleet|]. intros _.
  apply steps_bind; [apply steps_call|]. intros _.
  apply steps_bind; [apply steps_wait_backend_ready|]. intros _.
  apply steps_ret.
Qed.

End FleetSteps.

(** ** [_single_invoke] and the log monitor *)

Lemma bind_lift {A B : Type} (r : Py.res A) (k : A -> M B) (w : world) :
  bind (lift r) k w = match r with
                      | inl e => (Raise e, w)
                      | inr a => k a w
                      end.
Proof. by destruct r. Qed.

Lemma bind_emit {B : Type} (e : event) (k : unit -> M B) (w : world) :
  bind (emit e) k w = k tt (add_event e w).
Proof. reflexivity. Qed.

Lemma bind_get_world {B : Type} (k : world -> M B) (w : world) :
  bind get_world k w = k w w.
Proof. reflexivity. Qed.

Lemma fleet_event_not_log_monitor (te : Q * event) :
  is_fleet_event (snd te) = true -> is_log_monitor (snd te) = true -> False.
Proof. destruct te as [t []]; cbn; congruence. Qed.

Lemma fleet_events_no_invoke (tes : list (Q * event)) (b : backend) (p : json) :
  Forall (fun te => is_fleet_event (snd te) = true) tes ->
  ~ In (EvInvoke b p) (map snd tes).
Proof.
  intros HF Hin. apply in_map_iff in Hin as (te & Hte & Hin).
  rewrite Forall_forall in HF. apply list_elem_of_In, HF in Hin.
  rewrite Hte in Hin. discriminate Hin.
Qed.

Section SingleInvoke.
Context (E : env).

(** The request of [_single_invoke] and what follows it add one event. *)
Lemma invoke_tail (b : backend) (p : json) (on_worker : bool) (http : json)
    (w : world) :
  exists r,
    (emit (EvInvoke b p) ;;
     response <-
       (if on_worker || Json.truthy http then
          call (http_post_run E (if Json.truthy http then ip_address b
                                 else Some "127.0.0.1"%string) p)
        else call (ssh_curl_run E b p)) ;;
     lift (Json.getitem response "activationId")) w
    = (r, add_event (EvInvoke b p) w).
Proof.
  rewrite bind_emit. unfold bind, call.
  destruct (on_worker || Json.truthy http); cbn [now add_event].
  - destruct (http_post_run E _ p (now w)) as [e|response]; cbn; [eauto|].
    destruct (Json.getitem response "activationId"); cbn; eauto.
  - destruct (ssh_curl_run E b p (now w)) as [e|response]; cbn; [eauto|].
    destruct (Json.getitem response "activationId"); cbn; eauto.
Qed.

Lemma start_log_monitor_run (executor_id job_id : json) (b : backend) (w : world) :
  Standalone._start_log_monitor E executor_id job_id b w
  = match create_job_key E executor_id job_id with
    | inl e => (Raise e, w)
    | inr job_key =>
        if is_lithops_worker (self w) then (Ret tt, w)
        else (Ret tt, add_event (EvLogMonitor job_key b) w)
    end.
Proof.
  unfold Standalone._start_log_monitor. rewrite bind_lift.
  destruct (create_job_key E executor_id job_id); [done|].
  rewrite bind_get_world. by destruct (is_lithops_worker (self w)).
Qed.

(** C10, as amended. In a run of [_single_invoke], a log monitor is
    started only when [disable_log_monitoring] is the string ['False'] and
    the handler is not on a lithops worker ([_start_log_monitor] starts no
    thread there); and in that case every invocation that gets as far as
    its request to [/run] has started the monitor of its backend. With the
    boolean default [False], or with [True], no monitor is started. *)
Theorem log_monitor_started_iff (b : backend) (p : json) (w : world) :
  exists tes,
    trace (snd (Standalone._single_invoke E b p w)) = trace w ++ tes
    /\ (forall te, In te tes -> is_log_monitor (snd te) = true ->
          Json.eq_str (disable_log_monitoring (self w)) "False" = true
          /\ is_lithops_worker (self w) = false)
    /\ (In (EvInvoke b p) (map snd tes) ->
        Json.eq_str (disable_log_monitoring (self w)) "False" = true ->
        is_lithops_worker (self w) = false ->
        exists job_key, In (EvLogMonitor job_key b) (map snd tes))
    /\ (forall flag, disable_log_monitoring (self w) = JBool flag ->
          forall te, In te tes -> is_log_monitor (snd te) = false).
Proof.
  assert (Hbool : forall tes : list (Q * event),
    (forall te, In te tes -> is_log_monitor (snd te) = true ->
       Json.eq_str (disable_log_monitoring (self w)) "False" = true
       /\ is_lithops_worker (self w) = false) ->
    forall flag, disable_log_monitoring (self w) = JBool flag ->
       forall te, In te tes -> is_log_monitor (snd te) = false).
  { intros tes Honly flag Hflag te Hte.
    destruct (is_log_monitor (snd te)) eqn:Hm; [|done].
    destruct (Honly te Hte Hm) as [Hs _]. rewrite Hflag in Hs. discriminate Hs. }
  assert (Hquiet : forall (r : outcome json) w1,
    evolves is_fleet_event w w1 ->
    exists tes, trace (snd (r, w1)) = trace w ++ tes
      /\ (forall te, In te tes -> is_log_monitor (snd te) = true ->
            Json.eq_str (disable_log_monitoring (self w)) "False" = true
            /\ is_lithops_worker (self w) = false)
      /\ (In (EvInvoke b p) (map snd tes) ->
          Json.eq_str (disable_log_monitoring (self w)) "False" = true ->
          is_lithops_worker (self w) = false ->
          exists job_key, In (EvLogMonitor job_key b) (map snd tes))
      /\ (forall flag, disable_log_monitoring (self w) = JBool flag ->
            forall te, In te tes -> is_log_monitor (snd te) = false)).
  { intros r w1 [_ (tes & Ht & HF)]. exists tes. split; [done|].
    assert (Honly : forall te, In te tes -> is_log_monitor (snd te) = true ->
       Json.eq_str (disable_log_monitoring (self w)) "False" = true
       /\ is_lithops_worker (self w) = false).
    { intros te Hte Hm. exfalso. rewrite Forall_forall in HF.
      apply (fleet_event_not_log_monitor te); [|done].
      by apply HF, list_elem_of_In. }
    split; [done|]. split; [|by apply Hbool].
    intros Hin. exfalso. by apply (fleet_events_no_invoke tes b p). }
  unfold Standalone._single_invoke. cbv zeta.
  rewrite bind_lift. destruct (Json.getitem p "executor_id") as [e|executor_id].
  { apply Hquiet. reflexivity. }
  rewrite bind_lift. destruct (Json.getitem p "job_id") as [e|job_id].
  { apply Hquiet. reflexivity. }
  rewrite bind_lift.
  destruct (create_job_key E executor_id job_id) as [e|job_key] eqn:Hkey.
  { apply Hquiet. reflexivity. }
  unfold bind at 1. destruct (is_proxy_ready_reads E b w) as [ready ->].
  unfold bind at 1.
  set (recover := if negb ready
                  then Standalone._start_backend E b ;;
                       Standalone._wait_proxy_ready E b ;; ret tt
                  else ret tt).
  assert (Hrec : evolves is_fleet_event w (snd (recover w))).
  { apply (steps_if (R:=evolves is_fleet_event)); [|apply steps_ret].
    apply steps_bind; [by apply steps_start_backend|]. intros _.
    apply steps_bind; [by apply steps_wait_proxy_ready|]. intros _.
    apply steps_ret. }
  destruct (recover w) as [[[]|e|] w1]; cbn [snd] in Hrec;
    [|by apply Hquiet..].
  rewrite bind_get_world. unfold bind at 1.
  destruct Hrec as [Hself (tes1 & Ht1 & HF1)]. rewrite Hself.
  assert (Hno1 : forall te, In te tes1 -> is_log_monitor (snd te) = true -> False).
  { intros te Hte Hm. rewrite Forall_forall in HF1.
    apply (fleet_event_not_log_monitor te); [|done].
    by apply HF1, list_elem_of_In. }
  destruct (Json.eq_str (disable_log_monitoring (self w)) "False") eqn:Hcond.
  - rewrite start_log_monitor_run, Hkey, Hself.
    destruct (is_lithops_worker (self w)) eqn:Hworker.
    + destruct (invoke_tail b p true (use_http (self w)) w1) as [r ->].
      exists (tes1 ++ [(now w1, EvInvoke b p)]). cbn [snd add_event trace].
      split; [by rewrite Ht1, app_assoc|].
      assert (Honly : forall te, In te (tes1 ++ [(now w1, EvInvoke b p)]) ->
                is_log_monitor (snd te) = true -> true = true /\ true = false).
      { intros te Hte Hm. exfalso. apply in_app_iff in Hte as [Hte|[<-|[]]].
        - by apply (Hno1 te).
        - discriminate Hm. }
      split; [done|]. split; [intros _ _ Hf; discriminate Hf|].
      intros flag Hflag te Hte. destruct (is_log_monitor (snd te)) eqn:Hm; [|done].
      by destruct (Honly te Hte Hm).
    + destruct (invoke_tail b p false (use_http (self w))
                  (add_event (EvLogMonitor job_key b) w1))
        as [r ->].
      exists (tes1 ++ [(now w1, EvLogMonitor job_key b); (now w1, EvInvoke b p)]).
      cbn [snd add_event trace now].
      split; [by rewrite Ht1, <- !app_assoc|].
      split; [done|]. split.
      * intros _ _ _. exists job_key. rewrite map_app. apply in_app_iff.
        right. by left.
      * intros flag Hflag. rewrite Hflag in Hcond. discriminate Hcond.
  - cbn [ret]. destruct (invoke_tail b p (is_lithops_worker (self w)) (use_http (self w)) w1)
      as [r ->].
    exists (tes1 ++ [(now w1, EvInvoke b p)]). cbn [snd add_event trace].
    split; [by rewrite Ht1, app_assoc|].
    assert (Honly : forall te, In te (tes1 ++ [(now w1, EvInvoke b p)]) ->
              is_log_monitor (snd te) = true ->
              false = true /\ is_lithops_worker (self w) = false).
    { intros te Hte Hm. exfalso. apply in_app_iff in Hte as [Hte|[<-|[]]].
      - by apply (Hno1 te).
      - discriminate Hm. }
    split; [done|]. split; [intros _ Hf; discriminate Hf|].
    intros flag Hflag te Hte. destruct (is_log_monitor (snd te)) eqn:Hm; [|done].
    by destruct (Honly te Hte Hm).
Qed.

End SingleInvoke.

(** C10 as stated fails: on a lithops worker the value ['False'] starts
    no log monitor, although the job is invoked. *)
Lemma log_monitor_not_started_on_worker :
  let p := Scenario.a_message (JBool true) (JInt 300) (JInt 3600) in
  let w := Scenario.a_world 0 (Scenario.a_monitoring_handler true (JStr "False")
                                 [Scenario.worker_a]) in
  let r := Standalone._single_invoke (Scenario.with_lithops_worker true Scenario.calm)
             Scenario.worker_a p w in
  Json.eq_str (disable_log_monitoring (self w)) "False" = true
  /\ fst r = Ret (JStr "a1")
  /\ events (snd r) = [EvInvoke Scenario.worker_a p].
Proof. vm_compute. auto. Qed.

(** C10 (amended) off a lithops worker, with the string ['False']. *)
Lemma log_monitor_started_iff_witness :
  let p := Scenario.a_message (JBool true) (JInt 300) (JInt 3600) in
  let b := Scenario.worker_a in
  let w := Scenario.a_world 0 (Scenario.a_monitoring_handler false (JStr "False")
                                 [Scenario.worker_a]) in
  exists tes,
    trace (snd (Standalone._single_invoke Scenario.calm b p w)) = trace w ++ tes
    /\ (forall te, In te tes -> is_log_monitor (snd te) = true ->
          Json.eq_str (disable_log_monitoring (self w)) "False" = true
          /\ is_lithops_worker (self w) = false)
    /\ (In (EvInvoke b p) (map snd tes) ->
        Json.eq_str (disable_log_monitoring (self w)) "False" = true ->
        is_lithops_worker (self w) = false ->
        exists job_key, In (EvLogMonitor job_key b) (map snd tes))
    /\ (forall flag, disable_log_monitoring (self w) = JBool flag ->
          forall te, In te tes -> is_log_monitor (snd te) = false).
Proof.
  intros p b w. apply (log_monitor_started_iff Scenario.calm b p w).
Defined.

Example log_monitor_for_the_string_False :
  let p := Scenario.a_message (JBool true) (JInt 300) (JInt 3600) in
  let w := Scenario.a_world 0 (Scenario.a_monitoring_handler false (JStr "False")
                                 [Scenario.worker_a]) in
  events (snd (Standalone._single_invoke Scenario.calm Scenario.worker_a p w))
  = [EvLogMonitor "e1-00003" Scenario.worker_a; EvInvoke Scenario.worker_a p].
Proof. vm_compute. reflexivity. Qed.

Example no_log_monitor_for_the_default :
  let p := Scenario.a_message (JBool true) (JInt 300) (JInt 3600) in
  let w := Scenario.a_world 0 (Scenario.a_monitoring_handler false (JBool false)
                                 [Scenario.worker_a]) in
  events (snd (Standalone._single_invoke Scenario.calm Scenario.worker_a p w))
  = [EvInvoke Scenario.worker_a p].
Proof. vm_compute. reflexivity. Qed.

(** ** Computations that return or raise *)

Lemma total_ret {A : Type} (a : A) : total (ret a).
Proof. intros w. discriminate. Qed.

Lemma total_raise {A : Type} (e : Py.exn) : total (raise (A:=A) e).
Proof. intros w. discriminate. Qed.

Lemma total_lift {A : Type} (r : Py.res A) : total (lift r).
Proof. destruct r; [apply total_raise|apply total_ret]. Qed.

Lemma total_call {A : Type} (f : Q -> Py.res A) : total (call f).
Proof. intros w. unfold call. apply total_lift. Qed.

Lemma total_time_time : total time_time.
Proof. intros w. discriminate. Qed.

Lemma total_get_world : total get_world.
Proof. intros w. discriminate. Qed.

Lemma total_modify (f : world -> world) : total (modify f).
Proof. intros w. discriminate. Qed.

Lemma total_emit (e : event) : total (emit e).
Proof. apply total_modify. Qed.

Lemma total_bind {A B : Type} (c : M A) (k : A -> M B) :
  total c -> (forall a, total (k a)) -> total (bind c k).
Proof.
  intros Hc Hk w. unfold bind. specialize (Hc w).
  destruct (c w) as [[a|e|] w1]; cbn in *; [apply Hk|discriminate|done].
Qed.

Lemma total_try_except {A : Type} (c : M A) (h : Py.exn -> M A) :
  total c -> (forall e, total (h e)) -> total (try_except c h).
Proof.
  intros Hc Hh w. unfold try_except. specialize (Hc w).
  destruct (c w) as [[a|e|] w1]; cbn in *; [discriminate|apply Hh|done].
Qed.

Lemma total_if {A : Type} (b : bool) (c1 c2 : M A) :
  total c1 -> total c2 -> total (if b then c1 else c2).
Proof. by destruct b. Qed.

Lemma total_sleep (d : Q) : total (sleep d).
Proof. unfold sleep. apply total_if; [apply total_raise|apply total_modify]. Qed.

(** A wait with polls that only read ends within its fuel. *)
Lemma wait_loop_ends (check : M bool) (interval timeout start : Q) :
  (0 < interval)%Q ->
  (forall w, exists r, check w = (Ret r, w)) ->
  forall (fuel : nat) (w : world),
    (Z.to_nat (Qceiling ((timeout - (now w - start)) / interval)) < fuel)%nat ->
    fst (wait_loop fuel check interval timeout start w) <> OutOfFuel.
Proof.
  intros Hi Hread fuel. induction fuel as [|fuel IH]; intros w Hfuel; [lia|].
  cbn [wait_loop]. unfold bind at 1, time_time.
  destruct (Py.Qltb (now w - start) timeout) eqn:Htest; [|discriminate].
  apply Qltb_lt in Htest.
  unfold bind at 1. destruct (Hread w) as [[|] ->]; [discriminate|].
  unfold bind at 1. rewrite sleep_advances by lra.
  apply IH. cbn [now set_now].
  eapply Nat.lt_le_trans; [|apply Nat.lt_succ_r, Hfuel].
  assert (Heq : (((timeout - (now w + interval - start)) / interval
                 == (timeout - (now w - start) - interval) / interval))%Q).
  { apply Qmult_comp; [ring|reflexivity]. }
  rewrite (Qceiling_comp _ _ Heq).
  apply ceiling_step; [done|lra].
Qed.

(** A wait started now, on its own fuel. *)
Lemma total_wait (check : M bool) (interval timeout : Q) (k : bool -> M bool) :
  (0 < interval)%Q ->
  (forall w, exists r, check w = (Ret r, w)) ->
  (forall ok, total (k ok)) ->
  forall w,
    fst ((ok <- wait_loop (wait_fuel interval timeout) check interval timeout (now w) ;;
          k ok) w) <> OutOfFuel.
Proof.
  intros Hi Hread Hk w. unfold bind.
  pose proof (wait_loop_ends check interval timeout (now w) Hi Hread
                (wait_fuel interval timeout) w) as Hend.
  destruct (wait_loop _ check interval timeout (now w) w) as [[ok|e|] w1];
    cbn [fst] in *; [apply Hk|discriminate|].
  apply Hend. unfold wait_fuel. apply Nat.lt_succ_r.
  assert (Heq : ((timeout - (now w - now w)) / interval == timeout / interval)%Q).
  { apply Qmult_comp; [ring|reflexivity]. }
  by rewrite (Qceiling_comp _ _ Heq).
Qed.

Section HandlerTotal.
Context (E : env).

Lemma total_stop_all (bs : list backend) : total (Standalone.stop_all E bs).
Proof.
  induction bs as [|b bs IH]; [apply total_ret|]. cbn [Standalone.stop_all].
  apply total_bind; [apply total_emit|]. intros _.
  apply total_bind; [apply total_call|done].
Qed.

Lemma total_dismantle : total (Standalone.dismantle E).
Proof.
  apply total_bind; [apply total_emit|]. intros _.
  apply total_bind; [apply total_get_world|]. intros w. apply total_stop_all.
Qed.

Lemma total_wait_backend_ready (b : backend) :
  total (Standalone._wait_backend_ready E b).
Proof.
  intros w. unfold Standalone._wait_backend_ready.
  unfold bind at 1, time_time. rewrite bind_get_world, bind_lift.
  destruct (Json.num (start_timeout (self w))) as [e|timeout]; [discriminate|].
  apply total_wait; [reflexivity|apply is_backend_ready_reads|].
  intros ok. apply total_if; [apply total_ret|].
  apply total_bind; [apply total_dismantle|]. intros _. apply total_raise.
Qed.

Lemma total_wait_proxy_ready (b : backend) :
  total (Standalone._wait_proxy_ready E b).
Proof.
  intros w. unfold Standalone._wait_proxy_ready.
  unfold bind at 1, time_time. rewrite bind_get_world, bind_lift.
  destruct (Json.num (start_timeout (self w))) as [e|timeout]; [discriminate|].
  apply total_wait; [reflexivity|apply is_proxy_ready_reads|].
  intros ok. apply total_if; [apply total_ret|].
  apply total_bind; [apply total_dismantle|]. intros _. apply total_raise.
Qed.

Lemma total_start_backend (b : backend) : total (Standalone._start_backend E b).
Proof.
  apply total_bind; [apply total_emit|]. intros _.
  apply total_bind; [apply total_call|]. intros _.
  apply total_bind; [apply total_wait_backend_ready|]. intros _.
  apply total_ret.
Qed.

Lemma total_is_proxy_ready (b : backend) : total (Standalone._is_proxy_ready E b).
Proof. intros w. destruct (is_proxy_ready_reads E b w) as [r ->]. discriminate. Qed.

Lemma total_start_log_monitor (executor_id job_id : json) (b : backend) :
  total (Standalone._start_log_monitor E executor_id job_id b).
Proof.
  apply total_bind; [apply total_lift|]. intros job_key.
  apply total_bind; [apply total_get_world|]. intros w.
  apply total_if; [apply total_emit|apply total_ret].
Qed.

Lemma total_single_invoke (b : backend) (p : json) :
  total (Standalone._single_invoke E b p).
Proof.
  unfold Standalone._single_invoke.
  do 3 (apply total_bind; [apply total_lift|]; intros ?).
  apply total_bind; [apply total_is_proxy_ready|]. intros ready.
  apply total_bind.
  { apply total_if; [|apply total_ret].
    apply total_bind; [apply total_start_backend|]. intros _.
    apply total_bind; [apply total_wait_proxy_ready|]. intros _.
    apply total_ret. }
  intros _. apply total_bind; [apply total_get_world|]. intros w.
  apply total_bind.
  { apply total_if; [apply total_start_log_monitor|apply total_ret]. }
  intros _. apply total_bind; [apply total_emit|]. intros _.
  apply total_bind; [|intros response; apply total_lift].
  apply total_if; apply total_call.
Qed.

Lemma total_create (name_prefix name_suffix : string) :
  total (Standalone.create E name_prefix name_suffix).
Proof.
  unfold Standalone.create.
  apply total_bind; [apply total_get_world|]. intros w.
  apply total_bind; [apply total_lift|]. intros b0.
  apply total_bind; [apply total_emit|]. intros _.
  apply total_bind; [apply total_lift|]. intros b.
  apply total_bind; [apply total_modify|]. intros _.
  apply total_bind; [apply total_start_backend|]. intros _.
  apply total_bind; [apply total_emit|]. intros _.
  apply total_bind; [apply total_call|]. intros _.
  apply total_bind; [apply total_wait_proxy_ready|]. intros _.
  apply total_ret.
Qed.

Lemma total_thread_invoke (job_key call_id : string) (p : json) :
  total (Standalone._thread_invoke E job_key call_id p).
Proof.
  unfold Standalone._thread_invoke.
  apply total_bind; [apply total_create|]. intros b.
  do 3 (apply total_bind; [apply total_lift|]; intros ?).
  apply total_bind; [apply total_single_invoke|]. intros _.
  apply total_ret.
Qed.

End HandlerTotal.

(** ** [run_job] of the handler *)

Lemma bind_modify {B : Type} (f : world -> world) (k : unit -> M B) (w : world) :
  bind (modify f) k w = k tt (f w).
Proof. reflexivity. Qed.

Lemma steps_emit_any (e : event) : steps (evolves any_event) (emit e).
Proof. apply steps_modify. intros w. by apply evolves_add_event. Qed.

Section RunJob.
Context (E : env).

Lemma steps_start_log_monitor (executor_id job_id : json) (b : backend) :
  steps (evolves any_event) (Standalone._start_log_monitor E executor_id job_id b).
Proof.
  apply steps_bind; [apply steps_lift|]. intros job_key.
  apply steps_bind; [apply steps_get_world|]. intros w.
  apply steps_if; [apply steps_emit_any|apply steps_ret].
Qed.

(** [_single_invoke] leaves the handler object as it is. *)
Lemma steps_single_invoke (b : backend) (p : json) :
  steps (evolves any_event) (Standalone._single_invoke E b p).
Proof.
  unfold Standalone._single_invoke.
  do 3 (apply steps_bind; [apply steps_lift|]; intros ?).
  apply steps_bind; [by apply steps_is_proxy_ready|]. intros ready.
  apply steps_bind.
  { apply steps_if; [|apply steps_ret].
    apply steps_bind; [by apply steps_start_backend|]. intros _.
    apply steps_bind; [by apply steps_wait_proxy_ready|]. intros _.
    apply steps_ret. }
  intros _. apply steps_bind; [apply steps_get_world|]. intros w.
  apply steps_bind.
  { apply steps_if; [apply steps_start_log_monitor|apply steps_ret]. }
  intros _. apply steps_bind; [apply steps_emit_any|]. intros _.
  apply steps_bind; [|intros response; apply steps_lift].
  apply steps_if; apply steps_call.
Qed.

(** [create] appends the backend it has provisioned to the fleet, whatever
    becomes of the start and of the waits. *)
Lemma create_appends (name_prefix name_suffix : string) (w : world) (b0 b : backend) :
  Standalone.create_backend_handler E (self w) = inr b0 ->
  backend_create E b0 name_prefix name_suffix = inr b ->
  self (snd (Standalone.create E name_prefix name_suffix w))
  = set_backends (backends (self w) ++ [b]) (self w).
Proof.
  intros Hnew Hcreate. unfold Standalone.create.
  rewrite bind_get_world, bind_lift, Hnew, bind_emit, bind_lift, Hcreate.
  rewrite bind_modify.
  match goal with
  | |- self (snd (?rest ?w2)) = _ =>
      assert (Hrest : evolves any_event w2 (snd (rest w2)))
  end.
  { apply (steps_bind (R:=evolves any_event)); [by apply steps_start_backend|].
    intros _. apply steps_bind; [apply steps_emit_any|]. intros _.
    apply steps_bind; [apply steps_call|]. intros _.
    apply steps_bind; [by apply steps_wait_proxy_ready|]. intros _.
    apply steps_ret. }
  destruct Hrest as [-> _]. reflexivity.
Qed.

Lemma thread_invoke_appends (job_key call_id : string) (p : json) (w : world)
    (b0 b : backend) :
  Standalone.create_backend_handler E (self w) = inr b0 ->
  backend_create E b0 job_key call_id = inr b ->
  self (snd (Standalone._thread_invoke E job_key call_id p w))
  = set_backends (backends (self w) ++ [b]) (self w).
Proof.
  intros Hnew Hcreate.
  pose proof (create_appends job_key call_id w b0 b Hnew Hcreate) as Happ.
  unfold Standalone._thread_invoke. unfold bind at 1.
  destruct (Standalone.create E job_key call_id w) as [[b'|e|] w1];
    cbn [snd] in *; [|done..].
  match goal with
  | |- self (snd (?rest w1)) = _ =>
      assert (Hrest : evolves any_event w1 (snd (rest w1)))
  end.
  { do 3 (apply (steps_bind (R:=evolves any_event)); [apply steps_lift|]; intros ?).
    apply steps_bind; [apply steps_single_invoke|]. intros _.
    apply steps_ret. }
  destruct Hrest as [-> _]. exact Happ.
Qed.

(** A task in the pool: what it raises stays in its future. *)
Lemma pooled_task_run {A : Type} (c : M A) (w : world) :
  fst (c w) <> OutOfFuel ->
  try_except (c ;; ret tt) (fun _ => ret tt) w = (Ret tt, snd (c w)).
Proof.
  intros Hend. unfold try_except, bind.
  destruct (c w) as [[a|e|] w1]; cbn in *; done.
Qed.

(** The pool of [run_job] leaves one more backend in the fleet for each
    of its tasks. *)
Lemma run_pool_grows (b0 : backend) (tasks : list (string * string * json)) :
  (forall name_prefix name_suffix,
      exists b, backend_create E b0 name_prefix name_suffix = inr b) ->
  forall w,
    Standalone.create_backend_handler E (self w) = inr b0 ->
    fst (Standalone.run_pool E tasks w) = Ret tt
    /\ length (backends (self (snd (Standalone.run_pool E tasks w))))
       = (length (backends (self w)) + length tasks)%nat.
Proof.
  intros Hcreate. induction tasks as [|[[job_key call_id] p] tasks IH]; intros w Hnew.
  - cbn. split; [done|lia].
  - assert (Hrun : Standalone.run_pool E ((job_key, call_id, p) :: tasks) w
                   = Standalone.run_pool E tasks
                       (snd (Standalone._thread_invoke E job_key call_id p w))).
    { cbn [Standalone.run_pool]. unfold bind at 1.
      by rewrite pooled_task_run by apply total_thread_invoke. }
    rewrite Hrun.
    destruct (Hcreate job_key call_id) as [b Hb].
    pose proof (thread_invoke_appends job_key call_id p w b0 b Hnew Hb) as Hself.
    destruct (IH (snd (Standalone._thread_invoke E job_key call_id p w))) as [Hr Hlen].
    { rewrite Hself. exact Hnew. }
    split; [exact Hr|]. rewrite Hlen, Hself. cbn [backends set_backends length].
    rewrite length_app. cbn. lia.
Qed.

Lemma submit_calls_run (job_key : string) (idx : list Z) (p : json) (w : world) :
  Standalone.submit_calls job_key idx p w
  = (Ret tt, add_events (map (fun i => EvThreadInvoke job_key (Py.format_05d i) p) idx) w).
Proof.
  revert w. induction idx as [|i idx IH]; intros w.
  - cbn. by rewrite add_events_nil.
  - cbn [Standalone.submit_calls map]. rewrite bind_emit, IH.
    by rewrite add_event_events, add_events_app.
Qed.

Lemma range_upto (n : Z) :
  0 < n -> Py.range 0 n 1 = inr (map Z.of_nat (seq 0 (Z.to_nat n))).
Proof.
  intros Hn. unfold Py.range, Py.range_len. cbn [Z.eqb Z.ltb Z.compare].
  destruct (Z.ltb_spec 0 n) as [_|?]; [|lia].
  rewrite Z.div_1_r. replace (n - 0 - 1 + 1) with n by lia.
  f_equal. apply map_ext. intros k. lia.
Qed.

(** [run_job] without a bound backend: nothing is invoked; either it
    raises before any submission, or it submits one [_thread_invoke] for
    each call id and returns [None]. *)
Lemma run_job_fans_out (p : json) (w : world) :
  provided_backed (self w) = false ->
  (exists e, Standalone.run_job E p w = (Raise e, w))
  \/ exists job_key jd total_calls n,
       Json.getitem p "job_description" = inr jd
       /\ Json.getitem jd "total_calls" = inr total_calls
       /\ Json.as_index total_calls = inr n
       /\ 0 < n
       /\ Standalone.run_job E p w
          = (Ret JNull,
             add_events
               (map (fun k : nat =>
                       EvThreadInvoke job_key (Py.format_05d (Z.of_nat k)) p)
                    (seq 0 (Z.to_nat n))) w).
Proof.
  intros Hprov. unfold Standalone.run_job. rewrite bind_get_world, Hprov.
  rewrite bind_lift. destruct (Json.getitem p "executor_id") as [e|executor_id]; [eauto|].
  rewrite bind_lift. destruct (Json.getitem p "job_id") as [e|job_id]; [eauto|].
  rewrite bind_lift. destruct (create_job_key E executor_id job_id) as [e|job_key]; [eauto|].
  rewrite bind_lift. destruct (Json.getitem p "job_description") as [e|jd]; [eauto|].
  rewrite bind_lift. destruct (Json.getitem jd "total_calls") as [e|total_calls] eqn:Htc; [eauto|].
  rewrite bind_lift. destruct (Json.to_int total_calls) as [e|max_workers] eqn:Hint; [eauto|].
  destruct (Z.leb_spec max_workers 0) as [Hle|Hpos]; [left; eauto|].
  rewrite bind_lift. destruct (Json.as_index total_calls) as [e|n] eqn:Hidx; [eauto|].
  assert (n = max_workers) as ->.
  { destruct total_calls; cbn in Hint, Hidx; try discriminate Hidx; congruence. }
  rewrite bind_lift, range_upto by done.
  unfold bind. rewrite submit_calls_run. right.
  exists job_key, jd, total_calls, max_workers.
  repeat split; try done. cbn [ret]. by rewrite map_map.
Qed.

(** What [__init__] decides. *)
Lemma init_provided (standalone_config : json) (h : handler) :
  Standalone.__init__ E standalone_config = inr h ->
  exists backend mode,
    Standalone.create_backend_handler E h = inr backend
    /\ Json.get standalone_config "exec_mode" (JStr "consume") = inr mode
    /\ provided_backed h
       = negb (Json.eq_str mode "create")
         && bool_decide (ip_address backend <> None)
         && bool_decide (instance_id backend <> None)
    /\ backends h = (if provided_backed h then [backend] else []).
Proof.
  unfold Standalone.__init__. intros Hinit.
  repeat match type of Hinit with
         | match ?x with _ => _ end = _ =>
             let Hx := fresh "Hx" in
             destruct x eqn:Hx; try discriminate Hinit
         end;
    injection Hinit as <-; do 2 eexists;
    (split; [eassumption|]); (split; [reflexivity|]);
    cbn [provided_backed backends]; split; (done || by rewrite ?Hx11).
Qed.

End RunJob.

Lemma events_add_event (e : event) (w : world) :
  events (add_event e w) = events w ++ [e].
Proof. unfold events. cbn. by rewrite map_app. Qed.

Section DirectInvoke.
Context (E : env).

(** The request of [_single_invoke] and the activation id of its
    response. *)
Lemma invoke_tail_result (b : backend) (p : json) (on_worker : bool) (http : json)
    (w : world) :
  (emit (EvInvoke b p) ;;
   response <-
     (if on_worker || Json.truthy http then
        call (http_post_run E (if Json.truthy http then ip_address b
                               else Some "127.0.0.1"%string) p)
      else call (ssh_curl_run E b p)) ;;
   lift (Json.getitem response "activationId")) w
  = (match invoke_request E on_worker http b p (now w) with
     | inl e => Raise e
     | inr response =>
         match Json.getitem response "activationId" with
         | inl e => Raise e
         | inr act_id => Ret act_id
         end
     end, add_event (EvInvoke b p) w).
Proof.
  rewrite bind_emit. unfold bind, call, invoke_request.
  destruct (on_worker || Json.truthy http); cbn [now add_event].
  - destruct (http_post_run E _ p (now w)) as [e|response]; cbn; [done|].
    by destruct (Json.getitem response "activationId").
  - destruct (ssh_curl_run E b p (now w)) as [e|response]; cbn; [done|].
    by destruct (Json.getitem response "activationId").
Qed.

(** What [_single_invoke] has done when it returns: a request to [/run]
    for that backend, the last of its events, and before it starts, waits
    and the start of a log monitor only; what it returns is the activation
    id of the response. *)
Lemma single_invoke_returned (b : backend) (p : json) (w w' : world) (act_id : json) :
  Standalone._single_invoke E b p w = (Ret act_id, w') ->
  exists es response t,
    events w' = events w ++ es ++ [EvInvoke b p]
    /\ Forall (fun e => is_fleet_event e = true \/ is_log_monitor e = true) es
    /\ invoke_request E (is_lithops_worker (self w)) (use_http (self w)) b p t
       = inr response
    /\ Json.getitem response "activationId" = inr act_id.
Proof.
  unfold Standalone._single_invoke. cbv zeta. intros Hrun.
  rewrite bind_lift in Hrun.
  destruct (Json.getitem p "executor_id") as [e|executor_id]; [discriminate|].
  rewrite bind_lift in Hrun.
  destruct (Json.getitem p "job_id") as [e|job_id]; [discriminate|].
  rewrite bind_lift in Hrun.
  destruct (create_job_key E executor_id job_id) as [e|job_key] eqn:Hkey;
    [discriminate|].
  unfold bind at 1 in Hrun. destruct (is_proxy_ready_reads E b w) as [ready Hready].
  rewrite Hready in Hrun. unfold bind at 1 in Hrun.
  set (recover := if negb ready
                  then Standalone._start_backend E b ;;
                       Standalone._wait_proxy_ready E b ;; ret tt
                  else ret tt) in Hrun.
  assert (Hrec : evolves is_fleet_event w (snd (recover w))).
  { apply (steps_if (R:=evolves is_fleet_event)); [|apply steps_ret].
    apply steps_bind; [by apply steps_start_backend|]. intros _.
    apply steps_bind; [by apply steps_wait_proxy_ready|]. intros _.
    apply steps_ret. }
  destruct (recover w) as [[[]|e|] w1]; cbn [snd] in Hrec; [|discriminate..].
  rewrite bind_get_world in Hrun. unfold bind at 1 in Hrun.
  destruct Hrec as [Hself (tes1 & Ht1 & HF1)]. rewrite Hself in Hrun.
  assert (Hev1 : events w1 = events w ++ map snd tes1).
  { unfold events. by rewrite Ht1, map_app. }
  assert (HF : Forall (fun e => is_fleet_event e = true \/ is_log_monitor e = true)
                      (map snd tes1)).
  { apply Forall_map. eapply Forall_impl; [exact HF1|]. intros te Hte. by left. }
  assert (Hend : forall (es : list event) (w2 : world),
    events w2 = events w1 ++ es ->
    Forall (fun e => is_fleet_event e = true \/ is_log_monitor e = true) es ->
    (match invoke_request E (is_lithops_worker (self w)) (use_http (self w)) b p
             (now w2) with
     | inl e => Raise e
     | inr response =>
         match Json.getitem response "activationId" with
         | inl e => Raise e
         | inr a => Ret a
         end
     end, add_event (EvInvoke b p) w2) = (Ret act_id, w') ->
    exists es response t,
      events w' = events w ++ es ++ [EvInvoke b p]
      /\ Forall (fun e => is_fleet_event e = true \/ is_log_monitor e = true) es
      /\ invoke_request E (is_lithops_worker (self w)) (use_http (self w)) b p t
         = inr response
      /\ Json.getitem response "activationId" = inr act_id).
  { intros es w2 Hev2 HFes Hres.
    destruct (invoke_request E _ _ b p (now w2)) as [e|response] eqn:Hreq;
      [discriminate|].
    destruct (Json.getitem response "activationId") as [e|a] eqn:Hact;
      [discriminate|].
    injection Hres as -> <-.
    exists (map snd tes1 ++ es), response, (now w2).
    split; [|split; [by apply Forall_app|done]].
    by rewrite events_add_event, Hev2, Hev1, <- !app_assoc. }
  destruct (Json.eq_str (disable_log_monitoring (self w)) "False").
  - rewrite start_log_monitor_run, Hkey, Hself in Hrun.
    destruct (is_lithops_worker (self w)) eqn:Hworker.
    + rewrite invoke_tail_result in Hrun.
      apply (Hend [] w1); [by rewrite app_nil_r|constructor|exact Hrun].
    + rewrite invoke_tail_result in Hrun.
      apply (Hend [EvLogMonitor job_key b] (add_event (EvLogMonitor job_key b) w1));
        [apply events_add_event| |exact Hrun].
      constructor; [by right|constructor].
  - cbn [ret] in Hrun. rewrite invoke_tail_result in Hrun.
    apply (Hend [] w1); [by rewrite app_nil_r|constructor|exact Hrun].
Qed.

(** [_single_invoke] on a backend whose proxy answers: the request, and
    the activation id of its response. *)
Lemma single_invoke_returns (b : backend) (p : json) (w : world)
    (executor_id job_id : json) (job_key : string) (response act_id : json) :
  Json.getitem p "executor_id" = inr executor_id ->
  Json.getitem p "job_id" = inr job_id ->
  create_job_key E executor_id job_id = inr job_key ->
  fst (Standalone._is_proxy_ready E b w) = Ret true ->
  invoke_request E (is_lithops_worker (self w)) (use_http (self w)) b p (now w)
  = inr response ->
  Json.getitem response "activationId" = inr act_id ->
  exists w',
    Standalone._single_invoke E b p w = (Ret act_id, w')
    /\ events w'
       = events w
         ++ (if Json.eq_str (disable_log_monitoring (self w)) "False"
                && negb (is_lithops_worker (self w))
             then [EvLogMonitor job_key b] else [])
         ++ [EvInvoke b p].
Proof.
  intros Heid Hjid Hkey Hup Hreq Hact.
  unfold Standalone._single_invoke. cbv zeta.
  rewrite bind_lift, Heid, bind_lift, Hjid, bind_lift, Hkey.
  unfold bind at 1. destruct (is_proxy_ready_reads E b w) as [ready Hready].
  rewrite Hready in Hup |- *. cbn [fst] in Hup. injection Hup as ->.
  cbn [negb]. unfold bind at 1. cbn [ret].
  rewrite bind_get_world. unfold bind at 1.
  destruct (Json.eq_str (disable_log_monitoring (self w)) "False").
  - rewrite start_log_monitor_run, Hkey.
    destruct (is_lithops_worker (self w)) eqn:Hworker; cbn [andb negb].
    + rewrite invoke_tail_result, Hreq, Hact.
      eexists. split; [reflexivity|]. by rewrite events_add_event.
    + rewrite invoke_tail_result.
      cbn [now add_event]. rewrite Hreq, Hact.
      eexists. split; [reflexivity|].
      by rewrite !events_add_event, <- app_assoc.
  - cbn [ret andb]. rewrite invoke_tail_result, Hreq, Hact.
    eexists. split; [reflexivity|]. by rewrite events_add_event.
Qed.

End DirectInvoke.

(** C9. A handler built by [__init__] has [provided_backed] set exactly
    when [exec_mode] is not ['create'] and the configured backend has an ip
    address and an instance id. With it set, the fleet is that backend and
    [run_job] is the single invocation on it: whatever it returns is the
    activation id of the response to a request to [/run] made for that
    backend, the last event of the run, before which the backend may be
    started and a log monitor started but no worker is created and no task
    submitted; and when the proxy of the backend answers the ping and the
    request gives an activation id, [run_job] returns that id after the
    request alone (and the start of the log monitor, if there is one).
    Without it, the fleet is empty and [run_job] invokes nothing
    itself: it raises before any submission, or it submits one
    [_thread_invoke] for each of the [total_calls] call ids ["00000"],
    ["00001"], ... and returns [None]; each of these tasks creates a
    backend of its own, so that the pool leaves [total_calls] backends in
    the fleet, whatever the chunk size. *)
Theorem run_job_direct_iff_provided (E : env) (standalone_config : json)
    (h : handler) (p : json) (w : world) :
  Standalone.__init__ E standalone_config = inr h ->
  self w = h ->
  exists backend mode,
    Standalone.create_backend_handler E h = inr backend
    /\ Json.get standalone_config "exec_mode" (JStr "consume") = inr mode
    /\ (provided_backed h = true <->
        Json.eq_str mode "create" = false
        /\ ip_address backend <> None /\ instance_id backend <> None)
    /\ (provided_backed h = true ->
        backends h = [backend]
        /\ Standalone.run_job E p w = Standalone._single_invoke E backend p w
        /\ (forall act_id w',
              Standalone.run_job E p w = (Ret act_id, w') ->
              exists es response t,
                events w' = events w ++ es ++ [EvInvoke backend p]
                /\ Forall (fun e => is_fleet_event e = true
                                    \/ is_log_monitor e = true) es
                /\ invoke_request E (is_lithops_worker h) (use_http h) backend p t
                   = inr response
                /\ Json.getitem response "activationId" = inr act_id)
        /\ (forall executor_id job_id job_key response act_id,
              Json.getitem p "executor_id" = inr executor_id ->
              Json.getitem p "job_id" = inr job_id ->
              create_job_key E executor_id job_id = inr job_key ->
              fst (Standalone._is_proxy_ready E backend w) = Ret true ->
              invoke_request E (is_lithops_worker h) (use_http h) backend p (now w)
              = inr response ->
              Json.getitem response "activationId" = inr act_id ->
              exists w',
                Standalone.run_job E p w = (Ret act_id, w')
                /\ events w'
                   = events w
                     ++ (if Json.eq_str (disable_log_monitoring h) "False"
                            && negb (is_lithops_worker h)
                         then [EvLogMonitor job_key backend] else [])
                     ++ [EvInvoke backend p]))
    /\ (provided_backed h = false ->
        backends h = []
        /\ ((exists e, Standalone.run_job E p w = (Raise e, w))
            \/ exists job_key jd total_calls n,
                 Json.getitem p "job_description" = inr jd
                 /\ Json.getitem jd "total_calls" = inr total_calls
                 /\ Json.as_index total_calls = inr n
                 /\ 0 < n
                 /\ Standalone.run_job E p w
                    = (Ret JNull,
                       add_events
                         (map (fun k : nat =>
                                 EvThreadInvoke job_key
                                   (Py.format_05d (Z.of_nat k)) p)
                              (seq 0 (Z.to_nat n))) w)
                 /\ ((forall name_prefix name_suffix,
                        exists b, backend_create E backend name_prefix name_suffix
                                  = inr b) ->
                     let tasks :=
                       map (fun k : nat =>
                              (job_key, Py.format_05d (Z.of_nat k), p))
                           (seq 0 (Z.to_nat n)) in
                     let w1 := snd (Standalone.run_job E p w) in
                     fst (Standalone.run_pool E tasks w1) = Ret tt
                     /\ Z.of_nat (length (backends
                                           (self (snd (Standalone.run_pool E tasks w1)))))
                        = n))).
Proof.
  intros Hinit Hself.
  destruct (init_provided E standalone_config h Hinit)
    as (backend & mode & Hnew & Hmode & Hprov & Hfleet).
  exists backend, mode. split; [done|]. split; [done|]. split; [|split].
  - rewrite Hprov, !andb_true_iff, negb_true_iff, !bool_decide_eq_true.
    tauto.
  - intros Hp. rewrite Hp in Hfleet.
    assert (Hrun : Standalone.run_job E p w = Standalone._single_invoke E backend p w).
    { unfold Standalone.run_job. rewrite bind_get_world, Hself, Hp, Hfleet.
      by rewrite bind_lift. }
    split; [done|]. split; [done|]. rewrite Hrun, <- Hself. split.
    + intros act_id w' Hret. by apply (single_invoke_returned E backend p w w').
    + intros executor_id job_id job_key response act_id.
      apply (single_invoke_returns E backend p w).
  - intros Hp. rewrite Hp in Hfleet. split; [done|].
    destruct (run_job_fans_out E p w) as [Hraise|Hfan]; [by rewrite Hself|by left|].
    destruct Hfan as (job_key & jd & total_calls & n & Hjd & Htc & Hidx & Hn & Hrun).
    right. exists job_key, jd, total_calls, n. repeat (split; [done|]).
    intros Hcreate tasks w1.
    destruct (run_pool_grows E backend tasks Hcreate w1) as [Hret Hlen].
    { unfold w1. rewrite Hrun. cbn [snd add_events self]. by rewrite Hself. }
    split; [done|]. rewrite Hlen. unfold w1 at 1. rewrite Hrun.
    cbn [snd add_events self]. rewrite Hself, Hfleet. unfold tasks.
    rewrite length_map, length_seq. cbn [length]. lia.
Qed.

(** C9 on a handler whose configuration binds [worker_a] and a job of
    three calls: the handler is in the provided mode, and [run_job] makes
    the one request and returns the activation id of its response. *)
Lemma run_job_direct_iff_provided_witness :
  let E := Scenario.bound in
  let h := Scenario.booted E (Scenario.a_config "consume") in
  let p := Scenario.a_job 3 ["00000"; "00001"; "00002"]%string 2 [] in
  let w := Scenario.a_world 0 h in
  provided_backed h = true
  /\ backends h = [Scenario.worker_a]
  /\ exists w',
       Standalone.run_job E p w = (Ret (JStr "a1"), w')
       /\ events w' = events w ++ [] ++ [EvInvoke Scenario.worker_a p].
Proof.
  intros E h p w.
  destruct (run_job_direct_iff_provided E (Scenario.a_config "consume") h p w)
    as (backend & mode & Hnew & _ & _ & Hdirect & _).
  - vm_compute. reflexivity.
  - reflexivity.
  - assert (Hbackend : backend = Scenario.worker_a).
    { assert (Hnew' : Standalone.create_backend_handler E h = inr Scenario.worker_a)
        by (vm_compute; reflexivity).
      rewrite Hnew' in Hnew. by injection Hnew as <-. }
    subst backend.
    destruct (Hdirect eq_refl) as (Hfleet & _ & _ & Hreturns).
    split; [reflexivity|]. split; [exact Hfleet|].
    apply (Hreturns (JStr "e1") (JStr "00003") "e1-00003"%string
             (JObj {[ "activationId"%string := JStr "a1" ]}) (JStr "a1"));
      vm_compute; reflexivity.
Defined.

Example format_05d_examples :
  Py.format_05d 7 = "00007"%string
  /\ Py.format_05d 123456 = "123456"%string
  /\ Py.format_05d (-3) = "-0003"%string.
Proof. vm_compute. auto. Qed.

(** A bound backend: one invocation on it, and its activation id. *)
Example run_job_on_bound_backend :
  let E := Scenario.bound in
  let h := Scenario.booted E (Scenario.a_config "consume") in
  let p := Scenario.a_job 3 ["00000"; "00001"; "00002"]%string 2 [] in
  let r := Standalone.run_job E p (Scenario.a_world 0 h) in
  provided_backed h = true
  /\ fst r = Ret (JStr "a1")
  /\ events (snd r) = [EvInvoke Scenario.worker_a p].
Proof. vm_compute. auto. Qed.

(** A bound backend in [create] mode is not used. *)
Example run_job_in_create_mode :
  let E := Scenario.bound in
  let h := Scenario.booted E (Scenario.a_config "create") in
  let p := Scenario.a_job 3 ["00000"; "00001"; "00002"]%string 2 [] in
  let r := Standalone.run_job E p (Scenario.a_world 0 h) in
  provided_backed h = false
  /\ fst r = Ret JNull
  /\ events (snd r) = [EvThreadInvoke "e1-00003" "00000" p;
                       EvThreadInvoke "e1-00003" "00001" p;
                       EvThreadInvoke "e1-00003" "00002" p].
Proof. vm_compute. auto. Qed.

(** Three calls and a chunk size of two: three workers, not two. *)
Example run_pool_three_workers :
  let E := Scenario.calm in
  let h := Scenario.booted E (Scenario.a_config "consume") in
  let p := Scenario.a_job 3 ["00000"; "00001"; "00002"]%string 2 [] in
  let tasks := [("e1-00003", "00000", p); ("e1-00003", "00001", p);
                ("e1-00003", "00002", p)]%string in
  map instance_name
      (backends (self (snd (Standalone.run_pool E tasks (Scenario.a_world 0 h)))))
  = ["e1-00003-00000"; "e1-00003-00001"; "e1-00003-00002"]%string.
Proof. vm_compute. reflexivity. Qed.

(** ** The dispatch of the controller in [create] mode *)

#[global] Instance clock_only_preorder : PreOrder clock_only.
Proof.
  split.
  - intros w. exists (now w). by rewrite set_now_now.
  - intros w1 w2 w3 [t1 ->] [t2 ->]. by exists t2.
Qed.

Lemma bind_call {A B : Type} (f : Q -> Py.res A) (k : A -> M B) (w : world) :
  bind (call f) k w = match f (now w) with
                      | inl e => (Raise e, w)
                      | inr a => k a w
                      end.
Proof. unfold bind, call. by destruct (f (now w)). Qed.

Lemma posts_app tr1 tr2 : posts (tr1 ++ tr2) = posts tr1 ++ posts tr2.
Proof. apply omap_app. Qed.

Section Dispatch.
Context (E : env).

Lemma is_instance_ready_reads (ip : json) (w : world) :
  exists r, Controller.is_instance_ready E ip w = (Ret r, w).
Proof.
  unfold Controller.is_instance_ready, try_except, bind, call.
  destruct (worker_ssh_id E ip (now w)); cbn; eauto.
Qed.

Lemma is_proxy_ready_worker_reads (ip : json) (w : world) :
  exists r, Controller.is_proxy_ready E ip w = (Ret r, w).
Proof.
  unfold Controller.is_proxy_ready, try_except, bind, call.
  destruct (worker_get_ping E ip (now w)); cbn; eauto.
Qed.

(** The two waits of the controller move the clock only. *)
Lemma steps_wait_instance_ready (ip : json) :
  steps clock_only (Controller.wait_instance_ready E ip).
Proof.
  apply steps_bind; [apply steps_time_time|]. intros start.
  apply steps_bind.
  { apply steps_wait_loop; [intros w t; by exists t|].
    intros w. destruct (is_instance_ready_reads ip w) as [r ->]. reflexivity. }
  intros ok. apply steps_if; [apply steps_ret|apply steps_raise].
Qed.

Lemma steps_wait_proxy_ready_worker (ip : json) :
  steps clock_only (Controller.wait_proxy_ready E ip).
Proof.
  apply steps_bind; [apply steps_time_time|]. intros start.
  apply steps_bind.
  { apply steps_wait_loop; [intros w t; by exists t|].
    intros w. destruct (is_proxy_ready_worker_reads ip w) as [r ->]. reflexivity. }
  intros ok. apply steps_if; [apply steps_ret|apply steps_raise].
Qed.

(** A wait whose first poll succeeds returns at once. *)
Lemma wait_first_poll (check : M bool) (interval timeout : Q) (k : bool -> M bool)
    (w : world) :
  (0 < timeout)%Q -> check w = (Ret true, w) ->
  (start <- time_time ;;
   ok <- wait_loop (wait_fuel interval timeout) check interval timeout start ;;
   k ok) w = k true w.
Proof.
  intros Hto Hcheck. unfold bind at 1, time_time. unfold bind at 1.
  unfold wait_fuel. cbn [wait_loop]. unfold bind at 1, time_time.
  assert (Htest : Py.Qltb (now w - now w) timeout = true) by (apply Qltb_lt; lra).
  rewrite Htest. unfold bind at 1. by rewrite Hcheck.
Qed.

Lemma wait_instance_ready_at_once (ip : json) (w : world) :
  worker_ssh_id E ip (now w) = inr tt ->
  Controller.wait_instance_ready E ip w = (Ret true, w).
Proof.
  intros Hssh. unfold Controller.wait_instance_ready.
  rewrite wait_first_poll; [done|reflexivity|].
  unfold Controller.is_instance_ready, try_except, bind, call. by rewrite Hssh.
Qed.

Lemma wait_proxy_ready_at_once (ip : json) (w : world) :
  worker_get_ping E ip (now w) = inr 200 ->
  Controller.wait_proxy_ready E ip w = (Ret true, w).
Proof.
  intros Hping. unfold Controller.wait_proxy_ready.
  rewrite wait_first_poll; [done|reflexivity|].
  unfold Controller.is_proxy_ready, try_except, bind, call. by rewrite Hping.
Qed.

(** The ranges of a run of call ids are the same run of the ranges of all
    the call ids. *)
Lemma select_ranges_take_drop (dbr ids sel : list json) (n : nat) :
  Controller.select_ranges dbr ids = inr sel ->
  Controller.select_ranges dbr (take n ids) = inr (take n sel)
  /\ Controller.select_ranges dbr (drop n ids) = inr (drop n sel).
Proof.
  revert ids sel. induction n as [|n IH]; intros ids sel Hsel; [by cbn|].
  destruct ids as [|c ids]; cbn in Hsel.
  - injection Hsel as <-. by cbn.
  - destruct (Json.to_int c) as [e|i] eqn:Hi; [discriminate Hsel|].
    destruct (Py.index dbr i) as [e|entry] eqn:He; [discriminate Hsel|].
    destruct (Controller.select_ranges dbr ids) as [e|entries] eqn:Hrest;
      [discriminate Hsel|].
    injection Hsel as <-. destruct (IH ids entries Hrest) as [Ht Hd].
    cbn [take drop firstn skipn Controller.select_ranges].
    rewrite Hi, He. split; [|exact Hd].
    change (firstn n ids) with (take n ids). by rewrite Ht.
Qed.

Lemma select_ranges_chunk (dbr ids sel : list json) (c k : nat) :
  Controller.select_ranges dbr ids = inr sel ->
  Controller.select_ranges dbr (take c (drop (k * c) ids))
  = inr (take c (drop (k * c) sel)).
Proof.
  intros Hsel.
  destruct (select_ranges_take_drop dbr ids sel (k * c) Hsel) as [_ Hd].
  by destruct (select_ranges_take_drop _ _ _ c Hd) as [Ht _].
Qed.

Lemma select_ranges_length (dbr ids sel : list json) :
  Controller.select_ranges dbr ids = inr sel -> length sel = length ids.
Proof.
  revert sel. induction ids as [|c ids IH]; intros sel Hsel; cbn in Hsel.
  - by injection Hsel as <-.
  - destruct (Json.to_int c); [discriminate Hsel|].
    destruct (Py.index dbr _); [discriminate Hsel|].
    destruct (Controller.select_ranges dbr ids); [discriminate Hsel|].
    injection Hsel as <-. cbn. f_equal. by apply IH.
Qed.

(** The payload of a chunk: the call ids of the chunk, their ranges, and
    every other key as in the job. *)
Lemma chunk_payload_spec (p : json) (dbr c selc : list json) :
  Json.getitem p "data_byte_ranges" = inr (JList dbr) ->
  Controller.select_ranges dbr c = inr selc ->
  exists payload,
    Controller.chunk_payload c p = inr payload
    /\ Json.getitem payload "call_ids" = inr (JList c)
    /\ Json.getitem payload "data_byte_ranges" = inr (JList selc)
    /\ (forall key : string, key <> "call_ids"%string ->
          key <> "data_byte_ranges"%string ->
          Json.getitem payload key = Json.getitem p key).
Proof.
  intros Hdbr Hsel. unfold Controller.chunk_payload. rewrite Hdbr.
  destruct p as [| | | | | |m]; try discriminate Hdbr.
  cbn [Json.setitem Json.as_list]. rewrite Hsel. eexists. split; [reflexivity|].
  cbn [Json.getitem].
  rewrite lookup_insert_ne by done. rewrite !lookup_insert_eq.
  split; [done|]. split; [done|]. intros key Hk1 Hk2.
  by rewrite !lookup_insert_ne by done.
Qed.

(** The loop over the chunks pairs the chunk of rank [k] with the worker
    of rank [k]. *)
Lemma submit_chunks_run (chunks : list (list json)) (p : json) :
  forall (workers : list json) (w : world),
    (length chunks <= length workers)%nat ->
    Controller.submit_chunks chunks workers p w
    = (Ret tt, add_events (zip_with (fun wi c => EvSubmit wi c p) workers chunks) w).
Proof.
  induction chunks as [|c chunks IH]; intros workers w Hlen.
  - cbn. destruct workers; cbn; by rewrite add_events_nil.
  - destruct workers as [|wi workers]; [cbn in Hlen; lia|].
    cbn [Controller.submit_chunks Py.pop0]. rewrite bind_lift. cbn [fst snd].
    rewrite bind_emit, IH by (cbn in Hlen; lia).
    cbn [zip_with]. by rewrite add_event_events, add_events_app.
Qed.

Lemma posts_after_setup (worker_info : json) (t t' : Q) (w : world) :
  posts (trace (set_now t (add_event (EvSetupWorker worker_info) (set_now t' w))))
  = posts (trace w).
Proof.
  cbn [set_now add_event trace]. rewrite posts_app. cbn. by rewrite app_nil_r.
Qed.

(** A task of the dispatch does not get past line 234: it raises, and
    posts nothing. *)
Lemma run_job_on_worker_raises (wi : json) (c : list json) (p : json) (w : world) :
  exists e w',
    Controller.run_job_on_worker E wi c p w = (Raise e, w')
    /\ posts (trace w') = posts (trace w).
Proof.
  unfold Controller.run_job_on_worker. rewrite bind_lift.
  destruct (Controller.unpack_worker_info wi) as [e0|[[name ip] id]];
    [by eexists _, _|].
  cbn [fst snd]. unfold bind at 1.
  pose proof (steps_wait_instance_ready ip w) as [t1 Hw1].
  pose proof (total_wait (Controller.is_instance_ready E ip) 5
                Controller.START_TIMEOUT
                (fun ok => if ok then ret true
                           else raise (Py.Exception "VM readiness probe expired. Check your master VM"))
                ltac:(reflexivity) (is_instance_ready_reads ip)
                ltac:(intros []; [apply total_ret|apply total_raise]) w) as Htot1.
  change (fst (Controller.wait_instance_ready E ip w) <> OutOfFuel) in Htot1.
  destruct (Controller.wait_instance_ready E ip w) as [[ok1|e1|] w1];
    cbn [snd fst] in Hw1, Htot1; subst w1; [|by eexists _, _|done].
  rewrite bind_emit, bind_call.
  destruct (worker_upload E _ _) as [e2|[]].
  - eexists _, _. split; [reflexivity|].
    rewrite <- (set_now_now (add_event _ _)). apply posts_after_setup.
  - eexists _, _. split; [reflexivity|].
    rewrite <- (set_now_now (add_event _ _)). apply posts_after_setup.
Qed.

(** A task whose worker answers at once and takes the upload raises
    [NameError] on the spot. *)
Lemma run_job_on_worker_name_error (name ip id : json) (c : list json) (p : json)
    (w : world) :
  worker_ssh_id E ip (now w) = inr tt ->
  worker_upload E (JList [name; ip; id]) (now w) = inr tt ->
  Controller.run_job_on_worker E (JList [name; ip; id]) c p w
  = (Raise (Py.NameError "name 'get_host_setup_scritp' is not defined"),
     add_event (EvSetupWorker (JList [name; ip; id])) w).
Proof.
  intros Hssh Hupload. unfold Controller.run_job_on_worker.
  rewrite bind_lift. cbn [Controller.unpack_worker_info fst snd].
  unfold bind at 1. rewrite wait_instance_ready_at_once by done.
  rewrite bind_emit, bind_call. cbn [now add_event].
  by rewrite Hupload.
Qed.

(** [run_job] of the controller in [create] mode, with a worker for each
    chunk. *)
Lemma run_job_submits_chunks (p cfg standalone mode : json)
    (ids workers : list json) (C : Z) (w : world) :
  Json.getitem p "config" = inr cfg ->
  Json.getitem cfg "standalone" = inr standalone ->
  Json.get standalone "exec_mode" (JStr "consume") = inr mode ->
  Json.eq_str mode "create" = true ->
  Json.getitem p "call_ids" = inr (JList ids) ->
  Json.getitem p "chunksize" = inr (JInt C) ->
  0 < C ->
  workers <> [] ->
  Chunks.ceil_div (Z.of_nat (length ids)) C <= Z.of_nat (length workers) ->
  exists chunks,
    Chunks.iterchunks ids C = inr chunks
    /\ Controller.run_job E p (JList workers) w
       = (Ret tt,
          add_events (zip_with (fun wi c => EvSubmit wi c p) workers chunks) w)
    /\ forall k c, chunks !! k = Some c ->
         c = take (Z.to_nat C) (drop (k * Z.to_nat C) ids)
         /\ exists wi, workers !! k = Some wi.
Proof.
  intros Hcfg Hst Hmode Hcreate Hids Hsize HC Hworkers Henough.
  destruct (iterchunks_chunks ids C HC)
    as (chunks & Hchunks & Hcount & _ & Hchunk & _).
  exists chunks. split; [done|]. split.
  - unfold Controller.run_job.
    rewrite bind_lift, Hcfg, bind_lift, Hst.
    assert (Hdict : Controller.is_dict standalone = true).
    { destruct standalone; try discriminate Hmode. reflexivity. }
    rewrite Hdict. unfold bind at 1. cbn [ret].
    rewrite bind_lift, Hmode, Hcreate.
    rewrite bind_lift, Hids, bind_lift, Hsize, bind_lift. cbn [Json.as_list].
    destruct workers as [|wi workers]; [done|]. cbn [length Nat.eqb].
    rewrite bind_lift. cbn [Json.as_list]. rewrite bind_lift. cbn [Json.as_index].
    rewrite bind_lift, Hchunks. apply submit_chunks_run.
    cbn [length] in *. lia.
  - intros k c Hk. destruct (Hchunk k c Hk) as [Hc _]. split; [done|].
    apply lookup_lt_is_Some_2. apply lookup_lt_Some in Hk. lia.
Qed.

End Dispatch.

(** C6, a defect of the code. In [create] mode [run_job] submits each
    chunk once, the chunk of rank [k] with the worker of rank [k], but no
    task sends the payload of its chunk: line 234 of [run_job_on_worker]
    calls [get_host_setup_scritp], a name that master_controller.py neither
    defines nor imports, so that every task whose worker answers raises
    [NameError] right after the upload, before lines 241 to 246 build and
    post the payload. On ten calls, chunks of four and three workers that
    answer at once: three tasks are submitted, with four, four and two call
    ids; each of them raises [NameError] with nothing posted; and the
    payload that lines 241 to 243 would build for each chunk does hold the
    call ids of the chunk. *)
Theorem create_mode_tasks_raise_name_error :
  let E := Scenario.calm in
  let p := Scenario.ten_calls in
  let w := Scenario.a_world 0 (Scenario.a_handler (JBool true) (JInt 10) (JInt 30) []) in
  let chunks := map (map JStr)
      [["00000"; "00001"; "00002"; "00003"]; ["00004"; "00005"; "00006"; "00007"];
       ["00008"; "00009"]]%string in
  events (snd (Controller.run_job E p (JList Scenario.three_workers) w))
  = zip_with (fun wi c => EvSubmit wi c p) Scenario.three_workers chunks
  /\ Forall2 (fun wi c =>
       Controller.run_job_on_worker E wi c p w
       = (Raise (Py.NameError "name 'get_host_setup_scritp' is not defined"),
          add_event (EvSetupWorker wi) w)
       /\ posts (trace (snd (Controller.run_job_on_worker E wi c p w))) = [])
     Scenario.three_workers chunks
  /\ Forall (fun c =>
       exists payload,
         Controller.chunk_payload c p = inr payload
         /\ Json.getitem payload "call_ids" = inr (JList c)) chunks.
Proof.
  intros E p w chunks. split; [vm_compute; reflexivity|]. split.
  - repeat constructor; vm_compute; reflexivity.
  - repeat constructor; eexists; (split; vm_compute; reflexivity).
Qed.

(** Ten calls and chunks of four: three tasks, of four, four and two
    calls, each with the worker of its rank. *)
Example create_mode_ten_calls :
  let p := Scenario.ten_calls in
  let w := Scenario.a_world 0 (Scenario.a_handler (JBool true) (JInt 10) (JInt 30) []) in
  events (snd (Controller.run_job Scenario.calm p (JList Scenario.three_workers) w))
  = zip_with (fun wi c => EvSubmit wi (map JStr c) p) Scenario.three_workers
      [["00000"; "00001"; "00002"; "00003"]; ["00004"; "00005"; "00006"; "00007"];
       ["00008"; "00009"]]%string.
Proof. vm_compute. reflexivity. Qed.

(** The payload of the third chunk, as lines 241 to 243 compute it: the
    last two call ids and their two ranges. *)
Example create_mode_third_chunk :
  exists payload,
    Controller.chunk_payload [JStr "00008"; JStr "00009"] Scenario.ten_calls
    = inr payload
    /\ Json.getitem payload "call_ids" = inr (JList [JStr "00008"; JStr "00009"])
    /\ Json.getitem payload "data_byte_ranges"
       = inr (JList [JList [JInt 800; JInt 899]; JList [JInt 900; JInt 999]]).
Proof. eexists. vm_compute. auto. Qed.

(** ** The budget keeper *)

Lemma bind_time_time {B : Type} (k : Q -> M B) (w : world) :
  bind time_time k w = k (now w) w.
Proof. reflexivity. Qed.

(** [int(x) > 0] exactly when [x >= 1]. *)
Lemma int_of_Q_pos (x : Q) : (0 <? Py.int_of_Q x) = true <-> (1 <= x)%Q.
Proof.
  unfold Py.int_of_Q, Qle. destruct x as [a b]. cbn [Qnum Qden].
  rewrite Z.ltb_lt, Z.mul_1_l, Z.mul_1_r. split.
  - intros Hpos. destruct (Z.le_gt_cases (Z.pos b) a) as [|Hlt]; [done|].
    exfalso. destruct (Z.le_gt_cases 0 a) as [Hnn|Hneg].
    + rewrite Z.quot_small in Hpos by lia. lia.
    + pose proof (Z.quot_pos (- a) (Z.pos b) ltac:(lia) ltac:(lia)) as Hq.
      rewrite Z.quot_opp_l in Hq by lia. lia.
  - intros Hle. apply Z.quot_str_pos. lia.
Qed.

Lemma int_of_Q_nonpos (x : Q) : (0 <? Py.int_of_Q x) = false <-> (x < 1)%Q.
Proof.
  rewrite <- not_true_iff_false, int_of_Q_pos. split.
  - apply Qnot_le_lt.
  - intros Hlt Hle. by apply (Qlt_not_le x 1).
Qed.

Lemma set_jobs_jobs (w : world) : set_jobs (jobs w) w = w.
Proof. by destruct w. Qed.

Section Keeper.
Context (E : env).

(** A registry of finished jobs stays as it is. *)
Lemma refresh_all_done (t : Q) (js : gmap string job_state) :
  Controller.all_done js = true -> Controller.refresh_jobs E t js = js.
Proof.
  unfold Controller.all_done. rewrite bool_decide_eq_true. intros Hdone.
  apply map_eq. intros key. unfold Controller.refresh_jobs.
  rewrite map_lookup_imap. destruct (js !! key) as [st|] eqn:Hkey; [|done].
  cbn. rewrite (Hdone key st Hkey). by destruct (done_file_exists E key t).
Qed.

(** The stops of [dismantle], whatever they answer: a first entry in
    [dismantle] at the current time and nothing else than stops. *)
Lemma stop_all_any (bs : list backend) (w : world) :
  exists r stopped_bs,
    Standalone.stop_all E bs w = (r, add_events (map EvStop stopped_bs) w)
    /\ r <> OutOfFuel.
Proof.
  revert w. induction bs as [|b bs IH]; intros w.
  - exists (Ret tt), []. cbn. by rewrite add_events_nil.
  - cbn [Standalone.stop_all]. rewrite bind_emit, bind_call. cbn [now add_event].
    destruct (backend_stop E b (now w)) as [e|[]].
    + exists (Raise e), [b]. done.
    + destruct (IH (add_event (EvStop b) w)) as (r & bs' & -> & Hr).
      exists r, (b :: bs'). split; [|done].
      by rewrite add_event_events, add_events_app.
Qed.

(** The call of [dismantle] in the keeper, with its handler: the loop goes
    on, and [dismantle] has been entered once, now. *)
Lemma keeper_dismantle (w : world) :
  exists w',
    try_except (Standalone.dismantle E) (fun _ => emit (EvLog "Dismantle error")) w
    = (Ret tt, w')
    /\ now w' = now w /\ self w' = self w /\ jobs w' = jobs w
    /\ last_usage_time w' = last_usage_time w
    /\ dismantle_times (trace w') = dismantle_times (trace w) ++ [now w].
Proof.
  unfold try_except, Standalone.dismantle. rewrite bind_emit, bind_get_world.
  cbn [self add_event].
  destruct (stop_all_any (backends (self w)) (add_event EvDismantle w))
    as (r & bs & -> & Hr).
  assert (Htimes : forall tail,
    dismantle_times (trace (add_events (map EvStop bs) (add_event EvDismantle w)) ++ tail)
    = (dismantle_times (trace w) ++ [now w]) ++ dismantle_times tail).
  { intros tail. cbn [add_events add_event trace now].
    rewrite !dismantle_times_app, dismantle_times_stop_events. cbn.
    by rewrite app_nil_r. }
  destruct r as [[]|e|]; [| |done].
  - eexists. split; [reflexivity|]. repeat (split; [done|]).
    rewrite <- (app_nil_r (trace _)), Htimes. cbn. by rewrite app_nil_r.
  - eexists. split; [reflexivity|]. cbn [emit modify]. repeat (split; [done|]).
    cbn [add_event trace]. rewrite Htimes. cbn. by rewrite app_nil_r.
Qed.

(** The end of an iteration: a sleep of [soft / 10], or [dismantle]. *)
Lemma keeper_sleep_or_dismantle (remaining soft : Q) (jobs_running : bool)
    (w : world) :
  (0 <= soft)%Q ->
  exists w',
    ((if 0 <? Py.int_of_Q remaining then sleep (soft / 10)
      else try_except (Standalone.dismantle E)
                      (fun _ => emit (EvLog "Dismantle error"))) ;;
     ret jobs_running) w = (Ret jobs_running, w')
    /\ self w' = self w /\ jobs w' = jobs w
    /\ last_usage_time w' = last_usage_time w
    /\ ((1 <= remaining)%Q /\ now w' = (now w + soft / 10)%Q
        /\ trace w' = trace w
        \/ (remaining < 1)%Q /\ now w' = now w
           /\ dismantle_times (trace w')
              = dismantle_times (trace w) ++ [now w]).
Proof.
  intros Hsoft. unfold bind.
  destruct (0 <? Py.int_of_Q remaining) eqn:Hrem.
  - apply int_of_Q_pos in Hrem. rewrite sleep_advances.
    + eexists. split; [reflexivity|]. repeat (split; [done|]). by left.
    + change (soft / 10)%Q with (soft * (1 # 10))%Q. lra.
  - apply int_of_Q_nonpos in Hrem.
    destruct (keeper_dismantle w) as (w' & -> & Hnow & Hself & Hjobs & Hlut & Htimes).
    exists w'. split; [reflexivity|]. repeat (split; [done|]). by right.
Qed.

(** An iteration on a fully idle fleet. *)
Lemma keeper_iter_idle (jobs_running : bool) (w : world) (soft : Q) :
  Json.num (soft_dismantle_timeout (self w)) = inr soft ->
  (0 <= soft)%Q ->
  Controller.fully_idle (set_jobs (Controller.refresh_jobs E (now w) (jobs w)) w)
  = true ->
  let since := if jobs_running then (now w - now w)%Q
               else (now w - last_usage_time w)%Q in
  exists w',
    Controller.budget_keeper_iter E jobs_running w = (Ret false, w')
    /\ self w' = self w
    /\ jobs w' = Controller.refresh_jobs E (now w) (jobs w)
    /\ last_usage_time w' = (if jobs_running then now w else last_usage_time w)
    /\ ((1 <= soft - since)%Q /\ now w' = (now w + soft / 10)%Q
        /\ trace w' = trace w
        \/ (soft - since < 1)%Q /\ now w' = now w
           /\ dismantle_times (trace w')
              = dismantle_times (trace w) ++ [now w]).
Proof.
  intros Hsoft Hnn Hidle since. unfold Controller.budget_keeper_iter.
  rewrite bind_time_time, bind_get_world, bind_lift, Hsoft, bind_modify.
  rewrite bind_get_world. rewrite Hidle.
  unfold bind at 1. unfold bind at 1.
  destruct jobs_running.
  - rewrite bind_time_time, bind_modify, bind_time_time.
    cbn [ret set_jobs set_last_usage_time now]. rewrite bind_lift.
    cbn [self set_jobs set_last_usage_time]. rewrite Hsoft. cbn [ret fst snd].
    match goal with
    | |- context [if 0 <? Py.int_of_Q ?r then _ else _] =>
        match goal with
        | |- exists w', ?c ?w1 = _ /\ _ =>
            destruct (keeper_sleep_or_dismantle r soft false w1 Hnn)
              as (w' & Hrun & Hself & Hjobs & Hlut & Hcases)
        end
    end.
    exists w'. split; [exact Hrun|]. repeat (split; [done|]). exact Hcases.
  - cbn [ret]. rewrite bind_lift. cbn [self set_jobs]. rewrite Hsoft.
    cbn [ret fst snd].
    match goal with
    | |- context [if 0 <? Py.int_of_Q ?r then _ else _] =>
        match goal with
        | |- exists w', ?c ?w1 = _ /\ _ =>
            destruct (keeper_sleep_or_dismantle r soft false w1 Hnn)
              as (w' & Hrun & Hself & Hjobs & Hlut & Hcases)
        end
    end.
    exists w'. split; [exact Hrun|]. repeat (split; [done|]). exact Hcases.
Qed.

End Keeper.

Lemma inject_nat_succ (n : nat) :
  (inject_Z (Z.of_nat (S n)) == inject_Z (Z.of_nat n) + 1)%Q.
Proof. rewrite Nat2Z.inj_succ. unfold Z.succ. by rewrite inject_Z_plus. Qed.

Lemma inject_nat_bounds (n m : nat) :
  (n <= m)%nat ->
  (0 <= inject_Z (Z.of_nat n))%Q /\ (inject_Z (Z.of_nat n) <= inject_Z (Z.of_nat m))%Q.
Proof.
  intros Hnm. split.
  - change 0%Q with (inject_Z 0). rewrite <- Zle_Qle. lia.
  - rewrite <- Zle_Qle. lia.
Qed.

Section SoftCountdown.
Context (E : env).

Lemma keeper_loop_step (fuel : nat) (jobs_running jobs_running' : bool)
    (w w1 : world) :
  Controller.budget_keeper_iter E jobs_running w = (Ret jobs_running', w1) ->
  Controller.budget_keeper_loop E (S fuel) jobs_running w
  = Controller.budget_keeper_loop E fuel jobs_running' w1.
Proof. intros Hiter. cbn [Controller.budget_keeper_loop]. unfold bind. by rewrite Hiter. Qed.

Lemma fully_idle_same (w w1 : world) :
  self w1 = self w -> jobs w1 = jobs w ->
  Controller.fully_idle w1 = Controller.fully_idle w.
Proof. intros Hs Hj. unfold Controller.fully_idle. by rewrite Hs, Hj. Qed.

Lemma fully_idle_all_done (w : world) :
  Controller.fully_idle w = true -> Controller.all_done (jobs w) = true.
Proof. unfold Controller.fully_idle. rewrite !andb_true_iff. tauto. Qed.

(** The countdown of an idle fleet, [j] ticks after the reset: at most
    [10 - j] sleeps, then [dismantle]. *)
Lemma idle_countdown (soft : Q) (k : nat) :
  (0 <= soft)%Q ->
  forall (j : nat) (w : world),
    (j + k = 10)%nat ->
    Json.num (soft_dismantle_timeout (self w)) = inr soft ->
    Controller.fully_idle w = true ->
    (now w - last_usage_time w == inject_Z (Z.of_nat j) * (soft / 10))%Q ->
    exists (n : nat) (w' : world),
      (n <= k)%nat
      /\ Controller.budget_keeper_loop E (S n) false w = (OutOfFuel, w')
      /\ last_usage_time w' = last_usage_time w
      /\ dismantle_times (trace w') = dismantle_times (trace w) ++ [now w']
      /\ (now w' == now w + inject_Z (Z.of_nat n) * (soft / 10))%Q
      /\ (soft - 1 < now w' - last_usage_time w)%Q.
Proof.
  intros Hnn. induction k as [|k IH]; intros j w Hjk Hsoft Hidle Helapsed.
  - assert (j = 10%nat) as -> by lia.
    assert (Hrefresh : Controller.refresh_jobs E (now w) (jobs w) = jobs w).
    { by apply refresh_all_done, fully_idle_all_done. }
    destruct (keeper_iter_idle E false w soft Hsoft Hnn)
      as (w1 & Hiter & Hself & Hjobs & Hlut & Hcases).
    { by rewrite Hrefresh, set_jobs_jobs. }
    cbn beta iota in Hcases.
    change (soft / 10)%Q with (soft * (1 # 10))%Q in *.
    change (inject_Z (Z.of_nat 10)) with 10%Q in Helapsed.
    destruct Hcases as [(Hrem & _)|(Hrem & Hnow & Htimes)]; [lra|].
    exists 0%nat, w1. split; [lia|].
    rewrite (keeper_loop_step 0 false false w w1 Hiter). cbn.
    rewrite Hnow. repeat (split; [done|]).
    change (inject_Z (Z.of_nat 0)) with 0%Q. split; lra.
  - assert (Hrefresh : Controller.refresh_jobs E (now w) (jobs w) = jobs w).
    { by apply refresh_all_done, fully_idle_all_done. }
    destruct (keeper_iter_idle E false w soft Hsoft Hnn)
      as (w1 & Hiter & Hself & Hjobs & Hlut & Hcases).
    { by rewrite Hrefresh, set_jobs_jobs. }
    cbn beta iota in Hcases. rewrite Hrefresh in Hjobs.
    destruct Hcases as [(Hrem & Hnow & Htrace)|(Hrem & Hnow & Htimes)].
    + destruct (IH (S j) w1) as (n & w' & Hn & Hloop & Hlut' & Htimes & Hnow' & Hlate).
      * lia.
      * by rewrite Hself.
      * by rewrite (fully_idle_same w w1).
      * rewrite Hnow, Hlut, inject_nat_succ.
        change (soft / 10)%Q with (soft * (1 # 10))%Q in *. lra.
      * exists (S n), w'. split; [lia|].
        rewrite (keeper_loop_step (S n) false false w w1 Hiter).
        split; [done|]. split; [congruence|]. split; [by rewrite <- Htrace|].
        rewrite Hlut in Hlate. split; [|done].
        rewrite Hnow', Hnow, inject_nat_succ.
        change (soft / 10)%Q with (soft * (1 # 10))%Q. lra.
    + exists 0%nat, w1. split; [lia|].
      rewrite (keeper_loop_step 0 false false w w1 Hiter). cbn.
      rewrite Hnow. repeat (split; [done|]).
    change (inject_Z (Z.of_nat 0)) with 0%Q. split; lra.
Qed.

End SoftCountdown.

(** C4, as amended. On the first iteration of the keeper that finds the
    fleet fully idle after an iteration that did not, [last_usage_time] is
    set to the time of that iteration. From then on, with no submission,
    an iteration sleeps [soft / 10] while
    [int(soft - (now - last_usage_time)) > 0], that is while at least one
    second remains, and calls [dismantle] otherwise: [dismantle] is entered
    after at most ten sleeps, more than [soft - 1] seconds and at most
    [soft] seconds after the reset. *)
Theorem idle_fleet_dismantled_within_soft_timeout (E : env) (w : world) (soft : Q) :
  Json.num (soft_dismantle_timeout (self w)) = inr soft ->
  (0 <= soft)%Q ->
  Controller.fully_idle (set_jobs (Controller.refresh_jobs E (now w) (jobs w)) w)
  = true ->
  exists (n : nat) (w' : world),
    (n <= 10)%nat
    /\ Controller.budget_keeper_loop E (S n) true w = (OutOfFuel, w')
    /\ last_usage_time w' = now w
    /\ dismantle_times (trace w') = dismantle_times (trace w) ++ [now w']
    /\ (now w' == now w + inject_Z (Z.of_nat n) * (soft / 10))%Q
    /\ (soft - 1 < now w' - now w)%Q
    /\ (now w' - now w <= soft)%Q.
Proof.
  intros Hsoft Hnn Hidle.
  destruct (keeper_iter_idle E true w soft Hsoft Hnn Hidle)
    as (w1 & Hiter & Hself & Hjobs & Hlut & Hcases).
  cbn beta iota in Hcases.
  destruct Hcases as [(Hrem & Hnow & Htrace)|(Hrem & Hnow & Htimes)].
  - destruct (idle_countdown E soft 9 Hnn 1 w1)
      as (n & w' & Hn & Hloop & Hlut' & Htimes & Hnow' & Hlate).
    + lia.
    + by rewrite Hself.
    + rewrite <- Hidle. by apply fully_idle_same.
    + rewrite Hnow, Hlut. change (inject_Z (Z.of_nat 1)) with 1%Q. ring.
    + exists (S n), w'. split; [lia|].
      rewrite (keeper_loop_step E (S n) true false w w1 Hiter).
      split; [done|]. split; [congruence|]. split; [by rewrite <- Htrace|].
      rewrite Hlut in Hlate.
      assert (Hnow'' : (now w' == now w + inject_Z (Z.of_nat (S n)) * (soft / 10))%Q).
      { rewrite Hnow', Hnow, inject_nat_succ. ring. }
      split; [done|]. split; [done|].
      destruct (inject_nat_bounds (S n) 10 ltac:(lia)) as [Hlo Hhi].
      change (inject_Z (Z.of_nat 10)) with 10%Q in Hhi.
      rewrite Hnow''. change (soft / 10)%Q with (soft * (1 # 10))%Q.
      set (q := inject_Z (Z.of_nat (S n))) in *.
      assert (Hprod : (q * soft <= 10 * soft)%Q) by (by apply Qmult_le_compat_r).
      lra.
  - exists 0%nat, w1. split; [lia|].
    rewrite (keeper_loop_step E 0 true false w w1 Hiter). cbn.
    rewrite Hnow. repeat (split; [done|]).
    change (inject_Z (Z.of_nat 0)) with 0%Q.
    split; [ring|]. split; lra.
Qed.

(** C4 as stated fails: with a soft timeout of five seconds the keeper
    enters [dismantle] four and a half seconds after the reset. *)
Lemma idle_fleet_dismantled_before_soft_timeout :
  let E := Scenario.finished in
  let w := Scenario.a_busy_world 100 40
             (Scenario.a_handler (JBool true) (JInt 5) (JInt 3600) []) in
  let w' := snd (Controller.budget_keeper_loop E 10 true w) in
  Controller.fully_idle (set_jobs (Controller.refresh_jobs E (now w) (jobs w)) w)
  = true
  /\ last_usage_time w' = 100%Q
  /\ exists t, dismantle_times (trace w') = [t]
               /\ (t - 100 == 9 # 2)%Q /\ (t - 100 < 5)%Q.
Proof.
  split; [by vm_compute|]. split; [by vm_compute|].
  eexists. split; [vm_compute; reflexivity|]. split; by vm_compute.
Qed.

(** C4 (amended) on that fleet. *)
Lemma idle_fleet_dismantled_within_soft_timeout_witness :
  let E := Scenario.finished in
  let w := Scenario.a_busy_world 100 40
             (Scenario.a_handler (JBool true) (JInt 5) (JInt 3600) []) in
  exists (n : nat) (w' : world),
    (n <= 10)%nat
    /\ Controller.budget_keeper_loop E (S n) true w = (OutOfFuel, w')
    /\ last_usage_time w' = now w
    /\ dismantle_times (trace w') = dismantle_times (trace w) ++ [now w']
    /\ (now w' == now w + inject_Z (Z.of_nat n) * (5 / 10))%Q
    /\ (5 - 1 < now w' - now w)%Q
    /\ (now w' - now w <= 5)%Q.
Proof.
  intros E w.
  apply (idle_fleet_dismantled_within_soft_timeout E w 5).
  - reflexivity.
  - by vm_compute.
  - by vm_compute.
Defined.

(** With a soft timeout of ten seconds and exact sleeps, [dismantle] is
    entered ten seconds after the reset. *)
Example idle_fleet_soft_timeout_ten :
  let E := Scenario.finished in
  let w := Scenario.a_busy_world 100 40
             (Scenario.a_handler (JBool true) (JInt 10) (JInt 3600) []) in
  exists t,
    dismantle_times (trace (snd (Controller.budget_keeper_loop E 11 true w))) = [t]
    /\ (t - 100 == 10)%Q
    /\ dismantle_times (trace (snd (Controller.budget_keeper_loop E 10 true w))) = [].
Proof.
  eexists. split; [vm_compute; reflexivity|]. split; by vm_compute.
Qed.


Section HardCountdown.
Context (E : env).

Lemma never_idle_refreshed (w w1 : world) (t : Q) :
  Controller.never_idle E w ->
  self w1 = self w -> jobs w1 = Controller.refresh_jobs E t (jobs w) ->
  Controller.never_idle E w1 /\ Controller.fully_idle w1 = false.
Proof.
  intros [Hauto|[Hempty|(key & Hkey & Hfile)]] Hself Hjobs.
  - split; [left; by rewrite Hself|].
    unfold Controller.fully_idle. rewrite Hself, Hauto. apply andb_false_r.
  - assert (Hj1 : jobs w1 = ∅).
    { rewrite Hjobs, Hempty. apply map_imap_empty. }
    split; [right; by left|].
    unfold Controller.fully_idle. by rewrite Hj1, map_size_empty.
  - assert (Hk1 : jobs w1 !! key = Some Running).
    { rewrite Hjobs. unfold Controller.refresh_jobs.
      rewrite map_lookup_imap, Hkey. cbn. by rewrite Hfile. }
    split; [right; right; by exists key|].
    unfold Controller.fully_idle.
    assert (Hdone : Controller.all_done (jobs w1) = false).
    { unfold Controller.all_done. apply bool_decide_eq_false. intros Hall.
      specialize (Hall key Running Hk1). discriminate Hall. }
    rewrite Hdone. by rewrite andb_false_r.
Qed.

(** An iteration on a fleet that is not fully idle. *)
Lemma keeper_iter_busy (jobs_running : bool) (w : world) (soft hard : Q) :
  Json.num (soft_dismantle_timeout (self w)) = inr soft ->
  (0 <= soft)%Q ->
  Json.num (hard_dismantle_timeout (self w)) = inr hard ->
  Controller.fully_idle (set_jobs (Controller.refresh_jobs E (now w) (jobs w)) w)
  = false ->
  exists w',
    Controller.budget_keeper_iter E jobs_running w = (Ret true, w')
    /\ self w' = self w
    /\ jobs w' = Controller.refresh_jobs E (now w) (jobs w)
    /\ last_usage_time w' = last_usage_time w
    /\ ((1 <= hard - (now w - last_usage_time w))%Q
        /\ now w' = (now w + soft / 10)%Q /\ trace w' = trace w
        \/ (hard - (now w - last_usage_time w) < 1)%Q /\ now w' = now w
           /\ dismantle_times (trace w')
              = dismantle_times (trace w) ++ [now w]).
Proof.
  intros Hsoft Hnn Hhard Hbusy. unfold Controller.budget_keeper_iter.
  rewrite bind_time_time, bind_get_world, bind_lift, Hsoft, bind_modify.
  rewrite bind_get_world. rewrite Hbusy.
  unfold bind at 1. rewrite bind_lift. cbn [self set_jobs]. rewrite Hhard.
  cbn [ret fst snd].
  match goal with
  | |- context [if 0 <? Py.int_of_Q ?r then _ else _] =>
      match goal with
      | |- exists w', ?c ?w1 = _ /\ _ =>
          destruct (keeper_sleep_or_dismantle E r soft true w1 Hnn)
            as (w' & Hrun & Hself & Hjobs & Hlut & Hcases)
      end
  end.
  exists w'. split; [exact Hrun|]. repeat (split; [done|]). exact Hcases.
Qed.


End HardCountdown.




(** With [auto_dismantle] off, a hard timeout of thirty seconds, exact
    sleeps, no submission and a keeper whose first reading of the clock is
    [last_usage_time] itself, [dismantle] is entered thirty seconds after
    [last_usage_time] and stops the fleet. *)
Example busy_fleet_hard_timeout_thirty :
  let E := Scenario.calm in
  let w := Scenario.a_world 0 (Scenario.a_handler (JBool false) (JInt 10) (JInt 30)
                                 [Scenario.worker_a]) in
  let w' := snd (Controller.budget_keeper_loop E 31 false w) in
  exists t,
    dismantle_times (trace w') = [t] /\ (t == 30)%Q
    /\ stops (trace w') = [Scenario.worker_a]
    /\ dismantle_times (trace (snd (Controller.budget_keeper_loop E 30 false w))) = [].
Proof.
  eexists. split; [vm_compute; reflexivity|]. repeat split; by vm_compute.
Qed.

(** * Further properties *)

(** ** Call ids and chunk sizes *)

Ltac not_blank :=
  match goal with
  | |- context [Py.char_in ?c Py.whitespace] =>
      change (Py.char_in c Py.whitespace) with false
  end.

(** The digits of a number have no blank at their ends and no underscore. *)
Lemma digits_plain (d : Decimal.uint) :
  Py.lstrip Py.whitespace (NilEmpty.string_of_uint d) = NilEmpty.string_of_uint d
  /\ Py.rstrip Py.whitespace (NilEmpty.string_of_uint d) = NilEmpty.string_of_uint d
  /\ forall b, d <> Decimal.Nil \/ b = true ->
       Py.drop_underscores b (NilEmpty.string_of_uint d)
       = Some (NilEmpty.string_of_uint d).
Proof.
  induction d as [|d (IHl & IHr & IHu)|d (IHl & IHr & IHu)|d (IHl & IHr & IHu)
                  |d (IHl & IHr & IHu)|d (IHl & IHr & IHu)|d (IHl & IHr & IHu)
                  |d (IHl & IHr & IHu)|d (IHl & IHr & IHu)|d (IHl & IHr & IHu)
                  |d (IHl & IHr & IHu)];
    [split; [done|]; split; [done|]; intros b [?| ->]; done|..];
    cbn [NilEmpty.string_of_uint Py.lstrip Py.rstrip Py.drop_underscores];
    rewrite IHr, (IHu true (or_intror eq_refl)); repeat not_blank;
    (split; [done|]); (split; [by destruct (NilEmpty.string_of_uint d)|done]).
Qed.

Lemma digits_nonempty (d : Decimal.uint) :
  d <> Decimal.Nil -> exists a s, NilEmpty.string_of_uint d = String a s.
Proof. destruct d; [done|cbn; eauto..]. Qed.

(** [int] reads back the digits of a number. *)
Lemma int_of_digits (d : Decimal.uint) :
  d <> Decimal.Nil ->
  Py.int_of_str (NilEmpty.string_of_uint d) = inr (Z.of_uint d).
Proof.
  intros Hd. pose proof (NilEmpty.usu d) as Husu.
  destruct (digits_plain d) as (Hl & Hr & Hu).
  specialize (Hu false (or_introl Hd)).
  unfold Py.int_of_str, Py.strip. rewrite Hl, Hr.
  destruct d; [done|..]; cbn [NilEmpty.string_of_uint] in *;
    rewrite Hu, Husu; reflexivity.
Qed.

Lemma int_of_minus_digits (d : Decimal.uint) :
  d <> Decimal.Nil ->
  Py.int_of_str (String "-" (NilEmpty.string_of_uint d)) = inr (- Z.of_uint d).
Proof.
  intros Hd. pose proof (NilEmpty.usu d) as Husu.
  destruct (digits_plain d) as (Hl & Hr & Hu).
  specialize (Hu false (or_introl Hd)).
  assert (Hstrip : Py.strip Py.whitespace (String "-" (NilEmpty.string_of_uint d))
                   = String "-" (NilEmpty.string_of_uint d)).
  { unfold Py.strip. cbn [Py.lstrip]. not_blank. cbn [Py.rstrip]. rewrite Hr.
    destruct (digits_nonempty d Hd) as (a & s & ->). reflexivity. }
  unfold Py.int_of_str. rewrite Hstrip. cbv beta iota zeta.
  by rewrite Hu, Husu.
Qed.

Example int_of_str_examples :
  Py.int_of_str " 2 " = inr 2
  /\ Py.int_of_str "0_1" = inr 1
  /\ Py.int_of_str "-1_000" = inr (-1000)
  /\ Py.int_of_str (String (ascii_of_nat 9) "+7"
                    ++ String (ascii_of_nat 10) EmptyString) = inr 7
  /\ Py.int_of_str "1__0" = inl (Py.ValueError "invalid literal for int() with base 10")
  /\ Py.int_of_str "_1" = inl (Py.ValueError "invalid literal for int() with base 10")
  /\ Py.int_of_str "1_" = inl (Py.ValueError "invalid literal for int() with base 10")
  /\ Py.int_of_str "- 1" = inl (Py.ValueError "invalid literal for int() with base 10")
  /\ Py.int_of_str "one" = inl (Py.ValueError "invalid literal for int() with base 10")
  /\ Py.int_of_str "" = inl (Py.ValueError "invalid literal for int() with base 10")
  /\ Py.int_of_str "+" = inl (Py.ValueError "invalid literal for int() with base 10").
Proof. vm_compute. repeat split. Qed.

(** Zeros in front of a number. *)
Lemma padded_digits (k : nat) (d : Decimal.uint) :
  NilEmpty.string_of_uint (Nat.iter k Decimal.D0 d)
  = (Py.repeat_char "0" k ++ NilEmpty.string_of_uint d)%string
  /\ Z.of_uint (Nat.iter k Decimal.D0 d) = Z.of_uint d
  /\ (d <> Decimal.Nil -> Nat.iter k Decimal.D0 d <> Decimal.Nil).
Proof.
  induction k as [|k (IH1 & IH2 & IH3)]; [done|].
  rewrite Nat.iter_succ.
  cbn [Py.repeat_char NilEmpty.string_of_uint String.append].
  rewrite IH1. split; [done|]. split; [exact IH2|done].
Qed.

Lemma to_uint_digits (n : N) :
  N.to_uint n <> Decimal.Nil
  /\ NilZero.string_of_uint (N.to_uint n) = NilEmpty.string_of_uint (N.to_uint n)
  /\ Z.of_uint (N.to_uint n) = Z.of_N n.
Proof.
  assert (Hnn : N.to_uint n <> Decimal.Nil).
  { destruct n; [done|]. apply Unsigned.to_uint_nonnil. }
  split; [done|]. split.
  - unfold NilZero.string_of_uint. by destruct (N.to_uint n).
  - unfold Z.of_uint. f_equal. apply DecimalN.Unsigned.of_to.
Qed.

Lemma int_of_format_05d (i : Z) : Py.int_of_str (Py.format_05d i) = inr i.
Proof.
  unfold Py.format_05d.
  destruct (to_uint_digits (Z.abs_N i)) as (Hnn & -> & Hval).
  set (d := N.to_uint (Z.abs_N i)) in *.
  destruct (Z.ltb_spec i 0) as [Hneg|Hpos].
  - destruct (padded_digits (4 - String.length (NilEmpty.string_of_uint d)) d)
      as (<- & Hz & Hne).
    rewrite int_of_minus_digits by auto. rewrite Hz, Hval. f_equal. lia.
  - destruct (padded_digits (5 - String.length (NilEmpty.string_of_uint d)) d)
      as (<- & Hz & Hne).
    rewrite int_of_digits by auto. rewrite Hz, Hval. f_equal. lia.
Qed.

(** X2. The call ids that [run_job] of the handler formats with
    ["{:05d}"] are read back by [int(call_id)] in [run_job_on_worker] as
    the number they were made from, for every integer. *)
Theorem call_id_round_trip (i : Z) :
  Json.to_int (JStr (Py.format_05d i)) = inr i.
Proof. apply int_of_format_05d. Qed.

Section DispatchEdges.
Context (E : env).

(** [run_job] of the controller in [create] mode, up to its loop. *)
Lemma run_job_create_mode (p cfg standalone mode chunksize : json)
    (ids workers : list json) (w : world) :
  Json.getitem p "config" = inr cfg ->
  Json.getitem cfg "standalone" = inr standalone ->
  Json.get standalone "exec_mode" (JStr "consume") = inr mode ->
  Json.eq_str mode "create" = true ->
  Json.getitem p "call_ids" = inr (JList ids) ->
  Json.getitem p "chunksize" = inr chunksize ->
  workers <> [] ->
  Controller.run_job E p (JList workers) w
  = (n <- lift (Json.as_index chunksize) ;;
     chunks <- lift (Chunks.iterchunks ids n) ;;
     Controller.submit_chunks chunks workers p) w.
Proof.
  intros Hcfg Hst Hmode Hcreate Hids Hsize Hworkers.
  unfold Controller.run_job. rewrite bind_lift, Hcfg, bind_lift, Hst.
  assert (Hdict : Controller.is_dict standalone = true).
  { destruct standalone; try discriminate Hmode. reflexivity. }
  rewrite Hdict. unfold bind at 1. cbn [ret].
  rewrite bind_lift, Hmode, Hcreate.
  rewrite bind_lift, Hids, bind_lift, Hsize, bind_lift. cbn [Json.as_list].
  destruct workers as [|wi workers]; [done|]. cbn [length Nat.eqb].
  by rewrite bind_lift.
Qed.

(** The loop over the chunks when the workers run out. *)
Lemma submit_chunks_short (chunks : list (list json)) (p : json) :
  forall (workers : list json) (w : world),
    (length workers < length chunks)%nat ->
    Controller.submit_chunks chunks workers p w
    = (Raise (Py.IndexError "pop from empty list"),
       add_events (zip_with (fun wi c => EvSubmit wi c p) workers chunks) w).
Proof.
  induction chunks as [|c chunks IH]; intros workers w Hlen; [cbn in Hlen; lia|].
  destruct workers as [|wi workers].
  - cbn. by rewrite add_events_nil.
  - cbn [Controller.submit_chunks Py.pop0]. rewrite bind_lift. cbn [fst snd].
    rewrite bind_emit, IH by (cbn in Hlen; lia).
    cbn [zip_with]. by rewrite add_event_events, add_events_app.
Qed.

End DispatchEdges.

(** X1. In [create] mode a chunk size of zero makes [run_job] of the
    controller raise [ValueError] and a negative chunk size makes it return
    normally: in both cases no chunk is submitted to any worker, whatever
    the call ids. *)
Theorem nonpositive_chunk_size_submits_nothing (E : env)
    (p cfg standalone mode : json) (ids workers : list json) (C : Z) (w : world) :
  Json.getitem p "config" = inr cfg ->
  Json.getitem cfg "standalone" = inr standalone ->
  Json.get standalone "exec_mode" (JStr "consume") = inr mode ->
  Json.eq_str mode "create" = true ->
  Json.getitem p "call_ids" = inr (JList ids) ->
  Json.getitem p "chunksize" = inr (JInt C) ->
  workers <> [] ->
  C <= 0 ->
  Controller.run_job E p (JList workers) w
  = (if C =? 0 then Raise (Py.ValueError "range() arg 3 must not be zero")
     else Ret tt, w).
Proof.
  intros Hcfg Hst Hmode Hcreate Hids Hsize Hworkers HC.
  rewrite (run_job_create_mode E p cfg standalone mode (JInt C) ids workers w) by done.
  rewrite bind_lift. cbn [Json.as_index]. rewrite bind_lift.
  unfold Chunks.iterchunks, Py.range.
  destruct (Z.eqb_spec C 0) as [->|Hne]; [done|].
  unfold Py.range_len.
  destruct (Z.ltb_spec 0 C) as [?|_]; [lia|].
  destruct (Z.ltb_spec (Z.of_nat (length ids)) 0) as [?|_]; [lia|].
  cbn. by destruct workers.
Qed.

(** X4. In [create] mode with fewer workers than chunks (and at least
    one worker), [run_job] of the controller submits the first chunks, one
    for each worker in order, and then raises [IndexError]: the remaining
    chunks are never submitted. *)
Theorem too_few_workers_partial_dispatch (E : env)
    (p cfg standalone mode : json) (ids workers : list json) (C : Z) (w : world) :
  Json.getitem p "config" = inr cfg ->
  Json.getitem cfg "standalone" = inr standalone ->
  Json.get standalone "exec_mode" (JStr "consume") = inr mode ->
  Json.eq_str mode "create" = true ->
  Json.getitem p "call_ids" = inr (JList ids) ->
  Json.getitem p "chunksize" = inr (JInt C) ->
  0 < C ->
  workers <> [] ->
  Z.of_nat (length workers) < Chunks.ceil_div (Z.of_nat (length ids)) C ->
  exists chunks,
    Chunks.iterchunks ids C = inr chunks
    /\ Controller.run_job E p (JList workers) w
       = (Raise (Py.IndexError "pop from empty list"),
          add_events (zip_with (fun wi c => EvSubmit wi c p) workers
                               (take (length workers) chunks)) w)
    /\ (length workers < length chunks)%nat.
Proof.
  intros Hcfg Hst Hmode Hcreate Hids Hsize HC Hworkers Hfew.
  destruct (iterchunks_chunks ids C HC) as (chunks & Hchunks & Hcount & _).
  exists chunks. split; [done|].
  assert (Hlen : (length workers < length chunks)%nat) by lia.
  split; [|done].
  rewrite (run_job_create_mode E p cfg standalone mode (JInt C) ids workers w) by done.
  rewrite bind_lift. cbn [Json.as_index]. rewrite bind_lift, Hchunks.
  rewrite submit_chunks_short by done. do 2 f_equal.
  clear -Hlen. revert chunks Hlen.
  induction workers as [|wi workers IH]; intros chunks Hlen; [done|].
  destruct chunks as [|c chunks]; [cbn in Hlen; lia|].
  cbn. f_equal. apply IH. cbn in Hlen. lia.
Qed.

Section CallIds.
Context (E : env).

(** The canonical call ids of positions [n], [n + 1], ... select the
    entries of [dbr] from position [n] on. *)
Lemma select_ranges_canonical (dbr : list json) :
  forall (m n : nat),
    (n + m = length dbr)%nat ->
    Controller.select_ranges dbr
      (map (fun k : nat => JStr (Py.format_05d (Z.of_nat k))) (seq n m))
    = inr (drop n dbr).
Proof.
  induction m as [|m IH]; intros n Hlen.
  - cbn. rewrite drop_ge by lia. reflexivity.
  - cbn [seq map Controller.select_ranges Json.to_int].
    rewrite int_of_format_05d. unfold Py.index.
    destruct (Z.ltb_spec (Z.of_nat n) 0) as [?|_]; [lia|].
    destruct (Z.ltb_spec (Z.of_nat n) 0) as [?|_]; [lia|].
    rewrite Nat2Z.id.
    destruct (lookup_lt_is_Some_2 dbr n ltac:(lia)) as [x Hx].
    rewrite Hx, IH by lia.
    by rewrite (drop_S _ _ _ Hx).
Qed.

End CallIds.

(** X3. With the call ids that the handler formats, ["00000"],
    ["00001"], ... one for each entry of [data_byte_ranges], the list
    comprehension of [run_job_on_worker] selects for the chunk of
    [call_ids[i:i + n]] exactly [data_byte_ranges[i:i + n]]. *)
Theorem canonical_chunk_selects_own_ranges (dbr : list json) (i n : Z) :
  0 <= i -> 0 <= n ->
  let call_ids := map (fun k : nat => JStr (Py.format_05d (Z.of_nat k)))
                      (seq 0 (length dbr)) in
  Controller.select_ranges dbr (Py.slice call_ids i (i + n))
  = inr (Py.slice dbr i (i + n)).
Proof.
  intros Hi Hn call_ids.
  pose proof (select_ranges_canonical dbr (length dbr) 0 eq_refl) as Hall.
  rewrite drop_0 in Hall. fold call_ids in Hall.
  unfold Py.slice. subst call_ids. rewrite length_map, length_seq.
  set (lo := Z.to_nat (Py.clamp_index (Z.of_nat (length dbr)) i)).
  set (k := Z.to_nat (_ - _)).
  destruct (select_ranges_take_drop _ _ _ lo Hall) as [_ Hdrop].
  by destruct (select_ranges_take_drop _ _ _ k Hdrop) as [Htake _].
Qed.

(** X5. A task of the dispatch in [create] mode never posts a job and
    never returns: every call of [run_job_on_worker] raises and sends no
    request to [/run]. When the worker answers to ssh at once and takes the
    upload of the package, what it raises is the [NameError] of line 234,
    with the set up begun and nothing installed. *)
Theorem dispatched_task_never_posts (E : env) (wi : json) (c : list json) (p : json)
    (w : world) :
  (exists e w',
     Controller.run_job_on_worker E wi c p w = (Raise e, w')
     /\ posts (trace w') = posts (trace w))
  /\ forall name ip id,
       wi = JList [name; ip; id] ->
       worker_ssh_id E ip (now w) = inr tt ->
       worker_upload E wi (now w) = inr tt ->
       Controller.run_job_on_worker E wi c p w
       = (Raise (Py.NameError "name 'get_host_setup_scritp' is not defined"),
          add_event (EvSetupWorker wi) w).
Proof.
  split; [apply run_job_on_worker_raises|].
  intros name ip id -> Hssh Hupload. by apply run_job_on_worker_name_error.
Qed.

(** ** The handler of [/run] *)

Section RunHandler.
Context (E : env).

Lemma run_check (message : json) (w : world) :
  try_except
    (runtime <- lift (Json.getitem message "runtime_name") ;;
     lift (verify_runtime_name E runtime) ;;
     ret (inr runtime))
    (fun e => ret (inl e)) w
  = (Ret (run_checked E message), w).
Proof.
  unfold try_except, run_checked. rewrite bind_lift.
  destruct (Json.getitem message "runtime_name") as [e|rt]; [done|].
  rewrite bind_lift. by destruct (verify_runtime_name E rt) as [e|[]].
Qed.

(** What [/run] answers to a message it rejects. *)
Lemma run_rejected (message : json) (w : world) :
  Json.truthy message && negb (Controller.is_dict message) = true
  \/ (exists e, run_checked E message = inl e) ->
  exists msg, Controller.run E message w = (Ret (Controller.error msg), w).
Proof.
  intros Hrej. unfold Controller.run.
  destruct (Json.truthy message && negb (Controller.is_dict message));
    [by eexists|].
  destruct Hrej as [?|[e He]]; [done|].
  unfold bind at 1. rewrite run_check, He. by eexists.
Qed.

End RunHandler.

(** X6. Whenever the function [run] returns a response whose status is
    not 202, the response is the one of [error], with status 404, and the
    state of the controller is as before: the countdown is not reset, the
    handler keeps its settings, no job is registered and nothing is run.
    (A request on which [run] raises instead of returning is another
    matter: the state has then changed, see X7 and X8.) *)
Theorem run_rejection_changes_nothing (E : env) (message : json) (w w' : world)
    (code : Z) (body : json) :
  Controller.run E message w = (Ret (code, body), w') ->
  code <> 202 ->
  w' = w /\ code = 404
  /\ exists msg : string, body = JObj {[ "error"%string := JStr msg ]}.
Proof.
  intros Hrun Hcode. unfold Controller.run in Hrun.
  destruct (Json.truthy message && negb (Controller.is_dict message)).
  { apply ret_inv in Hrun as [Hrun ->]. injection Hrun as -> ->. eauto. }
  unfold bind at 1 in Hrun. rewrite run_check in Hrun.
  destruct (run_checked E message) as [e|rt].
  { apply ret_inv in Hrun as [Hrun ->]. injection Hrun as -> ->. eauto. }
  returned.
  match goal with H : (_, _) = (_, _) |- _ => injection H as Hc _ end.
  by destruct Hcode.
Qed.

Section RunOutcomes.
Context (E : env).

Ltac run_failed :=
  eexists _, _; split; [reflexivity|];
  split; [reflexivity|split; [reflexivity|intros ? ?; discriminate]].

(** Every run of the handler of [/run]: a rejection that changes nothing,
    or a run that reset the countdown at the time of the request. *)
Lemma run_outcome (message : json) (w : world) :
  (exists msg, Controller.run E message w = (Ret (Controller.error msg), w))
  \/ exists r w',
       Controller.run E message w = (r, w')
       /\ last_usage_time w' = now w /\ now w' = now w
       /\ forall msg, r <> Ret (Controller.error msg).
Proof.
  destruct (Json.truthy message && negb (Controller.is_dict message)) eqn:Hdict.
  { left. apply run_rejected. by left. }
  destruct (run_checked E message) as [e|rt] eqn:Hcheck.
  { left. apply run_rejected. right. by exists e. }
  right. unfold Controller.run. rewrite Hdict.
  unfold bind at 1. rewrite run_check, Hcheck.
  rewrite bind_time_time, bind_modify, bind_lift.
  destruct (Json.getitem message "config") as [e|cfg]; [by run_failed|].
  rewrite bind_lift.
  destruct (Json.getitem cfg "standalone") as [e|sc]; [by run_failed|].
  rewrite bind_lift.
  destruct (Json.getitem sc "auto_dismantle") as [e|auto]; [by run_failed|].
  rewrite bind_modify, bind_lift.
  destruct (Json.getitem sc "soft_dismantle_timeout") as [e|soft]; [by run_failed|].
  rewrite bind_modify, bind_lift.
  destruct (Json.getitem sc "hard_dismantle_timeout") as [e|hard]; [by run_failed|].
  rewrite bind_modify. unfold bind at 1. rewrite bind_time_time. cbn [ret].
  rewrite bind_lift.
  destruct (Json.getitem message "executor_id") as [e|eid]; [by run_failed|].
  rewrite bind_lift.
  destruct (Json.getitem message "job_id") as [e|jid]; [by run_failed|].
  rewrite bind_lift.
  destruct (create_job_key E eid jid) as [e|job_key]; [by run_failed|].
  rewrite bind_modify, bind_lift.
  destruct (Json.get sc "pull_runtime" (JBool false)) as [e|pull]; [by run_failed|].
  rewrite bind_emit, bind_call.
  destruct (localhost_run_job E message _) as [e|[]]; by run_failed.
Qed.

End RunOutcomes.

(** X7. When an exception escapes the handler of [/run] (a message
    without [config], [executor_id] or [job_id], a failure of the local
    run, ...), the countdown of the budget keeper has already been reset:
    [last_usage_time] is the time of the request. *)
Theorem run_error_resets_countdown (E : env) (message : json) (w w' : world)
    (e : Py.exn) :
  Controller.run E message w = (Raise e, w') ->
  last_usage_time w' = now w /\ now w' = now w.
Proof.
  intros Hrun.
  destruct (run_outcome E message w) as [[msg Hmsg]|(r & w1 & Hrun1 & Hlut & Hnow & _)].
  - rewrite Hrun in Hmsg. discriminate Hmsg.
  - rewrite Hrun in Hrun1. by injection Hrun1 as _ <-.
Qed.

(** X8. A message whose [config.standalone] carries [auto_dismantle] but
    no [soft_dismantle_timeout] makes [/run] raise [KeyError] with the
    handler half updated: [auto_dismantle] has the new value, the two
    timeouts keep the old ones, the countdown is reset, and no job is
    registered nor run. *)
Theorem run_partial_overwrite (E : env) (message cfg : json)
    (sc : gmap string json) (runtime auto : json) (w : world) :
  Json.getitem message "runtime_name" = inr runtime ->
  verify_runtime_name E runtime = inr tt ->
  Json.getitem message "config" = inr cfg ->
  Json.getitem cfg "standalone" = inr (JObj sc) ->
  sc !! "auto_dismantle"%string = Some auto ->
  sc !! "soft_dismantle_timeout"%string = None ->
  exists w',
    Controller.run E message w = (Raise (Py.KeyError "soft_dismantle_timeout"), w')
    /\ auto_dismantle (self w') = auto
    /\ soft_dismantle_timeout (self w') = soft_dismantle_timeout (self w)
    /\ hard_dismantle_timeout (self w') = hard_dismantle_timeout (self w)
    /\ last_usage_time w' = now w
    /\ jobs w' = jobs w /\ trace w' = trace w.
Proof.
  intros Hrt Hverify Hcfg Hsc Hauto Hsoft. unfold Controller.run.
  assert (Hdict : Json.truthy message && negb (Controller.is_dict message) = false).
  { destruct message; try discriminate Hrt. apply andb_false_r. }
  rewrite Hdict. unfold bind at 1. rewrite run_check.
  unfold run_checked. rewrite Hrt, Hverify.
  rewrite bind_time_time, bind_modify, bind_lift, Hcfg, bind_lift, Hsc, bind_lift.
  cbn [Json.getitem]. rewrite Hauto, bind_modify, bind_lift, Hsoft.
  eexists. split; [reflexivity|]. done.
Qed.

(** X9. When [run] returns with status 202, it has registered the job
    as running under the key of its executor and job ids, has handed the
    message to the local handler exactly once and answers with the
    activation id. As long as the completion marker of that job is absent,
    the test of the keeper for a fully idle fleet, made on the registry
    once the keeper has refreshed it (lines 97 to 102), fails, whatever the
    registry held. *)
Theorem accepted_job_is_registered (E : env) (message : json) (w w' : world)
    (body : json) :
  Controller.run E message w = (Ret (202, body), w') ->
  exists executor_id job_id job_key,
    Json.getitem message "executor_id" = inr executor_id
    /\ Json.getitem message "job_id" = inr job_id
    /\ create_job_key E executor_id job_id = inr job_key
    /\ jobs w' = <[job_key := Running]> (jobs w)
    /\ trace w' = trace w ++ [(now w, EvLocalRun message)]
    /\ body = JObj {[ "activationId"%string := JStr (new_activation_id E (now w)) ]}
    /\ forall t,
         done_file_exists E job_key t = false ->
         Controller.fully_idle
           (set_jobs (Controller.refresh_jobs E t (jobs w')) w') = false.
Proof.
  intros Hrun. unfold Controller.run in Hrun.
  destruct (Json.truthy message && negb (Controller.is_dict message)).
  { apply ret_inv in Hrun as [Hrun _]. discriminate Hrun. }
  unfold bind at 1 in Hrun. rewrite run_check in Hrun.
  destruct (run_checked E message) as [e|rt].
  { apply ret_inv in Hrun as [Hrun _]. discriminate Hrun. }
  returned.
  match goal with H : (_, _) = (_, _) |- _ => injection H as -> end.
  do 3 eexists. do 3 (split; [eassumption|]).
  split; [reflexivity|]. split; [reflexivity|]. split; [reflexivity|].
  intros t Hfile.
  unfold Controller.fully_idle.
  match goal with
  | |- context [Controller.all_done ?js] =>
      assert (Hdone : Controller.all_done js = false)
  end.
  { unfold Controller.all_done. apply bool_decide_eq_false. intros Hall.
    match goal with
    | H : create_job_key _ _ _ = inr ?k |- _ =>
        specialize (Hall k Running)
    end.
    unfold Controller.refresh_jobs in Hall.
    cbn [jobs add_event set_jobs set_self set_last_usage_time] in Hall.
    rewrite map_lookup_imap in Hall.
    rewrite lookup_insert_eq in Hall. cbn in Hall. rewrite Hfile in Hall.
    specialize (Hall eq_refl). discriminate Hall. }
  rewrite Hdone. by rewrite andb_false_r.
Qed.

(** ** The budget keeper *)

Section KeeperEdges.
Context (E : env).

(** The state [/run] leaves when it answers 202. *)
Lemma run_accepted_state (message : json) (w w' : world) (body : json) :
  Controller.run E message w = (Ret (202, body), w') ->
  exists auto soft hard job_key,
    w' = add_event (EvLocalRun message)
           (set_jobs (<[job_key := Running]> (jobs w))
              (set_self
                 (set_hard_dismantle_timeout hard
                    (set_soft_dismantle_timeout soft
                       (set_auto_dismantle auto (self w))))
                 (set_last_usage_time (now w) w))).
Proof.
  intros Hrun. unfold Controller.run in Hrun.
  destruct (Json.truthy message && negb (Controller.is_dict message)).
  { apply ret_inv in Hrun as [Hrun _]. discriminate Hrun. }
  unfold bind at 1 in Hrun. rewrite run_check in Hrun.
  destruct (run_checked E message) as [e|rt].
  { apply ret_inv in Hrun as [Hrun _]. discriminate Hrun. }
  returned. by do 4 eexists.
Qed.

(** An iteration of the keeper with numeric timeouts returns. *)
Lemma keeper_iter_returns (jobs_running : bool) (w : world) (soft hard : Q) :
  Json.num (soft_dismantle_timeout (self w)) = inr soft ->
  (0 <= soft)%Q ->
  Json.num (hard_dismantle_timeout (self w)) = inr hard ->
  exists jobs_running' w',
    Controller.budget_keeper_iter E jobs_running w = (Ret jobs_running', w')
    /\ self w' = self w
    /\ (now w <= now w')%Q
    /\ (trace w' = trace w
        \/ dismantle_times (trace w') = dismantle_times (trace w) ++ [now w]).
Proof.
  intros Hsoft Hnn Hhard.
  assert (Hstep : (now w <= now w + soft / 10)%Q).
  { change (soft / 10)%Q with (soft * (1 # 10))%Q. lra. }
  destruct (Controller.fully_idle
              (set_jobs (Controller.refresh_jobs E (now w) (jobs w)) w)) eqn:Hidle.
  - destruct (keeper_iter_idle E jobs_running w soft Hsoft Hnn Hidle)
      as (w' & Hrun & Hself & _ & _ & [(_ & Hnow & Htr)|(_ & Hnow & Htimes)]);
      exists false, w'; rewrite Hnow; (split; [done|]); (split; [done|]);
      (split; [done || lra|]); auto.
  - destruct (keeper_iter_busy E jobs_running w soft hard Hsoft Hnn Hhard Hidle)
      as (w' & Hrun & Hself & _ & _ & [(_ & Hnow & Htr)|(_ & Hnow & Htimes)]);
      exists true, w'; rewrite Hnow; (split; [done|]); (split; [done|]);
      (split; [done || lra|]); auto.
Qed.

End KeeperEdges.

(** X10. With timeouts that are numbers in the range of the floats, a
    soft timeout that is not negative and whose tenth is a length that
    [time.sleep] accepts, the loop of the budget keeper, run on its own,
    never ends by an exception: whatever [backend.stop()] raises in
    [dismantle] is caught and logged, so that after any number of
    iterations the loop is still running, on the same handler, its clock
    not set back. (Outside that range the division, [int] or the sleep of
    lines 96 to 118 raise [OverflowError], which nothing catches.) *)
Theorem keeper_never_raises (E : env) (soft hard : Q) (n : nat) :
  (0 <= soft)%Q ->
  (soft / 10 <= Py.sleep_max)%Q ->
  (- Py.float_max <= hard)%Q -> (hard <= Py.float_max)%Q ->
  forall (jobs_running : bool) (w : world),
    Json.num (soft_dismantle_timeout (self w)) = inr soft ->
    Json.num (hard_dismantle_timeout (self w)) = inr hard ->
    exists w',
      Controller.budget_keeper_loop E n jobs_running w = (OutOfFuel, w')
      /\ self w' = self w
      /\ (now w <= now w')%Q.
Proof.
  intros Hnn _ _ _. induction n as [|n IH]; intros jobs_running w Hsoft Hhard.
  { exists w. split; [done|]. split; [done|lra]. }
  destruct (keeper_iter_returns E jobs_running w soft hard Hsoft Hnn Hhard)
    as (jr' & w1 & Hiter & Hself & Hnow & _).
  rewrite (keeper_loop_step E n jobs_running jr' w w1 Hiter).
  destruct (IH jr' w1) as (w' & Hloop & Hself' & Hnow'); [by rewrite Hself..|].
  exists w'. split; [done|]. split; [congruence|lra].
Qed.

(** What [__init__] reads for the soft timeout. *)
Lemma init_soft_timeout (E : env) (cfg : gmap string json) (h : handler) :
  Standalone.__init__ E (JObj cfg) = inr h ->
  soft_dismantle_timeout h
  = match cfg !! "soft_dismantle_timeout"%string with
    | Some v => v
    | None => JNull
    end.
Proof.
  unfold Standalone.__init__. cbn [Json.get Json.getitem].
  destruct (cfg !! "backend"%string); [|discriminate].
  destruct (cfg !! "runtime"%string); [|discriminate].
  destruct (_ && _); [discriminate|].
  destruct (Standalone.create_backend_handler E _); [discriminate|].
  destruct (_ && _ && _); intros [= <-]; reflexivity.
Qed.

(** X11. On a handler that [__init__] built from a configuration
    without [soft_dismantle_timeout], the budget keeper raises [TypeError]
    in its first iteration, before it looks at the jobs: the attribute is
    [None], which [/ 10] rejects. Nothing is ever dismantled by it. *)
Theorem keeper_dies_without_soft_timeout (E : env) (cfg : gmap string json)
    (w : world) (n : nat) :
  Standalone.__init__ E (JObj cfg) = inr (self w) ->
  cfg !! "soft_dismantle_timeout"%string = None ->
  Controller.budget_keeper E (S n) w
  = (Raise (Py.TypeError "unsupported operand type(s)"), w).
Proof.
  intros Hinit Hnone. apply init_soft_timeout in Hinit. rewrite Hnone in Hinit.
  unfold Controller.budget_keeper. cbn [Controller.budget_keeper_loop].
  unfold bind at 1. unfold Controller.budget_keeper_iter.
  by rewrite bind_time_time, bind_get_world, bind_lift, Hinit.
Qed.

(** X12. Once the hard timeout has run out on a fleet that cannot become
    idle, the keeper dismantles in every iteration: nothing resets
    [last_usage_time] and no sleep separates the iterations, so that [n]
    iterations enter [dismantle] [n] times at the same reading of the
    clock. *)
Theorem keeper_dismantles_without_pause (E : env) (soft hard : Q) (n : nat) :
  (0 <= soft)%Q ->
  forall (jobs_running : bool) (w : world),
    Json.num (soft_dismantle_timeout (self w)) = inr soft ->
    Json.num (hard_dismantle_timeout (self w)) = inr hard ->
    Controller.never_idle E w ->
    (hard - (now w - last_usage_time w) < 1)%Q ->
    exists w',
      Controller.budget_keeper_loop E n jobs_running w = (OutOfFuel, w')
      /\ now w' = now w
      /\ last_usage_time w' = last_usage_time w
      /\ dismantle_times (trace w') = dismantle_times (trace w) ++ repeat (now w) n.
Proof.
  intros Hnn. induction n as [|n IH]; intros jobs_running w Hsoft Hhard Hnever Hout.
  { exists w. cbn. by rewrite app_nil_r. }
  destruct (never_idle_refreshed E w
              (set_jobs (Controller.refresh_jobs E (now w) (jobs w)) w) (now w)
              Hnever eq_refl eq_refl) as [_ Hbusy].
  destruct (keeper_iter_busy E jobs_running w soft hard Hsoft Hnn Hhard Hbusy)
    as (w1 & Hiter & Hself & Hjobs & Hlut & [(Hleft & _)|(_ & Hnow & Htimes)]);
    [lra|].
  rewrite (keeper_loop_step E n jobs_running true w w1 Hiter).
  destruct (never_idle_refreshed E w w1 (now w) Hnever Hself Hjobs) as [Hnever1 _].
  destruct (IH true w1) as (w' & Hloop & Hnow' & Hlut' & Htimes');
    [by rewrite Hself..|done|by rewrite Hnow, Hlut|].
  exists w'. split; [done|]. split; [congruence|]. split; [congruence|].
  rewrite Htimes', Htimes, Hnow, <- app_assoc. reflexivity.
Qed.

(** X13. The keeper does not dismantle a job that was just accepted: if
    [/run] answers 202 and the timeouts of the message are numbers not
    below 1, the next iteration of the keeper, at the same reading of the
    clock, sleeps a tenth of the soft timeout and stops nothing, whether
    the job has already finished or not. *)
Theorem accepted_job_not_dismantled_at_once (E : env) (message : json)
    (w w1 : world) (body : json) (soft hard : Q) (jobs_running : bool) :
  Controller.run E message w = (Ret (202, body), w1) ->
  Json.num (soft_dismantle_timeout (self w1)) = inr soft ->
  Json.num (hard_dismantle_timeout (self w1)) = inr hard ->
  (1 <= soft)%Q -> (1 <= hard)%Q ->
  exists jobs_running' w2,
    Controller.budget_keeper_iter E jobs_running w1 = (Ret jobs_running', w2)
    /\ trace w2 = trace w1
    /\ now w2 = (now w1 + soft / 10)%Q.
Proof.
  intros Hrun Hsoft Hhard Hs Hh.
  destruct (run_accepted_state E message w w1 body Hrun)
    as (auto & soft0 & hard0 & job_key & Hw1).
  assert (Hlut : last_usage_time w1 = now w1) by (by subst w1).
  assert (Hnn : (0 <= soft)%Q) by lra.
  destruct (Controller.fully_idle
              (set_jobs (Controller.refresh_jobs E (now w1) (jobs w1)) w1)) eqn:Hidle.
  - destruct (keeper_iter_idle E jobs_running w1 soft Hsoft Hnn Hidle)
      as (w2 & Hiter & _ & _ & _ & [(_ & Hnow & Htr)|(Hout & _)]).
    + by exists false, w2.
    + rewrite Hlut in Hout. destruct jobs_running; lra.
  - destruct (keeper_iter_busy E jobs_running w1 soft hard Hsoft Hnn Hhard Hidle)
      as (w2 & Hiter & _ & _ & _ & [(_ & Hnow & Htr)|(Hout & _)]).
    + by exists true, w2.
    + rewrite Hlut in Hout. lra.
Qed.

(** ** The waits and the fleet of the handler *)

Section WaitOutcomes.
Context (E : env).

(** A wait of the handler that returns has only moved the clock. *)
Lemma wait_returned (check : M bool) (fuel : nat) (interval timeout start : Q)
    (msg : string) (w w' : world) (r : bool) :
  (forall w1, exists r, check w1 = (Ret r, w1)) ->
  (ok <- wait_loop fuel check interval timeout start ;;
   if ok then ret true
   else Standalone.dismantle E ;; raise (Py.Exception msg)) w = (Ret r, w') ->
  r = true /\ exists t, w' = set_now t w.
Proof.
  intros Hreads Hrun.
  apply bind_ret_inv in Hrun as (ok & w1 & Hloop & Hrun).
  assert (Hclock : clock_only w w1).
  { pose proof (steps_wait_loop (R:=clock_only) fuel check interval timeout start
                  ltac:(intros w2 t; by exists t)
                  ltac:(intros w2; destruct (Hreads w2) as [r2 ->]; reflexivity)
                  w) as Hsteps.
    by rewrite Hloop in Hsteps. }
  destruct ok; [|by returned].
  apply ret_inv in Hrun as [-> ->]. done.
Qed.

Lemma wait_backend_ready_returned (b : backend) (w w' : world) (r : bool) :
  Standalone._wait_backend_ready E b w = (Ret r, w') ->
  r = true /\ exists t, w' = set_now t w.
Proof.
  unfold Standalone._wait_backend_ready.
  rewrite bind_time_time, bind_get_world, bind_lift.
  destruct (Json.num (start_timeout (self w))) as [e|timeout]; [discriminate|].
  apply wait_returned, is_backend_ready_reads.
Qed.

Lemma wait_proxy_ready_returned (b : backend) (w w' : world) (r : bool) :
  Standalone._wait_proxy_ready E b w = (Ret r, w') ->
  r = true /\ exists t, w' = set_now t w.
Proof.
  unfold Standalone._wait_proxy_ready.
  rewrite bind_time_time, bind_get_world, bind_lift.
  destruct (Json.num (start_timeout (self w))) as [e|timeout]; [discriminate|].
  apply wait_returned, is_proxy_ready_reads.
Qed.

Lemma start_backend_returned (b : backend) (w w' : world) (u : unit) :
  Standalone._start_backend E b w = (Ret u, w') ->
  backend_start E b (now w) = inr tt
  /\ exists t, w' = set_now t (add_event (EvStart b) w).
Proof.
  unfold Standalone._start_backend. rewrite bind_emit, bind_call.
  cbn [now add_event].
  destruct (backend_start E b (now w)) as [e|[]]; [discriminate|].
  intros Hrun. apply bind_ret_inv in Hrun as (r & w1 & Hwait & Hrun).
  apply ret_inv in Hrun as [_ ->].
  apply wait_backend_ready_returned in Hwait as [_ Ht]. done.
Qed.

(** The start, the set up of the proxy and the wait for it, done on a
    backend by [create] and by [create_runtime], when they return. *)
Lemma boot_returned (b : backend) (w w' : world) (b' : backend) :
  (Standalone._start_backend E b ;;
   emit (EvSetupProxy b) ;;
   call (install_proxy E b) ;;
   Standalone._wait_proxy_ready E b ;;
   ret b) w = (Ret b', w') ->
  b' = b
  /\ self w' = self w
  /\ events w' = events w ++ [EvStart b; EvSetupProxy b].
Proof.
  intros Hrun.
  apply bind_ret_inv in Hrun as (u & w1 & Hstart & Hrun).
  apply start_backend_returned in Hstart as (_ & t1 & ->).
  rewrite bind_emit, bind_call in Hrun.
  destruct (install_proxy E b _) as [e|[]]; [discriminate|].
  apply bind_ret_inv in Hrun as (r & w2 & Hwait & Hrun).
  apply wait_proxy_ready_returned in Hwait as (_ & t2 & ->).
  apply ret_inv in Hrun as [-> ->].
  split; [done|]. split; [done|].
  unfold events. cbn [trace set_now add_event]. rewrite !map_app. cbn.
  by rewrite <- app_assoc.
Qed.

End WaitOutcomes.

(** X14. A readiness wait that returns has dismantled nothing:
    whenever [_wait_backend_ready] or [_wait_proxy_ready] returns, it
    returns [True], and only the clock has moved meanwhile; the trace and
    the handler are as they were, whatever the number of polls it took.
    ([dismantle] comes only before the exception of a wait that has run
    out of time.) *)
Theorem ready_backend_is_not_dismantled (E : env) (b : backend) (w w' : world)
    (r : bool) :
  Standalone._wait_backend_ready E b w = (Ret r, w')
  \/ Standalone._wait_proxy_ready E b w = (Ret r, w') ->
  r = true
  /\ (exists t, w' = set_now t w)
  /\ trace w' = trace w
  /\ self w' = self w.
Proof.
  intros [Hwait|Hwait].
  - apply wait_backend_ready_returned in Hwait as (-> & t & ->). eauto.
  - apply wait_proxy_ready_returned in Hwait as (-> & t & ->). eauto.
Qed.

(** What [create] has done when it returns. *)
Lemma create_returned (E : env) (name_prefix name_suffix : string)
    (w w' : world) (b : backend) :
  Standalone.create E name_prefix name_suffix w = (Ret b, w') ->
  exists b0,
    Standalone.create_backend_handler E (self w) = inr b0
    /\ backend_create E b0 name_prefix name_suffix = inr b
    /\ self w' = set_backends (backends (self w) ++ [b]) (self w)
    /\ events w' = events w ++ [EvCreate name_prefix name_suffix;
                                EvStart b; EvSetupProxy b]
    /\ stops (trace w') = stops (trace w).
Proof.
  unfold Standalone.create. rewrite bind_get_world, bind_lift.
  destruct (Standalone.create_backend_handler E (self w)) as [e|b0] eqn:Hnew;
    [discriminate|].
  rewrite bind_emit, bind_lift.
  destruct (backend_create E b0 name_prefix name_suffix) as [e|b1] eqn:Hcreate;
    [discriminate|].
  rewrite bind_modify. intros Hrun.
  apply boot_returned in Hrun as (-> & Hself & Hevents).
  exists b0. split; [done|]. split; [done|]. split; [by rewrite Hself|].
  assert (Hev : events w' = events w ++ [EvCreate name_prefix name_suffix;
                                          EvStart b1; EvSetupProxy b1]).
  { rewrite Hevents. unfold events. cbn [trace set_self add_event].
    rewrite map_app. cbn. by rewrite <- app_assoc. }
  split; [exact Hev|].
  clear -Hev. unfold events in Hev.
  apply (f_equal (omap (fun e => match e with EvStop b => Some b | _ => None end)))
    in Hev.
  rewrite omap_app in Hev. cbn in Hev. rewrite app_nil_r in Hev.
  assert (Hstops : forall tr, stops tr
    = omap (fun e => match e with EvStop b => Some b | _ => None end) (map snd tr)).
  { intros tr. unfold stops. induction tr as [|te tr IH]; [done|].
    cbn. rewrite <- IH. unfold stopped. by destruct (snd te). }
  by rewrite !Hstops.
Qed.

(** X15. When [create] returns, it returns the backend that
    [backend.create()] gave, now the last of the fleet; it has started it
    and set up its proxy, in this order, and has stopped nothing; the
    settings of the handler and the backends already in the fleet are as
    before. *)
Theorem create_returns_registered_backend (E : env) (name_prefix name_suffix : string)
    (w w' : world) (b : backend) :
  Standalone.create E name_prefix name_suffix w = (Ret b, w') ->
  exists b0,
    Standalone.create_backend_handler E (self w) = inr b0
    /\ backend_create E b0 name_prefix name_suffix = inr b
    /\ self w' = set_backends (backends (self w) ++ [b]) (self w)
    /\ events w' = events w ++ [EvCreate name_prefix name_suffix;
                                EvStart b; EvSetupProxy b]
    /\ stops (trace w') = stops (trace w).
Proof. apply create_returned. Qed.

(** X16. When [backend.start()] raises in [create], the backend that
    was just created is already in the fleet and is not stopped: [create]
    raises the same exception and leaves the backend to a later
    [dismantle]. *)
Theorem create_keeps_backend_that_fails_to_start (E : env)
    (name_prefix name_suffix : string) (w : world) (b0 b : backend) (e : Py.exn) :
  Standalone.create_backend_handler E (self w) = inr b0 ->
  backend_create E b0 name_prefix name_suffix = inr b ->
  backend_start E b (now w) = inl e ->
  exists w',
    Standalone.create E name_prefix name_suffix w = (Raise e, w')
    /\ backends (self w') = backends (self w) ++ [b]
    /\ events w' = events w ++ [EvCreate name_prefix name_suffix; EvStart b]
    /\ stops (trace w') = stops (trace w).
Proof.
  intros Hnew Hcreate Hstart. unfold Standalone.create.
  rewrite bind_get_world, bind_lift, Hnew, bind_emit, bind_lift, Hcreate.
  rewrite bind_modify. unfold bind at 1. unfold Standalone._start_backend.
  rewrite bind_emit, bind_call. cbn [now add_event set_self]. rewrite Hstart.
  eexists. split; [reflexivity|]. split; [done|].
  unfold events. cbn [trace set_self add_event].
  rewrite !stops_app, !map_app. cbn. by rewrite <- !app_assoc, !app_nil_r.
Qed.

Lemma set_backends_nil (h : handler) : set_backends (backends h ++ []) h = h.
Proof. destruct h. cbn. by rewrite app_nil_r. Qed.

Lemma set_backends_app (h : handler) (bs1 bs2 : list backend) :
  set_backends (backends (set_backends (backends h ++ bs1) h) ++ bs2)
               (set_backends (backends h ++ bs1) h)
  = set_backends (backends h ++ bs1 ++ bs2) h.
Proof. destruct h. cbn. by rewrite app_assoc. Qed.

Section PoolFacts.
Context (E : env).

(** A task of the pool adds at most its own backend to the fleet. *)
Lemma thread_invoke_grows (job_key call_id : string) (p : json) (w : world) :
  exists bs,
    self (snd (Standalone._thread_invoke E job_key call_id p w))
    = set_backends (backends (self w) ++ bs) (self w)
    /\ (length bs <= 1)%nat.
Proof.
  destruct (Standalone.create_backend_handler E (self w)) as [e|b0] eqn:Hnew.
  { exists []. split; [|cbn; lia]. rewrite set_backends_nil.
    unfold Standalone._thread_invoke, Standalone.create. unfold bind at 1.
    by rewrite bind_get_world, bind_lift, Hnew. }
  destruct (backend_create E b0 job_key call_id) as [e|b] eqn:Hcreate.
  { exists []. split; [|cbn; lia]. rewrite set_backends_nil.
    unfold Standalone._thread_invoke, Standalone.create. unfold bind at 1.
    by rewrite bind_get_world, bind_lift, Hnew, bind_emit, bind_lift, Hcreate. }
  exists [b]. split; [|cbn; lia].
  by apply (thread_invoke_appends E job_key call_id p w b0 b).
Qed.

Lemma run_pool_appends (tasks : list (string * string * json)) :
  forall w,
    exists bs,
      Standalone.run_pool E tasks w
      = (Ret tt, snd (Standalone.run_pool E tasks w))
      /\ self (snd (Standalone.run_pool E tasks w))
         = set_backends (backends (self w) ++ bs) (self w)
      /\ (length bs <= length tasks)%nat.
Proof.
  induction tasks as [|[[job_key call_id] p] tasks IH]; intros w.
  - exists []. cbn. by rewrite set_backends_nil.
  - assert (Hrun : Standalone.run_pool E ((job_key, call_id, p) :: tasks) w
                   = Standalone.run_pool E tasks
                       (snd (Standalone._thread_invoke E job_key call_id p w))).
    { cbn [Standalone.run_pool]. unfold bind at 1.
      by rewrite pooled_task_run by apply total_thread_invoke. }
    rewrite Hrun.
    destruct (thread_invoke_grows job_key call_id p w) as (bs1 & Hself1 & Hlen1).
    destruct (IH (snd (Standalone._thread_invoke E job_key call_id p w)))
      as (bs2 & Hret & Hself2 & Hlen2).
    exists (bs1 ++ bs2). split; [exact Hret|]. split.
    + rewrite Hself2, Hself1. apply set_backends_app.
    + rewrite length_app. cbn [length]. lia.
Qed.

End PoolFacts.

(** X17. The pool of [run_job] never raises and only ever appends to the
    fleet: whatever fails in its tasks, the handler keeps its settings and
    the backends it had, in their order, and gains at most one backend for
    each task. *)
Theorem pool_only_appends_to_fleet (E : env) (tasks : list (string * string * json))
    (w : world) :
  exists bs,
    Standalone.run_pool E tasks w = (Ret tt, snd (Standalone.run_pool E tasks w))
    /\ self (snd (Standalone.run_pool E tasks w))
       = set_backends (backends (self w) ++ bs) (self w)
    /\ (length bs <= length tasks)%nat.
Proof. apply run_pool_appends. Qed.

(** ** The runtime metadata *)

(** X18. When [create_runtime] returns the metadata: on a provided
    backend it has started it and set up its proxy, and stops nothing; in
    the other mode it has created one backend named after the runtime,
    has stopped it and only it after the request, and leaves it, stopped, in
    the fleet. *)
Theorem create_runtime_stops_only_its_proxy (E : env) (R : runtime_env)
    (runtime : string) (w w' : world) (runtime_meta : json) :
  Runtime.create_runtime E R runtime w = (Ret runtime_meta, w') ->
  exists b,
    (if provided_backed (self w)
     then head (backends (self w)) = Some b
          /\ self w' = self w
          /\ events w' = events w ++ [EvStart b; EvSetupProxy b]
     else self w' = set_backends (backends (self w) ++ [b]) (self w)
          /\ events w' = events w ++ [EvCreate "proxy" runtime; EvStart b;
                                      EvSetupProxy b; EvStop b])
    /\ Runtime.preinstalls_request R (self w') b runtime (now w') = inr runtime_meta.
Proof.
  unfold Runtime.create_runtime. rewrite bind_get_world. intros Hrun.
  apply bind_ret_inv in Hrun as (b & w1 & Hboot & Hrun).
  rewrite bind_get_world, bind_call in Hrun.
  destruct (Runtime.preinstalls_request R (self w1) b runtime (now w1))
    as [e|meta] eqn:Hreq; [discriminate|].
  rewrite bind_get_world in Hrun. exists b.
  destruct (provided_backed (self w)) eqn:Hprov.
  - apply bind_ret_inv in Hboot as (b1 & w2 & Hidx & Hboot).
    apply lift_ret_inv in Hidx as [Hidx ->].
    apply boot_returned in Hboot as (-> & Hself & Hevents).
    rewrite Hself, Hprov in Hrun. cbn [negb] in Hrun.
    rewrite (bind_lift (inr tt)) in Hrun.
    apply ret_inv in Hrun as [-> ->].
    split; [|exact Hreq].
    split; [|done].
    unfold Py.index in Hidx. cbn in Hidx.
    destruct (backends (self w)) as [|b0 bs]; cbn in Hidx; [discriminate|].
    by injection Hidx as ->.
  - apply create_returned in Hboot as (b0 & _ & _ & Hself & Hevents & _).
    assert (Hprov1 : provided_backed (self w1) = false) by (by rewrite Hself).
    rewrite Hprov1 in Hrun. cbn [negb] in Hrun.
    unfold bind at 1 in Hrun. rewrite bind_emit in Hrun. unfold call in Hrun.
    destruct (backend_stop E b _) as [e|[]]; [discriminate|].
    cbn [lift ret] in Hrun. apply ret_inv in Hrun as [-> ->].
    split; [|exact Hreq].
    split; [exact Hself|].
    rewrite events_add_event, Hevents, <- app_assoc. reflexivity.
Qed.

(** X19. Outside the provided mode, when the request for the metadata
    fails after [create] has returned, [create_runtime] raises without
    stopping the backend it has created: the backend stays in the fleet,
    started. *)
Theorem create_runtime_error_leaves_proxy_running (E : env) (R : runtime_env)
    (runtime : string) (w w1 : world) (b : backend) (e : Py.exn) :
  provided_backed (self w) = false ->
  Standalone.create E "proxy" runtime w = (Ret b, w1) ->
  Runtime.preinstalls_request R (self w1) b runtime (now w1) = inl e ->
  Runtime.create_runtime E R runtime w = (Raise e, w1)
  /\ In b (backends (self w1))
  /\ In (EvStart b) (events w1)
  /\ stops (trace w1) = stops (trace w).
Proof.
  intros Hprov Hcreate Hreq. split.
  - unfold Runtime.create_runtime. rewrite bind_get_world, Hprov.
    unfold bind at 1. rewrite Hcreate. by rewrite bind_get_world, bind_call, Hreq.
  - apply create_returned in Hcreate as (b0 & _ & _ & Hself & Hevents & Hstops).
    split; [|split; [|exact Hstops]].
    + rewrite Hself. cbn [backends set_backends]. apply in_app_iff. right. by left.
    + rewrite Hevents. apply in_app_iff. right. right. by left.
Qed.

(** ** The runtime key *)

Lemma char_in_slash (c : ascii) : Py.char_in c "/" = true <-> c = "/"%char.
Proof.
  cbn [Py.char_in]. rewrite orb_false_r. apply Ascii.eqb_eq.
Qed.

Lemma lstrip_slashes (s : string) :
  exists n,
    s = (Py.repeat_char "/" n ++ Py.lstrip "/" s)%string
    /\ forall s', Py.lstrip "/" s <> String "/" s'.
Proof.
  induction s as [|c s (n & Hs & Hhead)].
  - by exists 0%nat.
  - cbn [Py.lstrip]. destruct (Py.char_in c "/") eqn:Hc.
    + apply char_in_slash in Hc as ->. exists (S n). split; [|exact Hhead].
      by rewrite Hs at 1.
    + exists 0%nat. split; [done|]. intros s' [= -> _].
      by rewrite (proj2 (char_in_slash "/") eq_refl) in Hc.
Qed.

Lemma rstrip_slashes (s : string) :
  exists m,
    s = (Py.rstrip "/" s ++ Py.repeat_char "/" m)%string
    /\ (forall s', Py.rstrip "/" s <> (s' ++ "/")%string)
    /\ (forall c s', s = String c s' -> c <> "/"%char ->
          exists s'', Py.rstrip "/" s = String c s'').
Proof.
  induction s as [|c s (m & Hs & Hlast & _)].
  - exists 0%nat. split; [done|]. split; [by intros []|]. by intros c s' [=].
  - cbn [Py.rstrip]. destruct (Py.rstrip "/" s) as [|a r] eqn:Hr.
    + destruct (Py.char_in c "/") eqn:Hc.
      * apply char_in_slash in Hc as ->. exists (S m).
        split; [by rewrite Hs at 1|].
        split; [by intros []|]. by intros c s' [= <- _] Hne.
      * exists m. split; [by rewrite Hs at 1|]. split.
        -- intros [|c' [|? ?]] [=]; subst.
           by rewrite (proj2 (char_in_slash "/") eq_refl) in Hc.
        -- intros c' s' [= <- _] _. by eexists.
    + exists m. split; [by rewrite Hs at 1|]. split.
      * intros [|c' s'] [=]. subst. by apply (Hlast s').
      * intros c' s' [= <- _] _. by eexists.
Qed.

(** X20. With an empty fleet [get_runtime_key] answers by itself: the
    key is the runtime name without the slashes at its two ends, and neither
    begins nor ends with a slash. With a backend in the fleet the key is the
    one that the first backend gives, and nothing is stripped. *)
Theorem runtime_key_has_no_outer_slash (R : runtime_env) (runtime_name : string)
    (w : world) :
  (backends (self w) = [] ->
   exists key n m,
     Runtime.get_runtime_key R runtime_name w = (Ret key, w)
     /\ runtime_name
        = (Py.repeat_char "/" n ++ key ++ Py.repeat_char "/" m)%string
     /\ (forall s, key <> String "/" s)
     /\ (forall s, key <> (s ++ "/")%string))
  /\ (forall b bs, backends (self w) = b :: bs ->
        Runtime.get_runtime_key R runtime_name w
        = lift (backend_get_runtime_key R b runtime_name) w).
Proof.
  split.
  - intros Hempty. unfold Runtime.get_runtime_key.
    rewrite bind_get_world, Hempty. cbn [length Z.of_nat Z.ltb Z.compare].
    destruct (lstrip_slashes runtime_name) as (n & Hl & Hhead).
    destruct (rstrip_slashes (Py.lstrip "/" runtime_name)) as (m & Hr & Hlast & Hkeep).
    exists (Py.strip "/" runtime_name), n, m. split; [done|]. unfold Py.strip.
    split; [by rewrite <- Hr|]. split; [|exact Hlast].
    intros s Hkey. destruct (Py.lstrip "/" runtime_name) as [|c l] eqn:Hstr;
      [discriminate Hkey|].
    destruct (Hkeep c l eq_refl) as [s'' Hs''].
    { intros ->. by apply (Hhead l). }
    rewrite Hs'' in Hkey. injection Hkey as -> _. by apply (Hhead l).
  - intros b bs Hfleet. unfold Runtime.get_runtime_key.
    rewrite bind_get_world, Hfleet. cbn [length].
    destruct (Z.ltb_spec 0 (Z.of_nat (S (length bs)))) as [_|?]; [|lia].
    rewrite bind_lift. unfold Py.index. cbn. reflexivity.
Qed.

(** ** The routes [/ping] and [/preinstalls] *)

(** X21. [GET /preinstalls] and [GET /ping] never touch the state of
    the controller, whatever they answer or raise: unlike [/run] they do
    not reset the countdown of the budget keeper, register no job and leave
    the settings of the handler alone. [/preinstalls] answers 200 with the
    metadata of the runtime of the message once the runtime name is
    verified, and 404 with an [error] body otherwise; [/ping] answers 200
    and [pong]. *)
Theorem preinstalls_changes_nothing (E : env) (R : runtime_env)
    (standalone_config message : json) (w : world) :
  exists r,
    Routes.preinstalls E R standalone_config message w = (r, w)
    /\ Routes.ping w = (Ret (200, JObj {[ "response"%string := JStr "pong" ]}), w)
    /\ r <> OutOfFuel
    /\ forall code body, r = Ret (code, body) ->
         (code = 404 /\ exists msg : string, body = JObj {[ "error"%string := JStr msg ]})
         \/ (code = 200
             /\ exists runtime,
                  Json.getitem message "runtime" = inr runtime
                  /\ verify_runtime_name E runtime = inr tt
                  /\ localhost_create_runtime R runtime (now w) = inr body).
Proof.
  unfold Routes.preinstalls.
  destruct (Json.truthy message && negb (Controller.is_dict message)).
  { eexists. split; [reflexivity|]. split; [reflexivity|]. split; [done|].
    intros code body [= <- <-]. left. eauto. }
  unfold bind at 1, try_except. rewrite bind_lift.
  destruct (Json.getitem message "runtime") as [e|rt] eqn:Hrt.
  { eexists. split; [reflexivity|]. split; [reflexivity|]. split; [done|].
    intros code body [= <- <-]. left. eauto. }
  rewrite bind_lift.
  destruct (verify_runtime_name E rt) as [e|[]] eqn:Hverify.
  { eexists. split; [reflexivity|]. split; [reflexivity|]. split; [done|].
    intros code body [= <- <-]. left. eauto. }
  cbn [ret]. rewrite bind_lift.
  destruct (Json.get standalone_config "pull_runtime" (JBool false)) as [e|pull].
  { eexists. split; [reflexivity|]. split; [reflexivity|]. split; [done|]. intros code body [=]. }
  rewrite bind_call.
  destruct (localhost_create_runtime R rt (now w)) as [e|meta] eqn:Hmeta.
  { eexists. split; [reflexivity|]. split; [reflexivity|]. split; [done|]. intros code body [=]. }
  eexists. split; [reflexivity|]. split; [reflexivity|]. split; [done|].
  intros code body [= <- <-]. right. split; [done|]. by exists rt.
Qed.

(** ** The log monitor *)

Section LogMonitorFacts.
Import LogMonitor.

(** One turn of the loop keeps the second file behind the first. *)
Lemma turn_body_files (t : turn) (s : state) :
  sublist (fdout_1 s) (fdout_0 s) ->
  sublist (fdout_1 (snd (turn_body t s))) (fdout_0 (snd (turn_body t s))).
Proof.
  intros Hsub. unfold turn_body.
  destruct (recv_ready t) as [e|[|]]; [done| |].
  - destruct (recv t) as [e|d]; [done|].
    destruct (write_0 t) as [e|[]]; [done|].
    assert (Hs2 : sublist (fdout_1 s) (fdout_0 s ++ [d])).
    { by apply sublist_inserts_r. }
    destruct (flush_0 t) as [e|[]]; [done|].
    destruct (write_1 t) as [e|[]]; [done|].
    cbn. by apply sublist_app.
  - destruct (has_data s); [|done].
    by destruct (ls_done t) as [e|[|]].
Qed.

Lemma monitor_loop_files (turns : list turn) :
  forall s,
    sublist (fdout_1 s) (fdout_0 s) ->
    sublist (fdout_1 (snd (monitor_loop turns s)))
            (fdout_0 (snd (monitor_loop turns s))).
Proof.
  induction turns as [|t turns IH]; intros s Hsub; [done|].
  cbn [monitor_loop]. destruct (channel_closed t); [done|].
  pose proof (turn_body_files t s Hsub) as Hbody.
  destruct (turn_body t s) as [[| |] s1]; cbn [snd] in *;
    [by apply IH|exact Hbody..].
Qed.

(** One turn leaves the loop by [break] only with data at hand, and
    without a chunk that is not empty there are no data. *)
Lemma turn_body_marker (t : turn) (s : state) :
  (forall d, recv t = inr d -> d = ""%string) ->
  has_data s = false ->
  fst (turn_body t s) = Polling /\ has_data (snd (turn_body t s)) = false.
Proof.
  intros Hempty Hdata. unfold turn_body.
  destruct (recv_ready t) as [e|[|]]; [done| |].
  - destruct (recv t) as [e|d] eqn:Hrecv; [done|].
    rewrite (Hempty d eq_refl).
    destruct (write_0 t) as [e|[]]; [done|].
    destruct (flush_0 t) as [e|[]]; [done|].
    by destruct (write_1 t) as [e|[]].
  - by rewrite Hdata.
Qed.

Lemma monitor_loop_marker (turns : list turn) :
  forall s,
    (forall t d, In t turns -> recv t = inr d -> d = ""%string) ->
    has_data s = false ->
    fst (monitor_loop turns s) <> MarkerFound.
Proof.
  induction turns as [|t turns IH]; intros s Hempty Hdata; [done|].
  cbn [monitor_loop]. destruct (channel_closed t); [done|].
  destruct (turn_body_marker t s) as [Hst Hdata1];
    [intros d; apply Hempty; by left|done|].
  destruct (turn_body t s) as [st s1]. cbn [fst snd] in *. subst st.
  apply IH; [|done]. intros t' d Hin. apply Hempty. by right.
Qed.

Lemma monitor_loop_open (turns : list turn) :
  forall s,
    (forall t d, In t turns -> recv t = inr d -> d = ""%string) ->
    has_data s = false ->
    (forall t, In t turns -> channel_closed t = false) ->
    fst (monitor_loop turns s) = Polling.
Proof.
  induction turns as [|t turns IH]; intros s Hempty Hdata Hopen; [done|].
  cbn [monitor_loop]. rewrite (Hopen t (or_introl eq_refl)).
  destruct (turn_body_marker t s) as [Hst Hdata1];
    [intros d; apply Hempty; by left|done|].
  destruct (turn_body t s) as [st s1]. cbn [fst snd] in *. subst st.
  apply IH; [|done|].
  - intros t' d Hin. apply Hempty. by right.
  - intros t' Hin. apply Hopen. by right.
Qed.

(** A loop whose [select] raises at every turn. *)
Lemma monitor_loop_spins (turns : list turn) :
  forall s,
    (forall t, In t turns ->
       channel_closed t = false /\ exists e, recv_ready t = inl e) ->
    monitor_loop turns s = (Polling, s).
Proof.
  induction turns as [|t turns IH]; intros s Hfail; [done|].
  cbn [monitor_loop]. destruct (Hfail t) as (-> & e & He); [by left|].
  unfold turn_body. rewrite He. apply IH. intros t' Hin. apply Hfail. by right.
Qed.

End LogMonitorFacts.

(** X22. Whatever the channel sends and whichever writes fail, what the
    log monitor has written to the log of functions ([fdout_1]) is what it
    has written to the log of the job ([fdout_0]) with some chunks left out,
    in the same order: no chunk reaches the log of functions without having
    been written to the log of the job and flushed. *)
Theorem function_log_follows_job_log (turns : list LogMonitor.turn) :
  sublist (LogMonitor.fdout_1 (snd (LogMonitor.log_monitor turns)))
          (LogMonitor.fdout_0 (snd (LogMonitor.log_monitor turns))).
Proof. apply monitor_loop_files. reflexivity. Qed.

(** X23. The log monitor looks for the completion marker of the job
    only after it has received data: as long as every chunk it receives is
    empty, it never leaves its loop by [break], even when the marker exists
    at every turn, and it ends only when the channel is closed. *)
Theorem silent_job_is_monitored_until_close (turns : list LogMonitor.turn) :
  (forall t d, In t turns -> LogMonitor.recv t = inr d -> d = ""%string) ->
  fst (LogMonitor.log_monitor turns) <> LogMonitor.MarkerFound
  /\ ((forall t, In t turns -> LogMonitor.channel_closed t = false) ->
      fst (LogMonitor.log_monitor turns) = LogMonitor.Polling).
Proof.
  intros Hempty. split.
  - by apply monitor_loop_marker.
  - intros Hopen. by apply monitor_loop_open.
Qed.

(** X24. An exception in the body of the loop of the log monitor is
    swallowed without a sleep: while [select] raises at every turn on an
    open channel, the monitor keeps looping, writes nothing and never
    sleeps. *)
Theorem failing_select_spins_the_monitor (turns : list LogMonitor.turn) :
  (forall t, In t turns ->
     LogMonitor.channel_closed t = false
     /\ exists e, LogMonitor.recv_ready t = inl e) ->
  LogMonitor.log_monitor turns
  = (LogMonitor.Polling, LogMonitor.State None [] [] 0).
Proof. intros Hfail. by apply monitor_loop_spins. Qed.

(** ** The restart of a backend before an invocation *)

Lemma bind_assoc {A B C : Type} (c : M A) (k : A -> M B) (k' : B -> M C) (w : world) :
  bind (bind c k) k' w = bind c (fun a => bind (k a) k') w.
Proof. unfold bind. by destruct (c w) as [[a|e|] w1]. Qed.

Section Restart.
Context (E : env).

(** [_single_invoke] on a backend whose proxy answers. *)
Lemma single_invoke_proxy_up (b : backend) (p : json) (w : world)
    (executor_id job_id : json) (job_key : string) :
  Json.getitem p "executor_id" = inr executor_id ->
  Json.getitem p "job_id" = inr job_id ->
  create_job_key E executor_id job_id = inr job_key ->
  fst (Standalone._is_proxy_ready E b w) = Ret true ->
  events (snd (Standalone._single_invoke E b p w))
  = events w
    ++ (if Json.eq_str (disable_log_monitoring (self w)) "False"
           && negb (is_lithops_worker (self w))
        then [EvLogMonitor job_key b] else [])
    ++ [EvInvoke b p].
Proof.
  intros Heid Hjid Hkey Hup.
  unfold Standalone._single_invoke. cbv zeta.
  rewrite bind_lift, Heid, bind_lift, Hjid, bind_lift, Hkey.
  unfold bind at 1. destruct (is_proxy_ready_reads E b w) as [ready Hready].
  rewrite Hready in Hup |- *. cbn [fst] in Hup. injection Hup as ->.
  cbn [negb]. unfold bind at 1. cbn [ret].
  rewrite bind_get_world. unfold bind at 1.
  destruct (Json.eq_str (disable_log_monitoring (self w)) "False").
  - rewrite start_log_monitor_run, Hkey.
    destruct (is_lithops_worker (self w)) eqn:Hworker; cbn [andb negb].
    + destruct (invoke_tail E b p true (use_http (self w)) w) as [r ->].
      cbn [snd]. by rewrite events_add_event.
    + destruct (invoke_tail E b p false (use_http (self w))
                  (add_event (EvLogMonitor job_key b) w)) as [r ->].
      cbn [snd]. by rewrite !events_add_event, <- app_assoc.
  - cbn [ret andb].
    destruct (invoke_tail E b p (is_lithops_worker (self w)) (use_http (self w)) w)
      as [r ->].
    cbn [snd]. by rewrite events_add_event.
Qed.

(** [_single_invoke] on a backend whose proxy does not answer. *)
Lemma single_invoke_proxy_down (b : backend) (p : json) (w : world)
    (executor_id job_id : json) (job_key : string) :
  Json.getitem p "executor_id" = inr executor_id ->
  Json.getitem p "job_id" = inr job_id ->
  create_job_key E executor_id job_id = inr job_key ->
  fst (Standalone._is_proxy_ready E b w) = Ret false ->
  exists es,
    events (snd (Standalone._single_invoke E b p w)) = events w ++ EvStart b :: es.
Proof.
  intros Heid Hjid Hkey Hdown.
  unfold Standalone._single_invoke. cbv zeta.
  rewrite bind_lift, Heid, bind_lift, Hjid, bind_lift, Hkey.
  unfold bind at 1. destruct (is_proxy_ready_reads E b w) as [ready Hready].
  rewrite Hready in Hdown |- *. cbn [fst] in Hdown. injection Hdown as ->.
  cbn [negb]. rewrite bind_assoc. unfold Standalone._start_backend.
  rewrite bind_assoc, bind_emit.
  match goal with
  | |- exists es, events (snd (?rest ?w1)) = _ =>
      assert (Hrest : evolves any_event w1 (snd (rest w1)))
  end.
  { apply (steps_bind (R:=evolves any_event)).
    { apply steps_bind; [apply steps_call|]. intros _.
      apply steps_bind; [by apply steps_wait_backend_ready|]. intros _.
      apply steps_ret. }
    intros _. apply steps_bind.
    { apply steps_bind; [by apply steps_wait_proxy_ready|]. intros _.
      apply steps_ret. }
    intros _. apply steps_bind; [apply steps_get_world|]. intros w0.
    apply steps_bind.
    { apply steps_if; [apply steps_start_log_monitor|apply steps_ret]. }
    intros _. apply steps_bind; [apply steps_emit_any|]. intros _.
    apply steps_bind; [|intros response; apply steps_lift].
    apply steps_if; apply steps_call. }
  destruct Hrest as [_ (tes & Htrace & _)]. exists (map snd tes).
  unfold events. rewrite Htrace, map_app. cbn [trace add_event].
  rewrite map_app. cbn. by rewrite <- app_assoc.
Qed.

End Restart.

(** X25. [_single_invoke] restarts a backend only when its proxy does
    not answer. When the ping succeeds, the invocation starts nothing:
    its events are the request to [/run], after the start of the log monitor
    if there is one. When the ping fails, the first thing it does is
    [backend.start()], before any wait and before the request. *)
Theorem proxy_is_restarted_only_when_down (E : env) (b : backend) (p : json)
    (w : world) (executor_id job_id : json) (job_key : string) :
  Json.getitem p "executor_id" = inr executor_id ->
  Json.getitem p "job_id" = inr job_id ->
  create_job_key E executor_id job_id = inr job_key ->
  (fst (Standalone._is_proxy_ready E b w) = Ret true ->
   events (snd (Standalone._single_invoke E b p w))
   = events w
     ++ (if Json.eq_str (disable_log_monitoring (self w)) "False"
            && negb (is_lithops_worker (self w))
         then [EvLogMonitor job_key b] else [])
     ++ [EvInvoke b p])
  /\ (fst (Standalone._is_proxy_ready E b w) = Ret false ->
      exists es,
        events (snd (Standalone._single_invoke E b p w))
        = events w ++ EvStart b :: es).
Proof.
  intros Heid Hjid Hkey. split; intros Hping.
  - by apply (single_invoke_proxy_up E b p w executor_id job_id).
  - by apply (single_invoke_proxy_down E b p w executor_id job_id job_key).
Qed.

(** X25 on a proxy that answers from the fourth second on: asked at
    once, the backend is started again and the request follows the wait;
    asked in the fifth second, the request is all there is. *)
Lemma proxy_is_restarted_only_when_down_witness :
  let E := Cases.slow_boot in
  let b := Scenario.worker_a in
  let p := Scenario.a_message (JBool true) (JInt 300) (JInt 3600) in
  let h := Scenario.a_monitoring_handler false (JBool false) [Scenario.worker_a] in
  events (snd (Standalone._single_invoke E b p (Scenario.a_world 5 h)))
  = [EvInvoke b p]
  /\ exists es,
       events (snd (Standalone._single_invoke E b p (Scenario.a_world 0 h)))
       = EvStart b :: es.
Proof.
  intros E b p h. split.
  - apply (proj1 (proxy_is_restarted_only_when_down E b p (Scenario.a_world 5 h)
                    (JStr "e1") (JStr "00003") "e1-00003"
                    ltac:(vm_compute; reflexivity) ltac:(vm_compute; reflexivity)
                    eq_refl)).
    vm_compute. reflexivity.
  - apply (proj2 (proxy_is_restarted_only_when_down E b p (Scenario.a_world 0 h)
                    (JStr "e1") (JStr "00003") "e1-00003"
                    ltac:(vm_compute; reflexivity) ltac:(vm_compute; reflexivity)
                    eq_refl)).
    vm_compute. reflexivity.
Defined.

Example restart_then_invoke :
  let E := Cases.slow_boot in
  let b := Scenario.worker_a in
  let p := Scenario.a_message (JBool true) (JInt 300) (JInt 3600) in
  let h := Scenario.a_monitoring_handler false (JBool false) [Scenario.worker_a] in
  let r := Standalone._single_invoke E b p (Scenario.a_world 0 h) in
  events (snd r) = [EvStart b; EvInvoke b p]
  /\ (now (snd r) == 10)%Q.
Proof. vm_compute. split; reflexivity. Qed.

(** ** A worker that cannot be reached *)

Section LostWorker.
Context (E : env).

(** The wait of the controller for a worker that never answers to ssh. *)
Lemma wait_instance_ready_expires (ip : json) (w : world) :
  (forall t, exists e, worker_ssh_id E ip t = inl e) ->
  exists t',
    Controller.wait_instance_ready E ip w
    = (Raise (Py.Exception "VM readiness probe expired. Check your master VM"),
       set_now t' w)
    /\ (now w + Controller.START_TIMEOUT <= t')%Q.
Proof.
  intros Hdown. unfold Controller.wait_instance_ready.
  rewrite bind_time_time. unfold bind at 1.
  destruct (wait_loop_expires (Controller.is_instance_ready E ip) 5
              Controller.START_TIMEOUT (now w) w ltac:(reflexivity)) with
    (fuel := wait_fuel 5 Controller.START_TIMEOUT) (t := now w)
    as (t' & Hloop & Hlate & _).
  - intros t _ _. unfold Controller.is_instance_ready, try_except, bind, call.
    cbn [now set_now]. by destruct (Hdown t) as [e ->].
  - lra.
  - unfold wait_fuel. apply Nat.lt_succ_r.
    assert (Heq : ((Controller.START_TIMEOUT - (now w - now w)) / 5
                   == Controller.START_TIMEOUT / 5)%Q).
    { apply Qmult_comp; [ring|reflexivity]. }
    by rewrite (Qceiling_comp _ _ Heq).
  - rewrite set_now_now in Hloop. rewrite Hloop. exists t'. split; [done|]. lra.
Qed.

End LostWorker.

(** X26. A worker that never answers to ssh costs its task the whole
    [START_TIMEOUT]: [run_job_on_worker] raises after 300 seconds of polls
    with nothing but the clock changed, so that the worker is not set up
    and the chunk is not posted, to this worker or to another. *)
Theorem unreachable_worker_loses_its_chunk (E : env) (name ip id : json)
    (c : list json) (p : json) (w : world) :
  (forall t, exists e, worker_ssh_id E ip t = inl e) ->
  exists t',
    Controller.run_job_on_worker E (JList [name; ip; id]) c p w
    = (Raise (Py.Exception "VM readiness probe expired. Check your master VM"),
       set_now t' w)
    /\ (now w + 300 <= t')%Q.
Proof.
  intros Hdown. unfold Controller.run_job_on_worker.
  rewrite bind_lift. cbn [Controller.unpack_worker_info fst snd].
  unfold bind at 1.
  destruct (wait_instance_ready_expires E ip w Hdown) as (t' & -> & Hlate).
  by exists t'.
Qed.

(** X26 on workers that refuse ssh connections. *)
Lemma unreachable_worker_loses_its_chunk_witness :
  let E := Cases.no_ssh in
  let wi := JList [JStr "lithops-w0"; JStr "10.0.1.0"; JStr "i-0"] in
  let w := Scenario.a_world 0 (Scenario.a_handler (JBool true) (JInt 10) (JInt 30) []) in
  exists t',
    Controller.run_job_on_worker E wi [JStr "00000"] Scenario.ten_calls w
    = (Raise (Py.Exception "VM readiness probe expired. Check your master VM"),
       set_now t' w)
    /\ (now w + 300 <= t')%Q.
Proof.
  intros E wi w.
  apply (unreachable_worker_loses_its_chunk E (JStr "lithops-w0") (JStr "10.0.1.0")
           (JStr "i-0") [JStr "00000"] Scenario.ten_calls w).
  intros t. by eexists.
Defined.

(** ** The dispatch of the chunks and the start of the keeper *)

(** X27. In [create] mode, with a positive chunk size and at least one
    worker for each chunk, [run_job] of the controller returns after it has
    submitted one task for each chunk and nothing else: the chunk of rank
    [k], which holds the call ids from rank [k * chunksize] on, at most
    [chunksize] of them, goes with the worker of rank [k] and the whole
    job payload. *)
Theorem create_mode_submits_each_chunk_once (E : env) (p cfg standalone mode : json)
    (ids workers : list json) (C : Z) (w : world) :
  Json.getitem p "config" = inr cfg ->
  Json.getitem cfg "standalone" = inr standalone ->
  Json.get standalone "exec_mode" (JStr "consume") = inr mode ->
  Json.eq_str mode "create" = true ->
  Json.getitem p "call_ids" = inr (JList ids) ->
  Json.getitem p "chunksize" = inr (JInt C) ->
  0 < C ->
  workers <> [] ->
  Chunks.ceil_div (Z.of_nat (length ids)) C <= Z.of_nat (length workers) ->
  exists chunks,
    Chunks.iterchunks ids C = inr chunks
    /\ Controller.run_job E p (JList workers) w
       = (Ret tt,
          add_events (zip_with (fun wi c => EvSubmit wi c p) workers chunks) w)
    /\ forall k c, chunks !! k = Some c ->
         c = take (Z.to_nat C) (drop (k * Z.to_nat C) ids)
         /\ exists wi, workers !! k = Some wi.
Proof. apply run_job_submits_chunks. Qed.

(** X28. [init_keeper] never returns: once the access data hold the three
    keys and the handler is built, line 141 raises [AttributeError] on
    [standalone_handler.backend], with the handler stored and nothing else
    done; and when the access data or the configuration are wrong it raises
    earlier. The thread of the keeper is never started by it. *)
Theorem init_keeper_raises (E : env) (standalone_config vsi_details : json)
    (w : world) :
  (exists e w',
     Controller.init_keeper E standalone_config vsi_details w = (Raise e, w')
     /\ trace w' = trace w)
  /\ forall name ip id h,
       Json.getitem vsi_details "instance_name" = inr name ->
       Json.getitem vsi_details "ip_address" = inr ip ->
       Json.getitem vsi_details "instance_id" = inr id ->
       Standalone.__init__ E standalone_config = inr h ->
       Controller.init_keeper E standalone_config vsi_details w
       = (Raise (Py.AttributeError
                   "'StandaloneHandler' object has no attribute 'backend'"),
          set_self h w).
Proof.
  split.
  - unfold Controller.init_keeper.
    destruct (Json.getitem vsi_details "instance_name") as [e|name] eqn:Hname;
      [rewrite bind_lift; eauto|rewrite bind_lift].
    destruct (Json.getitem vsi_details "ip_address") as [e|ip] eqn:Hip;
      [rewrite bind_lift; eauto|rewrite bind_lift].
    destruct (Json.getitem vsi_details "instance_id") as [e|id] eqn:Hid;
      [rewrite bind_lift; eauto|rewrite bind_lift].
    destruct (Standalone.__init__ E standalone_config) as [e|h] eqn:Hh;
      [rewrite bind_lift; eauto|rewrite bind_lift].
    rewrite bind_modify. eauto.
  - intros name ip id h Hname Hip Hid Hh. unfold Controller.init_keeper.
    rewrite bind_lift, Hname, bind_lift, Hip, bind_lift, Hid, bind_lift, Hh.
    by rewrite bind_modify.
Qed.

(** ** The further properties on concrete inputs *)

(** X1 on ten calls and a chunk size of -4: [run_job] returns and has
    submitted nothing. *)
Lemma nonpositive_chunk_size_submits_nothing_witness :
  let p := Scenario.a_job 10 Scenario.ten_ids (-4) Scenario.ten_ranges in
  let w := Scenario.a_world 0 (Scenario.a_handler (JBool true) (JInt 10) (JInt 30) []) in
  Controller.run_job Scenario.calm p (JList Scenario.three_workers) w
  = (if -4 =? 0 then Raise (Py.ValueError "range() arg 3 must not be zero")
     else Ret tt, w).
Proof.
  intros p w.
  apply (nonpositive_chunk_size_submits_nothing Scenario.calm p
           (JObj {[ "standalone"%string :=
                      JObj {[ "exec_mode"%string := JStr "create" ]} ]})
           (JObj {[ "exec_mode"%string := JStr "create" ]})
           (JStr "create") (map JStr Scenario.ten_ids) Scenario.three_workers (-4) w).
  - vm_compute. reflexivity.
  - vm_compute. reflexivity.
  - vm_compute. reflexivity.
  - reflexivity.
  - vm_compute. reflexivity.
  - vm_compute. reflexivity.
  - discriminate.
  - lia.
Defined.

(** A chunk size of zero raises. *)
Example zero_chunk_size_raises :
  let p := Scenario.a_job 10 Scenario.ten_ids 0 Scenario.ten_ranges in
  let w := Scenario.a_world 0 (Scenario.a_handler (JBool true) (JInt 10) (JInt 30) []) in
  Controller.run_job Scenario.calm p (JList Scenario.three_workers) w
  = (Raise (Py.ValueError "range() arg 3 must not be zero"), w).
Proof. vm_compute. reflexivity. Qed.

(** X3 on ten ranges and the chunk of the calls 4 to 7. *)
Lemma canonical_chunk_selects_own_ranges_witness :
  Controller.select_ranges Scenario.ten_ranges
    (Py.slice (map (fun k : nat => JStr (Py.format_05d (Z.of_nat k)))
                   (seq 0 (length Scenario.ten_ranges))) 4 (4 + 4))
  = inr (Py.slice Scenario.ten_ranges 4 (4 + 4)).
Proof.
  apply (canonical_chunk_selects_own_ranges Scenario.ten_ranges 4 4); lia.
Defined.

(** X4 on ten calls, chunks of four and two workers: the third chunk is
    never submitted. *)
Lemma too_few_workers_partial_dispatch_witness :
  let p := Scenario.ten_calls in
  let workers := take 2 Scenario.three_workers in
  let w := Scenario.a_world 0 (Scenario.a_handler (JBool true) (JInt 10) (JInt 30) []) in
  exists chunks,
    Chunks.iterchunks (map JStr Scenario.ten_ids) 4 = inr chunks
    /\ Controller.run_job Scenario.calm p (JList workers) w
       = (Raise (Py.IndexError "pop from empty list"),
          add_events (zip_with (fun wi c => EvSubmit wi c p) workers
                               (take (length workers) chunks)) w)
    /\ (length workers < length chunks)%nat.
Proof.
  intros p workers w.
  apply (too_few_workers_partial_dispatch Scenario.calm p
           (JObj {[ "standalone"%string :=
                      JObj {[ "exec_mode"%string := JStr "create" ]} ]})
           (JObj {[ "exec_mode"%string := JStr "create" ]})
           (JStr "create") (map JStr Scenario.ten_ids) workers 4 w).
  - vm_compute. reflexivity.
  - vm_compute. reflexivity.
  - vm_compute. reflexivity.
  - reflexivity.
  - vm_compute. reflexivity.
  - vm_compute. reflexivity.
  - lia.
  - discriminate.
  - vm_compute. reflexivity.
Defined.

(** X6 on a request without a body. *)
Lemma run_rejection_changes_nothing_witness :
  let w := Cases.a_used_world 50 0 (Scenario.a_handler (JBool true) (JInt 10) (JInt 30) []) in
  let body := JObj {[ "error"%string :=
                        JStr "indices must be integers or the object is not subscriptable" ]} in
  let w' := snd (Controller.run Scenario.calm JNull w) in
  w' = w /\ 404 = 404
  /\ exists msg : string, body = JObj {[ "error"%string := JStr msg ]}.
Proof.
  intros w body w'.
  apply (run_rejection_changes_nothing Scenario.calm JNull w w' 404 body).
  - vm_compute. reflexivity.
  - discriminate.
Defined.

(** X7 on a message without [config]. *)
Lemma run_error_resets_countdown_witness :
  let w := Cases.a_used_world 50 0 (Scenario.a_handler (JBool true) (JInt 10) (JInt 30) []) in
  let w' := snd (Controller.run Scenario.calm (Cases.a_request None) w) in
  last_usage_time w' = now w /\ now w' = now w.
Proof.
  intros w w'.
  apply (run_error_resets_countdown Scenario.calm (Cases.a_request None) w w'
           (Py.KeyError "config")).
  vm_compute. reflexivity.
Defined.

(** X8 on a message that carries [auto_dismantle] only. *)
Lemma run_partial_overwrite_witness :
  let sc : gmap string json := {[ "auto_dismantle"%string := JBool false ]} in
  let cfg := JObj {[ "standalone"%string := JObj sc ]} in
  let message := Cases.a_request (Some cfg) in
  let w := Cases.a_used_world 50 0 (Scenario.a_handler (JBool true) (JInt 10) (JInt 30) []) in
  exists w',
    Controller.run Scenario.calm message w
    = (Raise (Py.KeyError "soft_dismantle_timeout"), w')
    /\ auto_dismantle (self w') = JBool false
    /\ soft_dismantle_timeout (self w') = soft_dismantle_timeout (self w)
    /\ hard_dismantle_timeout (self w') = hard_dismantle_timeout (self w)
    /\ last_usage_time w' = now w
    /\ jobs w' = jobs w /\ trace w' = trace w.
Proof.
  intros sc cfg message w.
  apply (run_partial_overwrite Scenario.calm message cfg sc (JStr "python3")
           (JBool false) w).
  - vm_compute. reflexivity.
  - reflexivity.
  - vm_compute. reflexivity.
  - vm_compute. reflexivity.
  - vm_compute. reflexivity.
  - vm_compute. reflexivity.
Defined.

(** X9 on a message of the executor [e1] and the job [00003]. *)
Lemma accepted_job_is_registered_witness :
  let E := Scenario.calm in
  let message := Scenario.a_message (JBool true) (JInt 300) (JInt 3600) in
  let w := Scenario.a_world 50 (Scenario.a_handler (JBool false) (JInt 10) (JInt 30) []) in
  let w' := snd (Controller.run E message w) in
  exists executor_id job_id job_key,
    Json.getitem message "executor_id" = inr executor_id
    /\ Json.getitem message "job_id" = inr job_id
    /\ create_job_key E executor_id job_id = inr job_key
    /\ jobs w' = <[job_key := Running]> (jobs w)
    /\ trace w' = trace w ++ [(now w, EvLocalRun message)]
    /\ JObj {[ "activationId"%string := JStr "0f1e2d3c4b5a" ]}
       = JObj {[ "activationId"%string := JStr (new_activation_id E (now w)) ]}
    /\ forall t,
         done_file_exists E job_key t = false ->
         Controller.fully_idle
           (set_jobs (Controller.refresh_jobs E t (jobs w')) w') = false.
Proof.
  intros E message w w'.
  apply (accepted_job_is_registered E message w w'
           (JObj {[ "activationId"%string := JStr "0f1e2d3c4b5a" ]})).
  vm_compute. reflexivity.
Defined.

(** X10 on a fleet whose backends cannot be stopped, over forty
    iterations: the hard timeout of 30 seconds runs out on the way. *)
Lemma keeper_never_raises_witness :
  let E := Cases.stuck_stop in
  let w := Scenario.a_world 0 (Scenario.a_handler (JBool false) (JInt 10) (JInt 30)
                                 [Scenario.worker_a]) in
  exists w',
    Controller.budget_keeper_loop E 40 false w = (OutOfFuel, w')
    /\ self w' = self w
    /\ (now w <= now w')%Q.
Proof.
  intros E w.
  apply (keeper_never_raises E 10 30 40);
    [by vm_compute..|reflexivity|reflexivity].
Defined.

(** The failures of [backend.stop()] in that run are logged. *)
Example keeper_logs_dismantle_errors :
  let w := Scenario.a_world 0 (Scenario.a_handler (JBool false) (JInt 10) (JInt 30)
                                 [Scenario.worker_a]) in
  events (snd (Controller.budget_keeper_loop Cases.stuck_stop 31 false w))
  = [EvDismantle; EvStop Scenario.worker_a; EvLog "Dismantle error"].
Proof. vm_compute. reflexivity. Qed.

(** X11 on a configuration with a backend and a runtime only. *)
Lemma keeper_dies_without_soft_timeout_witness :
  let E := Scenario.calm in
  let w := Scenario.a_world 0 (Scenario.booted E (JObj Cases.bare_config)) in
  Controller.budget_keeper E 1 w
  = (Raise (Py.TypeError "unsupported operand type(s)"), w).
Proof.
  intros E w.
  apply (keeper_dies_without_soft_timeout E Cases.bare_config w 0).
  - vm_compute. reflexivity.
  - vm_compute. reflexivity.
Defined.

(** X12 a hundred seconds after the last usage, with a hard timeout of
    thirty: three iterations, three dismantles. *)
Lemma keeper_dismantles_without_pause_witness :
  let E := Scenario.calm in
  let w := Cases.a_used_world 100 0
             (Scenario.a_handler (JBool false) (JInt 10) (JInt 30) [Scenario.worker_a]) in
  exists w',
    Controller.budget_keeper_loop E 3 false w = (OutOfFuel, w')
    /\ now w' = now w
    /\ last_usage_time w' = last_usage_time w
    /\ dismantle_times (trace w') = dismantle_times (trace w) ++ repeat (now w) 3.
Proof.
  intros E w.
  apply (keeper_dismantles_without_pause E 10 30 3).
  - lra.
  - reflexivity.
  - reflexivity.
  - left. reflexivity.
  - vm_compute. reflexivity.
Defined.

(** X13 on a message with timeouts of 300 and 3600 seconds. *)
Lemma accepted_job_not_dismantled_at_once_witness :
  let E := Scenario.calm in
  let message := Scenario.a_message (JBool true) (JInt 300) (JInt 3600) in
  let w := Scenario.a_world 50 (Scenario.a_handler (JBool false) (JInt 10) (JInt 30)
                                  [Scenario.worker_a]) in
  let w1 := snd (Controller.run E message w) in
  exists jobs_running' w2,
    Controller.budget_keeper_iter E false w1 = (Ret jobs_running', w2)
    /\ trace w2 = trace w1
    /\ now w2 = (now w1 + 300 / 10)%Q.
Proof.
  intros E message w w1.
  apply (accepted_job_not_dismantled_at_once E message w w1
           (JObj {[ "activationId"%string := JStr "0f1e2d3c4b5a" ]}) 300 3600 false).
  - vm_compute. reflexivity.
  - reflexivity.
  - reflexivity.
  - lra.
  - lra.
Defined.

(** X14 on an instance that is ready after ten seconds: the third poll
    of the wait succeeds, ten seconds after the call. *)
Lemma ready_backend_is_not_dismantled_witness :
  let E := Cases.slow_boot in
  let b := Scenario.worker_a in
  let w := Scenario.a_world 0 (Scenario.a_handler (JBool true) (JInt 10) (JInt 30)
                                 [Scenario.worker_a]) in
  let w' := set_now 10 w in
  true = true
  /\ (exists t, w' = set_now t w)
  /\ trace w' = trace w
  /\ self w' = self w.
Proof.
  intros E b w w'.
  apply (ready_backend_is_not_dismantled E b w w' true).
  left. vm_compute. reflexivity.
Defined.

(** The wait for the proxy on the same instance: its third poll succeeds,
    four seconds after the call. *)
Example slow_proxy_third_poll :
  let w := Scenario.a_world 0 (Scenario.a_handler (JBool true) (JInt 10) (JInt 30)
                                 [Scenario.worker_a]) in
  Standalone._wait_proxy_ready Cases.slow_boot Scenario.worker_a w
  = (Ret true, set_now 4 w).
Proof. vm_compute. reflexivity. Qed.

(** X15 on a handler in [create] mode. *)
Lemma create_returns_registered_backend_witness :
  let E := Scenario.calm in
  let w := Scenario.a_world 0 (Scenario.booted E (Scenario.a_config "create")) in
  let b := Backend "proxy-python3" (Some "id-python3"%string)
                   (Some "10.0.0.python3"%string) true in
  let w' := snd (Standalone.create E "proxy" "python3" w) in
  exists b0,
    Standalone.create_backend_handler E (self w) = inr b0
    /\ backend_create E b0 "proxy" "python3" = inr b
    /\ self w' = set_backends (backends (self w) ++ [b]) (self w)
    /\ events w' = events w ++ [EvCreate "proxy" "python3"; EvStart b; EvSetupProxy b]
    /\ stops (trace w') = stops (trace w).
Proof.
  intros E w b w'.
  apply (create_returns_registered_backend E "proxy" "python3" w w' b).
  vm_compute. reflexivity.
Defined.

(** X16 on a provider that refuses to start instances. *)
Lemma create_keeps_backend_that_fails_to_start_witness :
  let E := Cases.stuck_start in
  let w := Scenario.a_world 0 (Scenario.booted E (Scenario.a_config "create")) in
  let b := Backend "e1-00003-00000" (Some "id-00000"%string)
                   (Some "10.0.0.00000"%string) true in
  exists w',
    Standalone.create E "e1-00003" "00000" w
    = (Raise (Py.Exception "quota exceeded"), w')
    /\ backends (self w') = backends (self w) ++ [b]
    /\ events w' = events w ++ [EvCreate "e1-00003" "00000"; EvStart b]
    /\ stops (trace w') = stops (trace w).
Proof.
  intros E w b.
  apply (create_keeps_backend_that_fails_to_start E "e1-00003" "00000" w
           (Backend "" None None true) b (Py.Exception "quota exceeded")).
  - vm_compute. reflexivity.
  - reflexivity.
  - reflexivity.
Defined.

(** X18 in [create] mode: the proxy of the runtime is created, asked
    and stopped. *)
Lemma create_runtime_stops_only_its_proxy_witness :
  let E := Scenario.calm in
  let R := Cases.answering in
  let w := Scenario.a_world 0 (Scenario.booted E (Scenario.a_config "create")) in
  let w' := snd (Runtime.create_runtime E R "python3" w) in
  exists b,
    (if provided_backed (self w)
     then head (backends (self w)) = Some b
          /\ self w' = self w
          /\ events w' = events w ++ [EvStart b; EvSetupProxy b]
     else self w' = set_backends (backends (self w) ++ [b]) (self w)
          /\ events w' = events w ++ [EvCreate "proxy" "python3"; EvStart b;
                                      EvSetupProxy b; EvStop b])
    /\ Runtime.preinstalls_request R (self w') b "python3" (now w')
       = inr Cases.some_meta.
Proof.
  intros E R w w'.
  apply (create_runtime_stops_only_its_proxy E R "python3" w w' Cases.some_meta).
  vm_compute. reflexivity.
Defined.

(** On a provided backend nothing is created nor stopped. *)
Example create_runtime_on_provided_backend :
  let E := Scenario.bound in
  let w := Scenario.a_world 0 (Scenario.booted E (Scenario.a_config "consume")) in
  let r := Runtime.create_runtime E Cases.answering "python3" w in
  fst r = Ret Cases.some_meta
  /\ events (snd r) = [EvStart Scenario.worker_a; EvSetupProxy Scenario.worker_a].
Proof. vm_compute. split; reflexivity. Qed.

(** X19 on a proxy that does not answer the request. *)
Lemma create_runtime_error_leaves_proxy_running_witness :
  let E := Scenario.calm in
  let R := Cases.refusing in
  let w := Scenario.a_world 0 (Scenario.booted E (Scenario.a_config "create")) in
  let b := Backend "proxy-python3" (Some "id-python3"%string)
                   (Some "10.0.0.python3"%string) true in
  let w1 := snd (Standalone.create E "proxy" "python3" w) in
  Runtime.create_runtime E R "python3" w = (Raise (Py.Exception "timed out"), w1)
  /\ In b (backends (self w1))
  /\ In (EvStart b) (events w1)
  /\ stops (trace w1) = stops (trace w).
Proof.
  intros E R w b w1.
  apply (create_runtime_error_leaves_proxy_running E R "python3" w w1 b
           (Py.Exception "timed out")).
  - reflexivity.
  - vm_compute. reflexivity.
  - vm_compute. reflexivity.
Defined.

(** X20 on a runtime name between slashes. *)
Lemma runtime_key_has_no_outer_slash_witness :
  let w := Scenario.a_world 0 (Scenario.a_handler (JBool true) (JInt 10) (JInt 30) []) in
  exists key n m,
    Runtime.get_runtime_key Cases.answering "//lithops/python3/" w = (Ret key, w)
    /\ "//lithops/python3/"%string
       = (Py.repeat_char "/" n ++ key ++ Py.repeat_char "/" m)%string
    /\ (forall s, key <> String "/" s)
    /\ (forall s, key <> (s ++ "/")%string).
Proof.
  intros w.
  apply (proj1 (runtime_key_has_no_outer_slash Cases.answering "//lithops/python3/" w)).
  reflexivity.
Defined.

Example runtime_key_examples :
  let w := Scenario.a_world 0 (Scenario.a_handler (JBool true) (JInt 10) (JInt 30) []) in
  let w1 := Scenario.a_world 0 (Scenario.a_handler (JBool true) (JInt 10) (JInt 30)
                                  [Scenario.worker_a; Scenario.worker_b]) in
  fst (Runtime.get_runtime_key Cases.answering "//lithops/python3/" w)
  = Ret "lithops/python3"%string
  /\ fst (Runtime.get_runtime_key Cases.answering "//lithops/python3/" w1)
     = Ret "lithops-worker-a///lithops/python3/"%string.
Proof. vm_compute. split; reflexivity. Qed.

(** X23 on a job that sends empty chunks only, while its marker exists. *)
Lemma silent_job_is_monitored_until_close_witness :
  let turns := [Cases.empty_chunk; Cases.nothing_to_read; Cases.nothing_to_read] in
  fst (LogMonitor.log_monitor turns) <> LogMonitor.MarkerFound
  /\ ((forall t, In t turns -> LogMonitor.channel_closed t = false) ->
      fst (LogMonitor.log_monitor turns) = LogMonitor.Polling).
Proof.
  intros turns.
  apply (silent_job_is_monitored_until_close turns).
  intros t d [<-|[<-|[<-|[]]]]; cbn; congruence.
Defined.

(** With a chunk of log the marker ends the loop, and a write that fails
    on the second file leaves the chunk in the first only. *)
Example log_monitor_with_output :
  LogMonitor.log_monitor
    [Cases.a_chunk "started" (inr tt);
     Cases.a_chunk "result" (inl (Py.Exception "disk full"));
     Cases.nothing_to_read; Cases.empty_chunk]
  = (LogMonitor.MarkerFound,
     LogMonitor.State (Some "result"%string) ["started"; "result"]%string
                      ["started"%string] 0).
Proof. reflexivity. Qed.

(** X24 on three turns of a [select] that raises. *)
Lemma failing_select_spins_the_monitor_witness :
  LogMonitor.log_monitor [Cases.broken_select; Cases.broken_select; Cases.broken_select]
  = (LogMonitor.Polling, LogMonitor.State None [] [] 0).
Proof.
  apply (failing_select_spins_the_monitor
           [Cases.broken_select; Cases.broken_select; Cases.broken_select]).
  intros t [<-|[<-|[<-|[]]]]; (split; [reflexivity|by eexists]).
Defined.

(** X27 on ten calls in chunks of four and three workers. *)
Lemma create_mode_submits_each_chunk_once_witness :
  let E := Scenario.calm in
  let p := Scenario.ten_calls in
  let ids := map JStr Scenario.ten_ids in
  let workers := Scenario.three_workers in
  let w := Scenario.a_world 0 (Scenario.a_handler (JBool true) (JInt 10) (JInt 30) []) in
  exists chunks,
    Chunks.iterchunks ids 4 = inr chunks
    /\ Controller.run_job E p (JList workers) w
       = (Ret tt,
          add_events (zip_with (fun wi c => EvSubmit wi c p) workers chunks) w)
    /\ forall k c, chunks !! k = Some c ->
         c = take (Z.to_nat 4) (drop (k * Z.to_nat 4) ids)
         /\ exists wi, workers !! k = Some wi.
Proof.
  intros E p ids workers w.
  apply (create_mode_submits_each_chunk_once E p
           (JObj {[ "standalone"%string :=
                      JObj {[ "exec_mode"%string := JStr "create" ]} ]})
           (JObj {[ "exec_mode"%string := JStr "create" ]})
           (JStr "create") ids workers 4 w).
  - vm_compute. reflexivity.
  - vm_compute. reflexivity.
  - vm_compute. reflexivity.
  - reflexivity.
  - vm_compute. reflexivity.
  - vm_compute. reflexivity.
  - lia.
  - discriminate.
  - vm_compute. discriminate.
Defined.

(** [init_keeper] on the access data of a master and a configuration in
    [consume] mode. *)
Example init_keeper_on_master :
  let w := Scenario.a_world 0 (Scenario.a_handler (JBool true) (JInt 10) (JInt 30) []) in
  fst (Controller.init_keeper Scenario.calm (Scenario.a_config "consume")
         (JObj (list_to_map [("instance_name"%string, JStr "lithops-master-1");
                             ("ip_address"%string, JStr "10.0.0.1");
                             ("instance_id"%string, JStr "id-master")])) w)
  = Raise (Py.AttributeError "'StandaloneHandler' object has no attribute 'backend'").
Proof. vm_compute. reflexivity. Qed.
